(** * The decision log of app.py: store, summary and selection

    app.py is a Streamlit script.  On every run it (1) appends the
    submitted form to [data.csv], (2) reloads the whole file with pandas,
    (3) computes three summary metrics and (4) filters the frame by the
    chosen decision labels before charting.  This development embeds
    those four stages and proves the properties stated for them.

    Conventions of the embedding:
    - a CSV file is the list of its lines, each of them ended by a line
      terminator as [to_csv] leaves them, and a line is the list of its
      fields; the quoting that [to_csv] adds and [read_csv] removes
      again is not represented;
    - a raised exception is a value of [exn] carried by [result];
    - a float64 is the rational number it stands for; an average is
      the float64 quotient of an integer sum by a count ([div64]), and
      what float64 arithmetic makes of sums that it cannot hold exactly
      is an interface ([PandasFloats]);
    - a [Timestamp] is its number of nanoseconds since the epoch;
    - what pandas does with the text of a number or of a date is an
      interface ([PandasText]) that every definition is generic in. *)

From Stdlib Require Import List String Ascii Bool ZArith QArith Qabs Lia.
From Stdlib Require Import DecimalString DecimalPos DecimalZ.
Import ListNotations.

Open Scope string_scope.
Open Scope Z_scope.
Open Scope list_scope.

(** ** Python: exceptions, results, [str] and [join] *)

Module Py.

Inductive exn : Type :=
| FileNotFoundError
| EmptyDataError
| ParserError
| KeyError (key : string)
| AttributeError (name : string)
| TypeError
| ValueError
| StreamlitAPIException.

Inductive result (A : Type) : Type :=
| Ok (a : A)
| Raise (e : exn).

Arguments Ok {A} a.
Arguments Raise {A} e.

Definition bind {A B : Type} (m : result A) (k : A -> result B) : result B :=
  match m with
  | Ok a => k a
  | Raise e => Raise e
  end.

Fixpoint mapM {A B : Type} (f : A -> result B) (l : list A) : result (list B) :=
  match l with
  | [] => Ok []
  | a :: l' =>
      bind (f a) (fun b => bind (mapM f l') (fun bs => Ok (b :: bs)))
  end.

(** [str(n)] for a Python [int]. *)
Definition str_int (n : Z) : string :=
  NilZero.string_of_int (Z.to_int n).

(** [sep.join(parts)]. *)
Definition join (sep : string) (parts : list string) : string :=
  String.concat sep parts.

(** [name in names]. *)
Definition contains (name : string) (names : list string) : bool :=
  existsb (String.eqb name) names.

(** [names.index(name)], [None] when absent. *)
Fixpoint index (name : string) (names : list string) : option nat :=
  match names with
  | [] => None
  | n :: names' =>
      if String.eqb name n then Some O
      else option_map S (index name names')
  end.

End Py.

Import Py.

Notation "x <- m ;; k" := (bind m (fun x => k))
  (at level 61, m at next level, right associativity).

(** ** float64: the quotient of two integers, and fixed-point text *)

Module Float64.

(** [a / b] rounded to the nearest integer, a tie to the even one, for
    [0 <= a] and [0 < b]. *)
Definition round_half_even (a b : Z) : Z :=
  let q := a / b in
  match 2 * (a mod b) ?= b with
  | Lt => q
  | Gt => q + 1
  | Eq => if Z.even q then q else q + 1
  end.

(** The [e] with [2^e <= a / b < 2^(e+1)], for [0 < a] and [0 < b]. *)
Definition exponent (a b : Z) : Z :=
  if b <=? a then Z.log2 (a / b)
  else - Z.log2_up ((b + a - 1) / a).

(** The float64 nearest to [a / b], for [0 < a] and [0 < b]: the
    quotient is scaled by a power of two into [2^52, 2^53), rounded to
    an integer, which has 53 bits, and scaled back.  This is the
    division of IEEE 754 as long as the result is a normal number,
    which it is for integers up to 2^53. *)
Definition div64_pos (a b : Z) : Q :=
  let shift := 52 - exponent a b in
  if 0 <=? shift
  then Qmake (round_half_even (a * 2 ^ shift) b) (Z.to_pos (2 ^ shift))
  else inject_Z (round_half_even a (b * 2 ^ (- shift)) * 2 ^ (- shift)).

(** [np.float64(a) / np.float64(b)] for integers [a] and [b] that
    float64 holds exactly, [0 < b]. *)
Definition div64 (a b : Z) : Q :=
  match a with
  | 0 => 0%Q
  | Zpos _ => div64_pos a b
  | Zneg _ => Qopp (div64_pos (- a) b)
  end.

(** The float64 nearest to a rational number, within the normal
    range. *)
Definition round64 (x : Q) : Q := div64 (Qnum x) (Zpos (Qden x)).

(** [s.zfill(width)]. *)
Definition zfill (width : nat) (s : string) : string :=
  String.append
    (string_of_list_ascii (repeat "0"%char (width - String.length s))) s.

(** [format(x, ".<digits>f")] for a float [x] other than [nan], the
    infinities and the negative zero: the decimal with that many
    digits after the point that is nearest to [x], a tie to the even
    one. *)
Definition format_f (digits : nat) (x : Q) : string :=
  let scale := 10 ^ Z.of_nat digits in
  let m := round_half_even (Z.abs (Qnum x) * scale) (Zpos (Qden x)) in
  let whole := str_int (m / scale) in
  let text :=
    match digits with
    | O => whole
    | _ => String.append whole
             (String.append "." (zfill digits (str_int (m mod scale))))
    end in
  if Qnum x <? 0 then String.append "-" text else text.

End Float64.

Import Float64.

(** ** pandas: cell values, frames, CSV text *)

Module Pandas.

(** The scalars a cell of the frame can hold. *)
Inductive value : Type :=
| NaN
| Str (s : string)
| Int (z : Z)
| Float (q : Q)
| Bool (b : bool)
| NaT
| Timestamp (ns : Z).

(** The text side of pandas that app.py relies on but does not contain:
    which tokens are numbers, how a column is turned into datetimes and
    how numbers and timestamps are printed. *)
Class PandasText : Type := {
  (** the int64 a token denotes, if any *)
  str_to_int64 : string -> option Z;
  (** the float64 a token denotes, if any *)
  str_to_double : string -> option Q;
  (** [pd.to_datetime(col, errors="coerce")] at position [i], as a
      local time without zone; [None] is the invalid marker [NaT] *)
  to_datetime_coerce : list value -> nat -> option Z;
  (** [str(ts)] for a [Timestamp] *)
  Timestamp_str : Z -> string;
  (** [repr] of a float64 as [to_csv] writes it *)
  float_str : Q -> string;
  (** the UTC offset, in minutes, that the text of a date ends with, if
      it ends with one *)
  utc_offset : string -> option Z;
  (** the text of a timestamp without a zone, as [Timestamp.now()] is
      one, ends with no offset *)
  Timestamp_str_naive : forall t, utc_offset (Timestamp_str t) = None
}.

(** What float64 arithmetic makes of the mean of a column whose sum it
    does not hold exactly: a column of floats, or one of integers whose
    sum passes 2^53.  [None] is [nan]. *)
Class PandasFloats : Type := {
  rounded_mean : list value -> option Q
}.

Record DataFrame : Type := mkFrame {
  columns : list string;
  values : list (list value)
}.

(** [len(df)]. *)
Definition len (df : DataFrame) : nat := List.length (values df).

(** [df.empty]: some axis has length zero. *)
Definition empty (df : DataFrame) : bool :=
  (List.length (columns df) =? 0)%nat || (List.length (values df) =? 0)%nat.

(** [row[name]], for a row of a frame with the given columns. *)
Definition cell (cols : list string) (name : string) (row : list value)
  : option value :=
  match index name cols with
  | Some i => nth_error row i
  | None => None
  end.

(** [df[name]]: the column as a list, [KeyError] when there is none. *)
Definition getitem (df : DataFrame) (name : string) : result (list value) :=
  match index name (columns df) with
  | Some i => Ok (map (fun row => nth i row NaN) (values df))
  | None => Raise (KeyError name)
  end.

(** [r.name] inside [df.apply(..., axis=1)]. *)
Definition getattr (cols : list string) (row : list value) (name : string)
  : result value :=
  match cell cols name row with
  | Some v => Ok v
  | None => Raise (AttributeError name)
  end.

Fixpoint replace_nth {A : Type} (i : nat) (a : A) (l : list A) : list A :=
  match l, i with
  | [], _ => []
  | _ :: l', O => a :: l'
  | x :: l', S i' => x :: replace_nth i' a l'
  end.

Fixpoint zip_with {A B C : Type} (f : A -> B -> C) (l : list A) (m : list B)
  : list C :=
  match l, m with
  | a :: l', b :: m' => f a b :: zip_with f l' m'
  | _, _ => []
  end.

(** [df[name] = col]: overwrite the column in place when it exists,
    add it on the right otherwise. *)
Definition setitem (df : DataFrame) (name : string) (col : list value)
  : DataFrame :=
  match index name (columns df) with
  | Some i =>
      mkFrame (columns df)
              (zip_with (fun row v => replace_nth i v row) (values df) col)
  | None =>
      mkFrame (columns df ++ [name])
              (zip_with (fun row v => row ++ [v]) (values df) col)
  end.

(** [df[name] = scalar]: the scalar is broadcast over the rows. *)
Definition setitem_scalar (df : DataFrame) (name : string) (v : value)
  : DataFrame :=
  setitem df name (repeat v (len df)).

(** [df[mask]] for a boolean mask. *)
Fixpoint select {A : Type} (rows : list A) (mask : list bool) : list A :=
  match rows, mask with
  | r :: rows', b :: mask' =>
      if b then r :: select rows' mask' else select rows' mask'
  | _, _ => []
  end.

Definition getitem_mask (df : DataFrame) (mask : list bool) : DataFrame :=
  mkFrame (columns df) (select (values df) mask).

(** *** CSV text *)

Definition line : Type := list string.
Definition csv : Type := list line.

(** The tokens that [read_csv] takes for a missing value when it is
    given no [na_values] and no [keep_default_na=False]. *)
Definition STR_NA_VALUES : list string :=
  [""; "#N/A"; "#N/A N/A"; "#NA"; "-1.#IND"; "-1.#QNAN"; "-NaN"; "-nan";
   "1.#IND"; "1.#QNAN"; "<NA>"; "N/A"; "NA"; "NULL"; "NaN"; "None";
   "n/a"; "nan"; "null"].

Definition is_na (tok : string) : bool := contains tok STR_NA_VALUES.

Definition true_values : list string := ["True"; "TRUE"; "true"].
Definition false_values : list string := ["False"; "FALSE"; "false"].

Definition str_to_bool (tok : string) : option bool :=
  if contains tok true_values then Some true
  else if contains tok false_values then Some false
  else None.

Definition is_some {A : Type} (o : option A) : bool :=
  match o with Some _ => true | None => false end.

Inductive dtype : Type := int64 | float64 | bool_ | object_.

(** A line without fields, or with one empty field, is a blank line;
    [read_csv] skips those ([skip_blank_lines=True]). *)
Definition blank (l : line) : bool :=
  match l with
  | [] => true
  | [tok] => String.eqb tok ""
  | _ => false
  end.

Definition skip_blank_lines (lines : csv) : csv :=
  filter (fun l => negb (blank l)) lines.

(** Short lines are filled up with empty fields. *)
Definition pad (width : nat) (l : line) : line :=
  l ++ repeat "" (width - List.length l).

Definition column_tokens (j : nat) (rows : list line) : list string :=
  map (fun r => nth j r "") rows.

(** [Path.exists()]. *)
Definition exists_ (file : option csv) : bool :=
  match file with Some _ => true | None => false end.

Definition NS_PER_DAY : Z := 86400 * 1000000000.

(** [Timestamp.normalize()]: midnight of the same day. *)
Definition normalize (t : Z) : Z := t - t mod NS_PER_DAY.

(** [Series.dt.normalize()]; [.dt] exists on datetime columns only. *)
Definition dt_normalize (col : list value) : result (list value) :=
  mapM (fun v =>
          match v with
          | Timestamp t => Ok (Timestamp (normalize t))
          | NaT => Ok NaT
          | _ => Raise (AttributeError "dt")
          end) col.

(** [series == ts], elementwise; [NaT] equals nothing. *)
Definition eq_timestamp (ts : Z) (v : value) : bool :=
  match v with
  | Timestamp t => t =? ts
  | _ => false
  end.

(** The number a cell counts as in an arithmetic reduction; [None] is a
    skipped [NaN]. *)
Definition as_number (v : value) : result (option Q) :=
  match v with
  | Int z => Ok (Some (inject_Z z))
  | Float q => Ok (Some q)
  | Bool b => Ok (Some (if b then 1%Q else 0%Q))
  | NaN => Ok None
  | Str _ | NaT | Timestamp _ => Raise TypeError
  end.

Definition present (l : list (option Q)) : list Q :=
  flat_map (fun o => match o with Some q => [q] | None => [] end) l.

(** The integer of a cell of an int64 or bool column. *)
Definition exact_int (v : value) : option Z :=
  match v with
  | Int z => Some z
  | Bool b => Some (if b then 1 else 0)
  | _ => None
  end.

Fixpoint exact_ints (col : list value) : option (list Z) :=
  match col with
  | [] => Some []
  | v :: col' =>
      match exact_int v, exact_ints col' with
      | Some z, Some zs => Some (z :: zs)
      | _, _ => None
      end
  end.

Definition total (zs : list Z) : Z := fold_right Z.add 0 zs.

(** float64 holds every integer up to 2^53 in absolute value: when the
    absolute values add up to no more than that, every partial sum is
    exact in whatever order the sum is taken, and so is the count. *)
Definition sums_exactly (zs : list Z) : bool :=
  (total (map Z.abs zs) <=? 2 ^ 53) && (Z.of_nat (List.length zs) <=? 2 ^ 53).

Definition of_option (o : option Q) : value :=
  match o with
  | Some q => Float q
  | None => NaN
  end.

(** [Series.mean()], a float64: the sum of the cells that are not [NaN],
    taken in float64, divided by their number; [nan] when there is no
    such cell.  Text and dates cannot be added. *)
Definition mean {floats : PandasFloats} (col : list value) : result value :=
  nums <- mapM as_number col ;;
  match present nums with
  | [] => Ok NaN
  | _ =>
      match exact_ints col with
      | Some zs =>
          if sums_exactly zs
          then Ok (Float (div64 (total zs) (Z.of_nat (List.length zs))))
          else Ok (of_option (rounded_mean col))
      | None => Ok (of_option (rounded_mean col))
      end
  end.

(** [val < 0]; Python refuses to order a string or a date against an
    [int]. *)
Definition lt0 (v : value) : result bool :=
  match v with
  | Int z => Ok (z <? 0)
  | Float q => Ok (negb (Qle_bool 0 q))
  | Bool _ | NaN => Ok false
  | Str _ | NaT | Timestamp _ => Raise TypeError
  end.

Definition numeric (v : value) : option Q :=
  match v with
  | Int z => Some (inject_Z z)
  | Float q => Some q
  | Bool b => Some (if b then 1%Q else 0%Q)
  | _ => None
  end.

(** Equality of cells the way the hash tables behind [isin] and
    [unique] see it: missing values are equal to each other. *)
Definition value_eqb (a b : value) : bool :=
  match a, b with
  | NaN, NaN => true
  | NaT, NaT => true
  | Str s, Str t => String.eqb s t
  | Timestamp s, Timestamp t => s =? t
  | _, _ =>
      match numeric a, numeric b with
      | Some p, Some q => Qeq_bool p q
      | _, _ => false
      end
  end.

(** [Series.isin(sel)]. *)
Definition isin (col sel : list value) : list bool :=
  map (fun v => existsb (value_eqb v) sel) col.

Fixpoint unique_from (seen col : list value) : list value :=
  match col with
  | [] => []
  | v :: col' =>
      if existsb (value_eqb v) seen then unique_from seen col'
      else v :: unique_from (v :: seen) col'
  end.

(** [Series.unique().tolist()]: first occurrences, in order. *)
Definition unique (col : list value) : list value := unique_from [] col.

(** [pd.isna(v)]. *)
Definition isna (v : value) : bool :=
  match v with
  | NaN | NaT => true
  | _ => false
  end.

(** The column has dtype float64: it has cells, and each is a float or
    the missing value. *)
Definition is_float64 (col : list value) : bool :=
  negb (List.length col =? 0)%nat &&
  forallb (fun v => match v with Float _ | NaN => true | _ => false end) col.

(** [a == b] in Python, for two elements of lists made by [tolist()]:
    [nan] and [NaT] are equal to nothing, themselves included. *)
Definition py_eqb (a b : value) : bool :=
  negb (isna a) && negb (isna b) && value_eqb a b.

(** *** The names of the columns *)

Definition count_of (counts : list (string * nat)) (name : string) : nat :=
  match find (fun p => String.eqb name (fst p)) counts with
  | Some p => snd p
  | None => O
  end.

(** The inner loop of the renaming: [old_col] was seen [cur] times, so
    the name tried is [old_col.cur], and the next one as long as the
    name tried is taken. *)
Fixpoint dedup_name (fuel : nat) (this_header : list string)
    (counts : list (string * nat)) (old_col col : string) (cur : nat)
  : string * nat * list (string * nat) :=
  match fuel with
  | O => (col, cur, counts)
  | S fuel' =>
      match cur with
      | O => (col, cur, counts)
      | S _ =>
          let counts := (old_col, S cur) :: counts in
          let col :=
            String.append old_col
              (String.append "." (str_int (Z.of_nat cur))) in
          if contains col this_header
          then dedup_name fuel' this_header counts old_col col (S cur)
          else dedup_name fuel' this_header counts old_col col
                 (count_of counts col)
      end
  end.

(** The names [read_csv] gives to the columns of a header line
    (pandas 2): an empty name at position [i] becomes [Unnamed: i]; then,
    the given names first and the unnamed ones after them, a name that
    was met before gets the suffix [.1], [.2], ... *)
Definition mangle_dupe_cols (header : line) : list string :=
  let n := List.length header in
  let positions := seq 0 n in
  let is_unnamed := fun i => String.eqb (nth i header "") "" in
  let this_header :=
    map (fun i =>
           if is_unnamed i
           then String.append "Unnamed: " (str_int (Z.of_nat i))
           else nth i header "") positions in
  let order :=
    filter (fun i => negb (is_unnamed i)) positions
    ++ filter is_unnamed positions in
  fst (fold_left
         (fun (state : list string * list (string * nat)) i =>
            let (this_header, counts) := state in
            let col := nth i this_header "" in
            let '(col', cur, counts') :=
              dedup_name (S n) this_header counts col col
                (count_of counts col) in
            (replace_nth i col' this_header, (col', S cur) :: counts'))
         order (this_header, [])).

Section Text.
Context {text : PandasText}.

(** The dtype [read_csv] settles on for a column: it tries int64,
    float64 and bool in this order and falls back to object.  A missing
    value rules int64 out; the other attempts skip it. *)
Definition infer_dtype (toks : list string) : dtype :=
  let known := filter (fun t => negb (is_na t)) toks in
  match toks with
  | [] => object_
  | _ =>
      if forallb (fun t => negb (is_na t) && is_some (str_to_int64 t)) toks
      then int64
      else if forallb (fun t => is_some (str_to_double t)) known
      then float64
      else if forallb (fun t => is_some (str_to_bool t)) known
      then bool_
      else object_
  end.

Definition convert (d : dtype) (tok : string) : value :=
  if is_na tok then NaN
  else match d with
       | int64 =>
           match str_to_int64 tok with Some z => Int z | None => Str tok end
       | float64 =>
           match str_to_double tok with Some q => Float q | None => Str tok end
       | bool_ =>
           match str_to_bool tok with Some b => Bool b | None => Str tok end
       | object_ => Str tok
       end.

(** [pd.read_csv(path)] with every option at its default.  The first
    line that is not blank is the header, whose names are made
    different from each other.  The first data line may be longer than
    the header: its leading fields are then the index and are not
    columns.  A later line longer than that is an error. *)
Definition read_csv (file : option csv) : result DataFrame :=
  match file with
  | None => Raise FileNotFoundError
  | Some lines =>
      match skip_blank_lines lines with
      | [] => Raise EmptyDataError
      | header :: data =>
          let width := Nat.max (List.length header) (List.length (hd [] data)) in
          if existsb (fun l => (width <? List.length l)%nat) data
          then Raise ParserError
          else
            let lead := (width - List.length header)%nat in
            let rows := map (fun l => skipn lead (pad width l)) data in
            let dtypes :=
              map (fun j => infer_dtype (column_tokens j rows))
                  (seq 0 (List.length header)) in
            Ok (mkFrame (mangle_dupe_cols header)
                  (map (zip_with convert dtypes) rows))
      end
  end.

(** The text [to_csv] writes for a cell ([na_rep] is the empty text). *)
Definition to_csv_cell (v : value) : string :=
  match v with
  | NaN | NaT => ""
  | Str s => s
  | Int z => str_int z
  | Float q => float_str q
  | Bool b => if b then "True" else "False"
  | Timestamp t => Timestamp_str t
  end.

(** [df.to_csv(path, mode="a", index=False, header=header)]: the file
    is created when missing and only ever grows at its end.  Every
    line written is ended by a line terminator, so what is appended to
    a file of such lines starts a line of its own. *)
Definition to_csv_append (df : DataFrame) (file : option csv) (header : bool)
  : option csv :=
  let old := match file with Some lines => lines | None => [] end in
  Some (old ++ (if header then [columns df] else [])
            ++ map (map to_csv_cell) (values df)).

Definition cell_offset (v : value) : option Z :=
  match v with
  | Str s => utc_offset s
  | _ => None
  end.

(** Two cells of the column carry different UTC offsets. *)
Fixpoint mixed_offsets (col : list value) : bool :=
  match col with
  | [] => false
  | v :: col' =>
      match cell_offset v with
      | Some a =>
          existsb (fun u =>
                     match cell_offset u with
                     | Some b => negb (a =? b)
                     | None => false
                     end) col'
      | None => false
      end
      || mixed_offsets col'
  end.

(** [pd.to_datetime(col, errors="coerce")]: a text that is no date
    becomes [NaT], but dates of different UTC offsets in one column are
    refused with [ValueError]. *)
Definition to_datetime (col : list value) : result (list value) :=
  if mixed_offsets col then Raise ValueError
  else
    Ok (map (fun i =>
               match to_datetime_coerce col i with
               | Some t => Timestamp t
               | None => NaT
               end) (seq 0 (List.length col))).

End Text.

End Pandas.

(** ** app.py *)

Module App.

Import Pandas.

(** The options of the "Category" select box. *)
Inductive Category : Type := Work | Personal | Health_goal | Finance | Other.

Definition category_name (c : Category) : string :=
  match c with
  | Work => "Work"
  | Personal => "Personal"
  | Health_goal => "Health goal"
  | Finance => "Finance"
  | Other => "Other"
  end.

Definition categories : list string :=
  map category_name [Work; Personal; Health_goal; Finance; Other].

(** What the form holds when "Log Decision" is pressed.  The sliders
    keep [w], [h] and [s] between -100 and 100. *)
Record entry : Type := mkEntry {
  decision : string;
  category : Category;
  w : Z;
  h : Z;
  s : Z
}.

Definition in_slider_range (f : entry) : Prop :=
  -100 <= w f <= 100 /\ -100 <= h f <= 100 /\ -100 <= s f <= 100.

Inductive figure : Type :=
| scatter_ternary (data : DataFrame)
| bar_last (last : list value)
| bar_totals (data : DataFrame).

(** What a run puts on the page. *)
Inductive element : Type :=
| st_error (msg : string)
| st_warning (msg : string)
| st_success (msg : string)
| st_info (msg : string)
| st_metric (label : string) (v : value)
| st_plotly_chart (fig : figure).

(** *** Lines 24-56: the submitted entry *)

Definition sectors (f : entry) : list (string * Z) :=
  [("Wealth", w f); ("Health", h f); ("Self", s f)].

Definition negative (f : entry) : list string :=
  map fst (filter (fun p => snd p <? 0) (sectors f)).

Definition zero (f : entry) : list string :=
  map fst (filter (fun p => snd p =? 0) (sectors f)).

Definition impact_warning (f : entry) : list element :=
  match negative f with
  | _ :: _ =>
      [st_error (String.append "Negative impact on: " (join ", " (negative f)))]
  | [] =>
      match zero f with
      | _ :: _ =>
          [st_warning (String.append "No benefit to: " (join ", " (zero f)))]
      | [] => []
      end
  end.

Definition HEADER : line :=
  ["Decision"; "Category"; "Wealth"; "Health"; "Self"; "Time"].

Section Script.
Context {text : PandasText}.

(** [df_new], with [now] the value of [pd.Timestamp.now()]. *)
Definition df_new (f : entry) (now : Z) : DataFrame :=
  mkFrame HEADER
    [[Str (decision f); Str (category_name (category f));
      Int (w f); Int (h f); Int (s f); Timestamp now]].

(** The line of [data.csv] that the entry becomes. *)
Definition csv_line (f : entry) (now : Z) : line :=
  [decision f; category_name (category f);
   str_int (w f); str_int (h f); str_int (s f); Timestamp_str now].

(** [df_new.to_csv(DATA_PATH, mode="a", index=False,
                   header=not DATA_PATH.exists())]. *)
Definition append (f : entry) (now : Z) (file : option csv) : option csv :=
  to_csv_append (df_new f now) file (negb (exists_ file)).

Definition on_submit (f : entry) (now : Z) (file : option csv)
  : list element * option csv :=
  (impact_warning f ++ [st_success "Decision logged!"], append f now file).

(** *** Lines 59-72: the history *)

(** Lines 59-64. *)
Definition read_history (file : option csv) : result DataFrame :=
  match read_csv file with
  | Raise FileNotFoundError => Ok (mkFrame HEADER [])
  | r => r
  end.

(** Lines 67-68. *)
Definition ensure_category (df : DataFrame) : DataFrame :=
  if contains "Category" (columns df) then df
  else setitem_scalar df "Category" (Str "Uncategorized").

(** Lines 71-72. *)
Definition parse_time (df : DataFrame) : result DataFrame :=
  if negb (empty df) then
    time <- getitem df "Time" ;;
    time <- to_datetime time ;;
    Ok (setitem df "Time" time)
  else Ok df.

Definition load (file : option csv) : result DataFrame :=
  df <- read_history file ;;
  parse_time (ensure_category df).

End Script.

(** *** Lines 75-87: the summary *)

Record summary : Type := mkSummary {
  decisions_today : nat;
  avg_wealth : value;
  avg_neg_flags : value
}.

Definition count_true (flags : list bool) : Z :=
  fold_right (fun (b : bool) n => (if b then 1 else 0) + n) 0 flags.

(** [lambda r: sum(val < 0 for val in [r.Wealth, r.Health, r.Self])]. *)
Definition neg_flags (cols : list string) (r : list value) : result value :=
  vw <- getattr cols r "Wealth" ;;
  vh <- getattr cols r "Health" ;;
  vs <- getattr cols r "Self" ;;
  flags <- mapM lt0 [vw; vh; vs] ;;
  Ok (Int (count_true flags)).

(** Lines 76-78; [now] is the value of the second
    [pd.Timestamp.now()]. *)
Definition count_today (now : Z) (df : DataFrame) : result nat :=
  let today := normalize now in
  time <- getitem df "Time" ;;
  days <- dt_normalize time ;;
  let df_today := getitem_mask df (map (eq_timestamp today) days) in
  Ok (len df_today).

(** Lines 80-83. *)
Definition mean_neg_flags {floats : PandasFloats} (df : DataFrame)
  : result value :=
  flags <- mapM (neg_flags (columns df)) (values df) ;;
  mean flags.

Definition summarize {floats : PandasFloats} (now : Z) (df : DataFrame)
  : result summary :=
  if negb (empty df) then
    today_count <- count_today now df ;;
    wealth <- getitem df "Wealth" ;;
    mean_wealth <- mean wealth ;;
    mean_flags <- mean_neg_flags df ;;
    Ok (mkSummary today_count mean_wealth mean_flags)
  else Ok (mkSummary 0 (Int 0) (Int 0)).

(** *** Lines 96-98: the axes of the ternary chart *)

(** [series + 100], elementwise; the sum of a float and 100 is rounded
    to float64. *)
Definition add_100 (v : value) : result value :=
  match v with
  | Int z => Ok (Int (z + 100))
  | Float q => Ok (Float (round64 (q + 100)))
  | Bool b => Ok (Int ((if b then 1 else 0) + 100))
  | NaN => Ok NaN
  | Str _ | NaT | Timestamp _ => Raise TypeError
  end.

Definition shifted (df : DataFrame) (from to : string) : result DataFrame :=
  col <- getitem df from ;;
  col' <- mapM add_100 col ;;
  Ok (setitem df to col').

Definition ternary_axes (df : DataFrame) : result DataFrame :=
  df <- shifted df "Wealth" "w2" ;;
  df <- shifted df "Health" "h2" ;;
  shifted df "Self" "s2".

(** *** Lines 101-106: the selection *)

(** The labels offered, which are also the default selection. *)
Definition decision_labels (df : DataFrame) : result (list value) :=
  col <- getitem df "Decision" ;;
  Ok (unique col).

(** What Streamlit does and the script cannot tell: whether the
    missing value of a column of Python objects, which is one and the
    same object in the options and in the default, is found among the
    options. *)
Class Streamlit : Type := {
  finds_nan_object : bool
}.

(** [v in options] for an element of the default.  The two lists come
    from two calls of [tolist()]: [fresh_nan] says that the column is a
    float64 column, whose missing values become a new [nan] at every
    call, equal to nothing in the other list. *)
Definition is_option {st : Streamlit} (fresh_nan : bool)
    (options : list value) (v : value) : bool :=
  match v with
  | NaN => negb fresh_nan && finds_nan_object && existsb isna options
  | NaT => finds_nan_object && existsb isna options
  | _ => existsb (py_eqb v) options
  end.

(** [st.multiselect(label, options, default=default)]: an element of
    the default that is not among the options is refused; otherwise the
    selection is the default until the user picks. *)
Definition multiselect {st : Streamlit} (fresh_nan : bool)
    (options default : list value) (pick : option (list value))
  : result (list value) :=
  if forallb (is_option fresh_nan options) default
  then Ok (match pick with
           | Some sel => sel
           | None => default
           end)
  else Raise StreamlitAPIException.

(** [f"{avg:.<digits>f}"] for an average: the integer 0 of line 87, a
    float or [nan].  Text has no such format; dates are never
    averaged. *)
Definition format_average (digits : nat) (avg : value) : result string :=
  match avg with
  | Int z => Ok (format_f digits (inject_Z z))
  | Float q => Ok (format_f digits q)
  | Bool b => Ok (format_f digits (if b then 1%Q else 0%Q))
  | NaN => Ok "nan"
  | Str _ => Raise ValueError
  | NaT | Timestamp _ => Raise TypeError
  end.

(** [df[df["Decision"].isin(sel)]]. *)
Definition filter_decisions (df : DataFrame) (sel : list value)
  : result DataFrame :=
  col <- getitem df "Decision" ;;
  Ok (getitem_mask df (isin col sel)).

(** *** Lines 109-146: the charts *)

Definition charts (df2 : DataFrame) : list element :=
  if negb (empty df2) then
    [st_plotly_chart (scatter_ternary df2);
     st_plotly_chart (bar_last (last (values df2) []));
     st_plotly_chart (bar_totals df2)]
  else [st_info "No decisions to show."].

(** *** One run of the script *)

(** [submit] is the entry when the button was pressed, [now1] and
    [now2] the two readings of the clock, [pick] what the user chose in
    the multiselect.  The result is the page and the file afterwards. *)
Definition run {text : PandasText} {floats : PandasFloats} {st : Streamlit}
    (submit : option entry) (now1 now2 : Z)
    (pick : option (list value)) (file : option csv)
  : result (list element) * option csv :=
  let (page1, file) :=
    match submit with
    | Some f => on_submit f now1 file
    | None => ([], file)
    end in
  (df <- load file ;;
   m <- summarize now2 df ;;
   wealth_text <- format_average 1 (avg_wealth m) ;;
   flags_text <- format_average 2 (avg_neg_flags m) ;;
   df <- ternary_axes df ;;
   decisions <- getitem df "Decision" ;;
   options <- decision_labels df ;;
   default <- decision_labels df ;;
   sel <- multiselect (is_float64 decisions) options default pick ;;
   df2 <- filter_decisions df sel ;;
   Ok (page1
       ++ [st_metric "Decisions Today" (Int (Z.of_nat (decisions_today m)));
           st_metric "Avg Wealth Impact" (Str wealth_text);
           st_metric "Avg Negative Flags" (Str flags_text)]
       ++ charts df2),
   file).

End App.

(** ** An instance of the text interface

    Enough of pandas to run the definitions: the numbers are the decimal
    integers, and a timestamp is written as its count of nanoseconds,
    which [to_datetime] reads back as pandas reads any integer. *)

Module EpochText.

Import Pandas App.

Definition parse_int (tok : string) : option Z :=
  option_map Z.of_int (NilZero.int_of_string tok).

Definition parse_float (tok : string) : option Q :=
  option_map inject_Z (parse_int tok).

Definition epoch_ns (col : list value) (i : nat) : option Z :=
  match nth_error col i with
  | Some (Int z) => Some z
  | Some (Float q) => Some (Qnum q / Zpos (Qden q))
  | Some (Timestamp t) => Some t
  | _ => None
  end.

Definition print_float (q : Q) : string :=
  String.append (str_int (Qnum q))
                (String.append "/" (str_int (Zpos (Qden q)))).

#[export] Instance epoch_text : PandasText := {
  str_to_int64 := parse_int;
  str_to_double := parse_float;
  to_datetime_coerce := epoch_ns;
  Timestamp_str := str_int;
  float_str := print_float;
  utc_offset := fun _ => None;
  Timestamp_str_naive := fun _ => eq_refl
}.

(** No mean other than the exact ones: enough for columns of
    integers of the sliders. *)
#[export] Instance exact_means : PandasFloats := {
  rounded_mean := fun _ => None
}.

(** A Streamlit that looks for the default among the options with
    [in], which finds an object that is the same. *)
#[export] Instance same_object : Streamlit := {
  finds_nan_object := true
}.

End EpochText.

(** ** An instance whose dates may carry a UTC offset

    A timestamp is written as the letter T followed by its count of
    nanoseconds, and two texts of a time with an offset are known. *)

Module ZonedText.

Import Pandas.

Definition offset_of (tok : string) : option Z :=
  match tok with
  | String c _ =>
      if Ascii.eqb c "T"%char then None
      else if String.eqb tok "12:00+01:00" then Some 60
      else if String.eqb tok "12:00+02:00" then Some 120
      else None
  | EmptyString => None
  end.

#[export] Instance zoned_text : PandasText := {
  str_to_int64 := EpochText.parse_int;
  str_to_double := EpochText.parse_float;
  to_datetime_coerce := fun _ _ => None;
  Timestamp_str := fun t => String "T"%char (str_int t);
  float_str := EpochText.print_float;
  utc_offset := offset_of;
  Timestamp_str_naive := fun _ => eq_refl
}.

End ZonedText.

(** ** The vocabulary of the stated properties *)

Module Spec.

Import Pandas App.

(** The file starts with the header line and holds it only once. *)
Definition header_once (file : option csv) : Prop :=
  match file with
  | None => True
  | Some lines => exists rest, lines = HEADER :: rest /\ ~ In HEADER rest
  end.

(** The cell of a record under a column; a frame has no holes, so a
    cell that is not there counts as missing. *)
Definition field (cols : list string) (name : string) (row : list value)
  : value :=
  match cell cols name row with
  | Some v => v
  | None => NaN
  end.

(** The record's decision is one of the labels. *)
Definition labelled (cols : list string) (labels : list value)
    (row : list value) : bool :=
  existsb (value_eqb (field cols "Decision" row)) labels.

(** The calendar date of a timestamp, as a day number. *)
Definition date_of (t : Z) : Z := t / NS_PER_DAY.

(** The record was logged on the day of [now]; never so when its
    timestamp is the invalid marker. *)
Definition logged_on (cols : list string) (now : Z) (row : list value)
  : bool :=
  match field cols "Time" row with
  | Timestamp t => date_of t =? date_of now
  | _ => false
  end.

(** The three scores of a record when all of them are integers. *)
Definition scores (cols : list string) (row : list value)
  : option (Z * Z * Z) :=
  match cell cols "Wealth" row, cell cols "Health" row, cell cols "Self" row
  with
  | Some (Int a), Some (Int b), Some (Int c) => Some (a, b, c)
  | _, _, _ => None
  end.

(** How many of the three sectors are strictly negative. *)
Definition negative_sectors (t : Z * Z * Z) : Z :=
  let '(a, b, c) := t in
  Z.of_nat (List.length (filter (fun v => v <? 0) [a; b; c])).

Definition negative_sectors_of (cols : list string) (row : list value) : Z :=
  match scores cols row with
  | Some t => negative_sectors t
  | None => 0
  end.

Definition Zsum (l : list Z) : Z := fold_right Z.add 0 l.

(** Every record has one cell per column. *)
Definition rectangular (df : DataFrame) : Prop :=
  forall row, In row (values df) -> List.length row = List.length (columns df).

(** The cell is a point in time or the invalid marker. *)
Definition is_time (v : value) : Prop :=
  match v with
  | Timestamp _ | NaT => True
  | _ => False
  end.

(** Midnight of the day of a cell of a datetime column. *)
Definition midnight (v : value) : value :=
  match v with
  | Timestamp t => Timestamp (normalize t)
  | _ => NaT
  end.

(** The header of a store written before the category column was
    introduced. *)
Definition LEGACY_HEADER : line :=
  ["Decision"; "Wealth"; "Health"; "Self"; "Time"].

(** The data lines of a file: what follows the header, blank lines
    apart. *)
Definition data_lines (lines : csv) : csv :=
  tl (skip_blank_lines lines).

(** *** When a record does come back from the store *)

Definition digit (c : ascii) : bool :=
  existsb (Ascii.eqb c)
    ["0"; "1"; "2"; "3"; "4"; "5"; "6"; "7"; "8"; "9"]%char.

(** Nothing but digits and minus signs. *)
Fixpoint number_chars (tok : string) : bool :=
  match tok with
  | EmptyString => true
  | String c rest => (digit c || Ascii.eqb c "-"%char) && number_chars rest
  end.

(** The reader gives back the integers of the sliders as Python
    prints them. *)
Definition reads_slider_ints {text : PandasText} : Prop :=
  forall z, -100 <= z <= 100 -> str_to_int64 (str_int z) = Some z.

(** The token reads as text: not as a missing value, a number or a
    boolean. *)
Definition plain_text {text : PandasText} (tok : string) : Prop :=
  is_na tok = false /\ str_to_int64 tok = None /\
  str_to_double tok = None /\ str_to_bool tok = None.

(** The lines that a list of submitted entries becomes. *)
Definition csv_lines {text : PandasText} (es : list (entry * Z)) : csv :=
  map (fun p => csv_line (fst p) (snd p)) es.

(** The store is absent or holds what the form has written so far. *)
Definition written_by_form {text : PandasText} (file : option csv) : Prop :=
  match file with
  | None => True
  | Some lines =>
      exists es,
        Forall (fun p => in_slider_range (fst p)) es /\
        lines = HEADER :: csv_lines es
  end.

End Spec.

(** ** Sample entries, frames and stores *)

Module Samples.

Import Pandas App.

(** The entry of the scenario: one positive, one zero and one negative
    score. *)
Definition index_fund : entry := mkEntry "Buy index fund" Finance 20 0 (-10).

(** The form submitted with its decision left empty. *)
Definition unnamed : entry := mkEntry "" Finance 20 0 (-10).

Definition two_walks : DataFrame :=
  mkFrame HEADER
    [[Str "Walk"; Str "Health goal"; Int 0; Int 30; Int 10; Timestamp 0];
     [Str "Save"; Str "Finance"; Int 40; Int 0; Int (-5); Timestamp 5];
     [Str "Walk"; Str "Health goal"; Int 0; Int 20; Int 10; NaT]].



(** A store written before the category column was introduced. *)
Definition legacy_store : csv :=
  [["Decision"; "Wealth"; "Health"; "Self"; "Time"];
   ["Walk"; "0"; "30"; "10"; "86400000000007"];
   ["Save"; "40"; "0"; "-5"; "172800000000000"]].

End Samples.

(** ** The data of the two bar charts *)

Module Bars.

Import Pandas App.

(** What pandas makes of a sum that the embedding leaves open: over an
    object column, a column that holds text or holds booleans beside
    missing values; and over a float64 column, where the result depends
    on the order in which float64 adds ([None] is [nan]). *)
Class PandasObjects : Type := {
  object_sum : list value -> result value;
  float_sum : list value -> option Q
}.

Definition is_date (v : value) : bool :=
  match v with NaT | Timestamp _ => true | _ => false end.

Definition is_str (v : value) : bool :=
  match v with Str _ => true | _ => false end.

Definition is_bool (v : value) : bool :=
  match v with Bool _ => true | _ => false end.

Definition is_nan (v : value) : bool :=
  match v with NaN => true | _ => false end.

Definition is_float (v : value) : bool :=
  match v with Float _ | NaN => true | _ => false end.

(** The integer a cell of an int64 or bool column stands for. *)
Definition as_int (v : value) : Z :=
  match v with
  | Int z => z
  | Bool b => if b then 1 else 0
  | _ => 0
  end.

(** [Series.sum()]: dates cannot be added; an object column is left to
    [object_sum] and a float64 column to [float_sum]; an int64 or bool
    column is added exactly. *)
Definition sum {objects : PandasObjects} (col : list value) : result value :=
  if existsb is_date col then Raise TypeError
  else if existsb is_str col || (existsb is_bool col && existsb is_nan col)
  then object_sum col
  else if existsb is_float col then Ok (of_option (float_sum col))
  else Ok (Int (fold_right Z.add 0 (map as_int col))).

Definition SECTORS : list string := ["Wealth"; "Health"; "Self"].

(** Line 123, [last[["Wealth", "Health", "Self"]]], for the record
    [last] of a frame with the given columns. *)
Definition last_sectors (cols : list string) (last : list value)
  : result (list (string * value)) :=
  mapM (fun name =>
          match cell cols name last with
          | Some v => Ok (name, v)
          | None => Raise (KeyError name)
          end) SECTORS.

(** Line 134, [df2[["Wealth", "Health", "Self"]].sum()]. *)
Definition totals {objects : PandasObjects} (df2 : DataFrame)
  : result (list (string * value)) :=
  cols <- mapM (fun name => col <- getitem df2 name ;; Ok (name, col)) SECTORS ;;
  mapM (fun nc => t <- sum (snd nc) ;; Ok (fst nc, t)) cols.

(** An instance that refuses every object column and has no sum for a
    float64 column: enough for columns of integers. *)
#[export] Instance no_objects : PandasObjects := {
  object_sum := fun _ => Raise TypeError;
  float_sum := fun _ => None
}.

End Bars.

(** ** The vocabulary of the further properties *)

Module Views.

Import Pandas App Spec.

(** The file after the given entries have been submitted, one run
    each, starting without a file. *)
Definition store_after {text : PandasText} (es : list (entry * Z))
  : option csv :=
  fold_left (fun file p => append (fst p) (snd p) file) es None.

(** The record that a submitted entry is loaded as, up to its decision,
    its category and its time. *)
Definition loaded_as (p : entry * Z) (row : list value) : Prop :=
  exists d c t,
    row = [d; c; Int (w (fst p)); Int (h (fst p)); Int (s (fst p)); t] /\
    is_time t.

(** The three cells that lines 96-98 add to a record. *)
Definition axes (cols : list string) (row : list value) : list value :=
  match scores cols row with
  | Some (a, b, c) => [Int (a + 100); Int (b + 100); Int (c + 100)]
  | None => []
  end.

(** The wealth, health and self of a record with integer scores. *)
Definition wealth_of (cols : list string) (row : list value) : Z :=
  match scores cols row with Some (a, _, _) => a | None => 0 end.

Definition health_of (cols : list string) (row : list value) : Z :=
  match scores cols row with Some (_, b, _) => b | None => 0 end.

Definition self_of (cols : list string) (row : list value) : Z :=
  match scores cols row with Some (_, _, c) => c | None => 0 end.

(** The frame has the three score columns and none of the three
    columns that lines 96-98 add. *)
Definition ready_for_axes (cols : list string) : Prop :=
  (In "Wealth" cols /\ In "Health" cols /\ In "Self" cols) /\
  ~ In "w2" cols /\ ~ In "h2" cols /\ ~ In "s2" cols.

(** The scores of every record are integers of the sliders. *)
Definition slider_scores (df : DataFrame) : Prop :=
  forall row, In row (values df) ->
    exists a b c,
      scores (columns df) row = Some (a, b, c) /\
      -100 <= a <= 100 /\ -100 <= b <= 100 /\ -100 <= c <= 100.

(** The store is absent or holds what the form has written so far,
    and none of its decisions reads as a missing value. *)
Definition named_store {text : PandasText} (file : option csv) : Prop :=
  match file with
  | None => True
  | Some lines =>
      exists es,
        Forall (fun p => in_slider_range (fst p) /\
                         is_na (decision (fst p)) = false) es /\
        lines = HEADER :: csv_lines es
  end.

(** No two of the labels are equal. *)
Fixpoint distinct (labels : list value) : Prop :=
  match labels with
  | [] => True
  | v :: rest =>
      existsb (value_eqb v) rest = false /\ distinct rest
  end.

End Views.

(** ** Sample entries and stores for the further properties *)

Module Logbook.

Import Pandas App.

Definition walk : entry := mkEntry "Walk" Health_goal 0 30 10.

Definition save : entry := mkEntry "Save" Finance 40 0 (-5).

(** Two entries, logged on the second and on the third day of the
    epoch. *)
Definition two_entries : list (entry * Z) :=
  [(walk, 86400000000007); (save, 172800000000000)].

Definition two_lines : csv :=
  [HEADER;
   ["Walk"; "Health goal"; "0"; "30"; "10"; "86400000000007"];
   ["Save"; "Finance"; "40"; "0"; "-5"; "172800000000000"]].

End Logbook.

(** * Properties *)

Import Pandas App Spec Samples.
Import Bars Views Logbook.

(** ** The warning about the submitted scores *)

Ltac split_signs f :=
  unfold negative, zero, sectors; simpl;
  destruct (Z.ltb_spec (w f) 0), (Z.ltb_spec (h f) 0), (Z.ltb_spec (s f) 0);
  destruct (Z.eqb_spec (w f) 0), (Z.eqb_spec (h f) 0), (Z.eqb_spec (s f) 0);
  try lia; simpl.

Ltac in_names :=
  repeat match goal with
         | H : _ \/ _ |- _ => destruct H
         | H : False |- _ => destruct H
         | H : _ = _ :> string |- _ => discriminate H
         end.

(** C2. Wealth is listed as negative exactly when the wealth score is
    below zero, and as zero exactly when it is zero; the same holds of
    Health with the health score and of Self with the self score, and
    no other name is ever listed, so a positive score is listed
    nowhere.  The names stand in the order Wealth, Health, Self.  The
    page shows the error when some sector is negative, the warning only
    when none is negative and some is zero; for the scores (20, 0, -10)
    the negative list is Self, the zero list is Health and the error is
    the only message. *)
Theorem impact_classification (f : entry) :
  ((In "Wealth" (negative f) <-> w f < 0) /\
   (In "Health" (negative f) <-> h f < 0) /\
   (In "Self" (negative f) <-> s f < 0)) /\
  ((In "Wealth" (zero f) <-> w f = 0) /\
   (In "Health" (zero f) <-> h f = 0) /\
   (In "Self" (zero f) <-> s f = 0)) /\
  (forall name, In name (negative f) \/ In name (zero f) ->
     name = "Wealth" \/ name = "Health" \/ name = "Self") /\
  (negative f =
     (if w f <? 0 then ["Wealth"] else [])
     ++ (if h f <? 0 then ["Health"] else [])
     ++ (if s f <? 0 then ["Self"] else []) /\
   zero f =
     (if w f =? 0 then ["Wealth"] else [])
     ++ (if h f =? 0 then ["Health"] else [])
     ++ (if s f =? 0 then ["Self"] else [])) /\
  (negative f <> [] ->
     impact_warning f =
     [st_error (String.append "Negative impact on: " (join ", " (negative f)))]) /\
  (negative f = [] -> zero f <> [] ->
     impact_warning f =
     [st_warning (String.append "No benefit to: " (join ", " (zero f)))]) /\
  (negative f = [] -> zero f = [] -> impact_warning f = []) /\
  (w f = 20 -> h f = 0 -> s f = -10 ->
     negative f = ["Self"] /\ zero f = ["Health"] /\
     impact_warning f = [st_error "Negative impact on: Self"]).
Proof.
  split; [| split; [| split; [| split; [| split; [| split; [| split]]]]]].
  - split_signs f; intuition (in_names; auto; try lia).
  - split_signs f; intuition (in_names; auto; try lia).
  - intros name [I | I]; revert I; split_signs f; intros; in_names; auto.
  - unfold negative, zero, sectors. simpl.
    destruct (w f <? 0), (h f <? 0), (s f <? 0),
      (w f =? 0), (h f =? 0), (s f =? 0); split; reflexivity.
  - unfold impact_warning. destruct (negative f); [congruence | reflexivity].
  - unfold impact_warning. intros -> Z0.
    destruct (zero f); [congruence | reflexivity].
  - unfold impact_warning. intros -> ->. reflexivity.
  - intros W H S. unfold impact_warning, negative, zero, sectors.
    rewrite W, H, S. repeat split.
Qed.

Lemma impact_classification_witness :
  negative index_fund = ["Self"] /\ zero index_fund = ["Health"] /\
  impact_warning index_fund = [st_error "Negative impact on: Self"].
Proof.
  apply (impact_classification index_fund); reflexivity.
Defined.

(** ** The first run and the empty history *)

(** C6. Without a storage file the load does not raise: it yields the
    frame that has no record and whose columns are the five fields of
    the form followed by the time. *)
Theorem load_without_file {text : PandasText} :
  exists df,
    load None = Ok df /\ values df = [] /\
    columns df = ["Decision"; "Category"; "Wealth"; "Health"; "Self"; "Time"].
Proof.
  exists (mkFrame HEADER []). repeat split.
Qed.

(** C4. On a history without records the three metrics are zero: the
    count of today, the average wealth and the average number of
    negative flags. *)
Theorem empty_summary {floats : PandasFloats} (now : Z) (df : DataFrame) :
  values df = [] ->
  summarize now df = Ok (mkSummary 0 (Int 0) (Int 0)).
Proof.
  intros E. unfold summarize, empty. rewrite E. simpl.
  rewrite Bool.orb_true_r. reflexivity.
Qed.

Lemma empty_summary_witness :
  summarize (floats := EpochText.exact_means) 0 (mkFrame HEADER [])
  = Ok (mkSummary 0 (Int 0) (Int 0)).
Proof.
  apply (empty_summary (floats := EpochText.exact_means) 0 (mkFrame HEADER [])).
  reflexivity.
Defined.

(** ** The header of the storage file *)

Lemma append_lines {text : PandasText} (f : entry) (now : Z) (file : option csv) :
  append f now file =
  Some (match file with
        | None => [HEADER; csv_line f now]
        | Some lines => lines ++ [csv_line f now]
        end).
Proof.
  destruct file; reflexivity.
Qed.

Lemma csv_line_not_header {text : PandasText} (f : entry) (now : Z) :
  csv_line f now <> HEADER.
Proof.
  unfold csv_line, HEADER. destruct (category f); intros E; inversion E.
Qed.

(** C9. When the file is missing the append creates it as the header
    line followed by the record; when it exists the append leaves
    every line in place and adds the record at the end, without a
    header.  So a file that starts with the header and holds it once
    still does after the append. *)
Theorem append_keeps_one_header {text : PandasText}
    (f : entry) (now : Z) (file : option csv) :
  header_once file ->
  header_once (append f now file) /\
  match file with
  | None => append f now file = Some [HEADER; csv_line f now]
  | Some lines => append f now file = Some (lines ++ [csv_line f now])
  end.
Proof.
  intros Inv. rewrite append_lines. destruct file as [lines |]; simpl.
  - split; [| reflexivity].
    destruct Inv as (rest & -> & Once).
    exists (rest ++ [csv_line f now]). split; [reflexivity |].
    intros I. apply in_app_or in I as [I | [I | []]]; [auto |].
    now apply (csv_line_not_header f now).
  - split; [| reflexivity].
    exists [csv_line f now]. split; [reflexivity |].
    intros [I | []]. now apply (csv_line_not_header f now).
Qed.

Lemma append_keeps_one_header_witness :
  header_once
    (append (text := EpochText.epoch_text) index_fund 1000
       (Some [HEADER; ["Walk"; "Health goal"; "0"; "30"; "10"; "0"]])).
Proof.
  apply (append_keeps_one_header (text := EpochText.epoch_text) index_fund 1000
           (Some [HEADER; ["Walk"; "Health goal"; "0"; "30"; "10"; "0"]])).
  exists [["Walk"; "Health goal"; "0"; "30"; "10"; "0"]].
  split; [reflexivity |]. intros [E | []]. discriminate E.
Defined.

(** ** Columns and masks *)

Lemma index_in (name : string) (names : list string) :
  In name names -> exists i, index name names = Some i.
Proof.
  induction names as [| n names IH]; simpl; [intros [] |].
  intros I. destruct (String.eqb_spec name n) as [-> | N].
  - now exists O.
  - destruct I as [-> | I]; [congruence |].
    destruct (IH I) as (i & ->). now exists (S i).
Qed.

Lemma index_lt (name : string) (names : list string) (i : nat) :
  index name names = Some i -> (i < List.length names)%nat.
Proof.
  revert i. induction names as [| n names IH]; simpl; [discriminate |].
  intros i. destruct (String.eqb name n).
  - intros [= <-]. lia.
  - destruct (index name names) as [j |]; simpl; [| discriminate].
    intros [= <-]. specialize (IH j eq_refl). lia.
Qed.

Lemma field_nth (cols : list string) (name : string) (i : nat)
    (row : list value) :
  index name cols = Some i -> field cols name row = nth i row NaN.
Proof.
  intros E. unfold field, cell. rewrite E.
  destruct (nth_error row i) as [v |] eqn:N.
  - symmetry. now apply nth_error_nth.
  - symmetry. apply nth_overflow. now apply nth_error_None.
Qed.

Lemma select_map {A : Type} (p : A -> bool) (rows : list A) :
  select rows (map p rows) = filter p rows.
Proof.
  induction rows as [| r rows IH]; simpl; [reflexivity |].
  rewrite IH. reflexivity.
Qed.

Lemma filter_none {A : Type} (p : A -> bool) (rows : list A) :
  (forall r, In r rows -> p r = false) -> filter p rows = [].
Proof.
  induction rows as [| r rows IH]; simpl; [reflexivity |].
  intros N. rewrite (N r) by auto. apply IH. auto.
Qed.

Lemma filter_all {A : Type} (p : A -> bool) (rows : list A) :
  (forall r, In r rows -> p r = true) -> filter p rows = rows.
Proof.
  induction rows as [| r rows IH]; simpl; [reflexivity |].
  intros N. rewrite (N r) by auto. f_equal. apply IH. auto.
Qed.

Lemma filter_decisions_eq (df : DataFrame) (sel : list value) :
  In "Decision" (columns df) ->
  filter_decisions df sel =
  Ok (mkFrame (columns df) (filter (labelled (columns df) sel) (values df))).
Proof.
  intros I. destruct (index_in _ _ I) as (i & E).
  unfold filter_decisions, getitem, getitem_mask, isin. rewrite E. simpl.
  rewrite map_map.
  rewrite (map_ext _ (labelled (columns df) sel)).
  - now rewrite select_map.
  - intros row. unfold labelled. now rewrite (field_nth _ _ i).
Qed.

(** ** Equality of labels and the offered labels *)

Lemma value_eqb_refl (v : value) : value_eqb v v = true.
Proof.
  destruct v; simpl; try reflexivity.
  - apply String.eqb_refl.
  - apply Qeq_bool_iff. reflexivity.
  - apply Qeq_bool_iff. reflexivity.
  - apply Qeq_bool_iff. reflexivity.
  - apply Z.eqb_refl.
Qed.

Lemma unique_from_covers (col seen : list value) (v : value) :
  In v col ->
  existsb (value_eqb v) seen = true \/
  existsb (value_eqb v) (unique_from seen col) = true.
Proof.
  revert seen. induction col as [| x col IH]; simpl; [intros _ [] |].
  intros seen [-> | I].
  - destruct (existsb (value_eqb v) seen) eqn:S; [now left | right].
    simpl. now rewrite value_eqb_refl.
  - destruct (existsb (value_eqb x) seen) eqn:S; [now apply IH |].
    destruct (IH (x :: seen) I) as [C | C].
    + simpl in C. apply Bool.orb_true_iff in C as [C | C]; [right | now left].
      simpl. now rewrite C.
    + right. simpl. rewrite C. apply Bool.orb_true_r.
Qed.

Lemma unique_covers (col : list value) (v : value) :
  In v col -> existsb (value_eqb v) (unique col) = true.
Proof.
  intros I. destruct (unique_from_covers col [] v I) as [C | C];
    [discriminate C | exact C].
Qed.

Lemma unique_from_occurs (col seen : list value) (v : value) :
  In v (unique_from seen col) -> In v col.
Proof.
  revert seen. induction col as [| x col IH]; simpl; [auto |].
  intros seen. destruct (existsb (value_eqb x) seen).
  - intros I. right. now apply (IH seen).
  - intros [-> | I]; [now left | right]. now apply (IH (x :: seen)).
Qed.

(** ** The selection *)

(** C8. The frame kept by the selection holds exactly the records whose
    decision is one of the chosen labels, in their original order; when
    no record has such a decision the frame has no record and the chart
    stage shows the notice "No decisions to show." and nothing else. *)
Theorem filter_decisions_subsequence (df : DataFrame) (sel : list value) :
  In "Decision" (columns df) ->
  exists df2,
    filter_decisions df sel = Ok df2 /\
    columns df2 = columns df /\
    values df2 = filter (labelled (columns df) sel) (values df) /\
    ((forall row, In row (values df) -> labelled (columns df) sel row = false) ->
     values df2 = [] /\ charts df2 = [st_info "No decisions to show."]).
Proof.
  intros I. eexists. split; [now apply filter_decisions_eq |].
  simpl. split; [reflexivity |]. split; [reflexivity |].
  intros None. rewrite (filter_none _ _ None). split; [reflexivity |].
  unfold charts, empty. simpl. now rewrite Bool.orb_true_r.
Qed.

Lemma filter_decisions_subsequence_witness :
  (exists df2,
     filter_decisions two_walks [Str "Walk"] = Ok df2 /\
     values df2 =
     [[Str "Walk"; Str "Health goal"; Int 0; Int 30; Int 10; Timestamp 0];
      [Str "Walk"; Str "Health goal"; Int 0; Int 20; Int 10; NaT]]) /\
  (exists df2,
     filter_decisions two_walks [Str "X"] = Ok df2 /\
     charts df2 = [st_info "No decisions to show."]).
Proof.
  split.
  - destruct (filter_decisions_subsequence two_walks [Str "Walk"])
      as (df2 & E & _ & V & _).
    + simpl. auto.
    + exists df2. split; [exact E | exact V].
  - destruct (filter_decisions_subsequence two_walks [Str "X"])
      as (df2 & E & _ & _ & N).
    + simpl. auto.
    + exists df2. split; [exact E |]. apply N.
      simpl. intros row [<- | [<- | [<- | []]]]; reflexivity.
Defined.

(** ** The float64 quotient *)

Lemma round_half_even_near (a b : Z) :
  0 < b ->
  a / b <= round_half_even a b <= a / b + 1 /\
  2 * Z.abs (round_half_even a b * b - a) <= b.
Proof.
  intros B. unfold round_half_even.
  pose proof (Z.div_mod a b ltac:(lia)) as D.
  pose proof (Z.mod_pos_bound a b B) as M.
  destruct (Z.compare_spec (2 * (a mod b)) b) as [E | L | G].
  - destruct (Z.even (a / b)); split; lia.
  - split; lia.
  - split; lia.
Qed.

Lemma round_half_even_le (a b n : Z) :
  0 < b -> a <= n * b -> round_half_even a b <= n.
Proof.
  intros B A. unfold round_half_even.
  pose proof (Z.div_mod a b ltac:(lia)) as D.
  pose proof (Z.mod_pos_bound a b B) as M.
  assert (Q1 : a / b <= n) by (apply Z.div_le_upper_bound; lia).
  assert (Q2 : 0 < a mod b -> a / b < n) by nia.
  destruct (Z.compare_spec (2 * (a mod b)) b) as [E | L | G].
  - destruct (Z.even (a / b)); lia.
  - lia.
  - lia.
Qed.

Lemma round_half_even_ge (a b n : Z) :
  0 < b -> n * b <= a -> n <= round_half_even a b.
Proof.
  intros B A. pose proof (round_half_even_near a b B) as (N & _).
  assert (n <= a / b) by (apply Z.div_le_lower_bound; lia). lia.
Qed.

Lemma exponent_spec (a b : Z) :
  0 < a -> 0 < b ->
  (0 <= exponent a b /\
   b * 2 ^ exponent a b <= a < b * 2 ^ (exponent a b + 1)) \/
  (exponent a b < 0 /\
   b <= a * 2 ^ (- exponent a b) /\ a * 2 ^ (- exponent a b) < 2 * b).
Proof.
  intros A B. unfold exponent. destruct (Z.leb_spec b a) as [L | L].
  - left.
    assert (P : 0 < a / b) by (apply Z.div_str_pos; lia).
    pose proof (Z.log2_spec (a / b) P) as (Lo & Hi).
    pose proof (Z.log2_nonneg (a / b)) as N.
    pose proof (Z.div_mod a b ltac:(lia)) as D.
    pose proof (Z.mod_pos_bound a b B) as M.
    rewrite <- Z.add_1_r in Hi. split; [exact N |]. split; nia.
  - right.
    set (c := (b + a - 1) / a).
    pose proof (Z.div_mod (b + a - 1) a ltac:(lia)) as D.
    pose proof (Z.mod_pos_bound (b + a - 1) a A) as M.
    fold c in D.
    assert (C : 1 < c) by nia.
    pose proof (Z.log2_up_spec c C) as (Lo & Hi).
    assert (P : 0 < Z.log2_up c) by (apply Z.log2_up_pos; lia).
    rewrite Z.opp_involutive. split; [lia |].
    replace (2 ^ Z.log2_up c) with (2 * 2 ^ Z.pred (Z.log2_up c)) in *.
    2:{ rewrite <- Z.pow_succ_r by lia. f_equal. lia. }
    split; nia.
Qed.

(** The scaled quotient and its rounding. *)
Lemma div64_pos_mantissa (a b : Z) :
  0 < a -> 0 < b ->
  exists m n d k,
    0 < d /\ 0 < k /\ 2 ^ 52 * d <= n /\
    2 * Z.abs (m * d - n) <= d /\
    m = round_half_even n d /\
    ((n = a * k /\ d = b /\
      div64_pos a b = Qmake m (Z.to_pos k) /\ Zpos (Z.to_pos k) = k) \/
     (n = a /\ d = b * k /\ 2 <= k /\ div64_pos a b = inject_Z (m * k))).
Proof.
  intros A B. unfold div64_pos.
  set (e := exponent a b). set (s := 52 - e).
  destruct (exponent_spec a b A B) as [(E & Lo & Hi) | (E & Lo & Hi)];
    fold e in E, Lo, Hi.
  - destruct (Z.leb_spec 0 s) as [S | S].
    + assert (K : 0 < 2 ^ s) by (apply Z.pow_pos_nonneg; lia).
      exists (round_half_even (a * 2 ^ s) b), (a * 2 ^ s), b, (2 ^ s).
      split; [exact B |]. split; [exact K |]. split.
      * replace (2 ^ 52) with (2 ^ e * 2 ^ s)
          by (rewrite <- Z.pow_add_r by lia; f_equal; lia).
        nia.
      * split; [apply round_half_even_near; exact B |]. split; [reflexivity |].
        left. repeat split. apply Z2Pos.id. exact K.
    + assert (K : 0 < 2 ^ (- s)) by (apply Z.pow_pos_nonneg; lia).
      exists (round_half_even a (b * 2 ^ (- s))), a, (b * 2 ^ (- s)), (2 ^ (- s)).
      split; [nia |]. split; [exact K |]. split.
      * replace (2 ^ e) with (2 ^ 52 * 2 ^ (- s)) in Lo
          by (rewrite <- Z.pow_add_r by lia; f_equal; lia).
        nia.
      * split; [apply round_half_even_near; nia |]. split; [reflexivity |].
        right. repeat split.
        change 2 with (2 ^ 1). apply Z.pow_le_mono_r; lia.
  - assert (S : 0 <= s) by lia.
    destruct (Z.leb_spec 0 s) as [_ | S']; [| lia].
    assert (K : 0 < 2 ^ s) by (apply Z.pow_pos_nonneg; lia).
    exists (round_half_even (a * 2 ^ s) b), (a * 2 ^ s), b, (2 ^ s).
    split; [exact B |]. split; [exact K |]. split.
    + replace (2 ^ s) with (2 ^ 52 * 2 ^ (- e))
        by (rewrite <- Z.pow_add_r by lia; f_equal; lia).
      nia.
    + split; [apply round_half_even_near; exact B |]. split; [reflexivity |].
      left. repeat split. apply Z2Pos.id. exact K.
Qed.

(** The relative error of the quotient is at most 2^-53. *)
Lemma div64_pos_error (a b : Z) :
  0 < a -> 0 < b ->
  (Qabs (div64_pos a b - (a # Z.to_pos b)) <= (a # Z.to_pos b) * (1 # 2 ^ 53))%Q.
Proof.
  intros A B.
  destruct (div64_pos_mantissa a b A B)
    as (m & n & d & k & D & K & Big & Near & _ &
        [(-> & -> & -> & Kp) | (-> & -> & K2 & ->)]).
  - unfold Qle, Qabs, Qminus, Qplus, Qopp, Qmult. cbn [Qnum Qden].
    rewrite !Pos2Z.inj_mul, Kp, Z2Pos.id by exact B.
    replace (m * b + - a * k) with (m * b - a * k) by lia.
    change (Zpos (2 ^ 53)) with (2 * 2 ^ 52).
    assert (H : 0 <= Z.abs (m * b - a * k)) by lia.
    nia.
  - unfold Qle, Qabs, Qminus, Qplus, Qopp, Qmult, inject_Z. cbn [Qnum Qden].
    rewrite !Pos2Z.inj_mul, Z2Pos.id by exact B.
    change (Zpos 1) with 1.
    replace (m * k * b + - a * 1) with (m * (b * k) - a) by lia.
    change (Zpos (2 ^ 53)) with (2 * 2 ^ 52).
    assert (H : 0 <= Z.abs (m * (b * k) - a)) by lia.
    nia.
Qed.

Lemma div64_pos_nonneg (a b : Z) :
  0 < a -> 0 < b -> (0 <= div64_pos a b)%Q.
Proof.
  intros A B.
  destruct (div64_pos_mantissa a b A B)
    as (m & n & d & k & D & K & Big & _ & -> &
        [(-> & -> & -> & Kp) | (-> & -> & K2 & ->)]).
  - unfold Qle. cbn [Qnum Qden].
    assert (0 <= round_half_even (a * k) b)
      by (apply round_half_even_ge; [exact B | nia]).
    lia.
  - unfold Qle, inject_Z. cbn [Qnum Qden].
    assert (0 <= round_half_even a (b * k))
      by (apply round_half_even_ge; nia).
    nia.
Qed.

(** Rounding does not pass an integer below 2^53. *)
Lemma div64_pos_le (a b n : Z) :
  0 < a -> 0 < b -> a <= n * b -> n < 2 ^ 53 ->
  (div64_pos a b <= inject_Z n)%Q.
Proof.
  intros A B L N.
  destruct (div64_pos_mantissa a b A B)
    as (m & n' & d & k & D & K & Big & _ & -> &
        [(-> & -> & -> & Kp) | (-> & -> & K2 & ->)]).
  - unfold Qle, inject_Z. cbn [Qnum Qden]. rewrite Kp, Z.mul_1_r.
    apply round_half_even_le; [exact B | nia].
  - exfalso. nia.
Qed.

Lemma div64_nonneg (a b : Z) :
  0 <= a -> 0 < b -> (0 <= div64 a b)%Q.
Proof.
  intros A B. destruct a as [| p | p]; simpl; [apply Qle_refl | | lia].
  apply div64_pos_nonneg; lia.
Qed.

Lemma div64_opp (a b : Z) : (div64 (- a) b == - div64 a b)%Q.
Proof.
  destruct a as [| p | p]; simpl; try reflexivity.
  now rewrite Qopp_involutive.
Qed.

Lemma div64_le (a b n : Z) :
  0 < b -> a <= n * b -> 0 <= n < 2 ^ 53 -> (div64 a b <= inject_Z n)%Q.
Proof.
  intros B L N. destruct a as [| p | p]; simpl.
  - change 0%Q with (inject_Z 0). rewrite <- Zle_Qle. lia.
  - apply div64_pos_le; lia.
  - apply Qle_trans with 0%Q.
    + change 0%Q with (- 0)%Q. apply Qopp_le_compat.
      apply div64_pos_nonneg; lia.
    + change 0%Q with (inject_Z 0). rewrite <- Zle_Qle. lia.
Qed.

Lemma div64_ge (a b n : Z) :
  0 < b -> - n * b <= a -> 0 <= n < 2 ^ 53 -> (- inject_Z n <= div64 a b)%Q.
Proof.
  intros B L N.
  assert (H : (div64 (- a) b <= inject_Z n)%Q) by (apply div64_le; lia).
  rewrite div64_opp in H. apply Qopp_le_compat in H.
  now rewrite Qopp_involutive in H.
Qed.

Lemma div64_error (a b : Z) :
  0 < b ->
  (Qabs (div64 a b - (a # Z.to_pos b)) <= Qabs (a # Z.to_pos b) * (1 # 2 ^ 53))%Q.
Proof.
  intros B. destruct a as [| p | p]; cbn [div64].
  - discriminate.
  - rewrite (Qabs_pos (Zpos p # _)) by discriminate.
    apply div64_pos_error; lia.
  - change (Z.neg p # Z.to_pos b)%Q with (- (Z.pos p # Z.to_pos b))%Q.
    rewrite Qabs_opp.
    rewrite (Qabs_pos (Zpos p # _)) by discriminate.
    setoid_replace (- div64_pos (- Z.neg p) b - - (Z.pos p # Z.to_pos b))%Q
      with (- (div64_pos (Z.pos p) b - (Z.pos p # Z.to_pos b)))%Q by (simpl; ring).
    rewrite Qabs_opp. apply div64_pos_error; lia.
Qed.

(** One third and forty thirds are no float64: the quotients are
    0.333333333333333314829616256247... and 13.3333333333333339254522798.... *)
Example one_third :
  div64 1 3 = (6004799503160661 # 18014398509481984)%Q.
Proof. vm_compute. reflexivity. Qed.

Example forty_thirds :
  (div64 40 3 == 7505999378950827 # 562949953421312)%Q /\
  format_f 1 (div64 40 3) = "13.3" /\ format_f 2 (div64 1 3) = "0.33".
Proof. vm_compute. repeat split. Qed.

Lemma Qmake_div (a b : Z) :
  0 < b -> (inject_Z a / inject_Z b == a # Z.to_pos b)%Q.
Proof.
  intros B. rewrite Qmake_Qdiv, Z2Pos.id by exact B. reflexivity.
Qed.

(** ** The average number of negative flags *)

Lemma neg_flags_scores (cols : list string) (row : list value) :
  scores cols row <> None ->
  neg_flags cols row = Ok (Int (negative_sectors_of cols row)).
Proof.
  unfold neg_flags, negative_sectors_of, scores, getattr.
  destruct (cell cols "Wealth" row) as [[| | a | | | |] |]; try congruence.
  destruct (cell cols "Health" row) as [[| | b | | | |] |]; try congruence.
  destruct (cell cols "Self" row) as [[| | c | | | |] |]; try congruence.
  intros _. simpl.
  destruct (a <? 0), (b <? 0), (c <? 0); reflexivity.
Qed.

Lemma negative_sectors_of_range (cols : list string) (row : list value) :
  0 <= negative_sectors_of cols row <= 3.
Proof.
  unfold negative_sectors_of. destruct (scores cols row) as [[[a b] c] |];
    [| lia].
  simpl. destruct (a <? 0), (b <? 0), (c <? 0); simpl; lia.
Qed.

Lemma mapM_neg_flags (cols : list string) (rows : list (list value)) :
  (forall row, In row rows -> scores cols row <> None) ->
  mapM (neg_flags cols) rows =
  Ok (map (fun row => Int (negative_sectors_of cols row)) rows).
Proof.
  induction rows as [| row rows IH]; simpl; [reflexivity |].
  intros S. rewrite (neg_flags_scores cols row) by auto. simpl.
  rewrite IH by auto. reflexivity.
Qed.

Lemma mapM_as_number_ints (zs : list Z) :
  mapM as_number (map Int zs) = Ok (map (fun z => Some (inject_Z z)) zs).
Proof.
  induction zs as [| z zs IH]; simpl; [reflexivity |].
  rewrite IH. reflexivity.
Qed.

Lemma present_all (zs : list Z) :
  present (map (fun z => Some (inject_Z z)) zs) = map inject_Z zs.
Proof.
  induction zs as [| z zs IH]; [reflexivity |].
  change (inject_Z z :: present (map (fun z => Some (inject_Z z)) zs)
          = inject_Z z :: map inject_Z zs).
  now rewrite IH.
Qed.

Lemma exact_ints_ints (zs : list Z) : exact_ints (map Int zs) = Some zs.
Proof.
  induction zs as [| z zs IH]; simpl; [reflexivity |]. now rewrite IH.
Qed.

Lemma mean_ints {floats : PandasFloats} (zs : list Z) :
  zs <> [] ->
  sums_exactly zs = true ->
  mean (map Int zs) =
  Ok (Float (div64 (Zsum zs) (Z.of_nat (List.length zs)))).
Proof.
  intros N E. unfold mean. rewrite mapM_as_number_ints. cbn [bind].
  rewrite present_all, exact_ints_ints, E.
  destruct zs as [| z zs]; [congruence | reflexivity].
Qed.

(** A mean that is taken is a float or [nan]. *)
Lemma mean_is_float {floats : PandasFloats} (col : list value) (v : value) :
  mean col = Ok v -> v = NaN \/ exists q, v = Float q.
Proof.
  unfold mean. destruct (mapM as_number col) as [nums |]; cbn [bind];
    [| discriminate].
  destruct (present nums); [intros [= <-]; now left |].
  destruct (exact_ints col) as [zs |].
  - destruct (sums_exactly zs); intros [= <-]; [right; eauto |].
    destruct (rounded_mean col); simpl; eauto.
  - intros [= <-]. destruct (rounded_mean col); simpl; eauto.
Qed.

Lemma mean_ints_ok {floats : PandasFloats} (zs : list Z) :
  exists v, mean (map Int zs) = Ok v.
Proof.
  unfold mean. rewrite mapM_as_number_ints. cbn [bind].
  rewrite exact_ints_ints. destruct (present _); [eauto |].
  destruct (sums_exactly zs); eauto.
Qed.

Lemma Zsum_range (f : list value -> Z) (rows : list (list value)) :
  (forall row, 0 <= f row <= 3) ->
  0 <= Zsum (map f rows) <= 3 * Z.of_nat (List.length rows).
Proof.
  intros R. induction rows as [| row rows IH]; simpl Zsum; simpl List.length;
    [lia |].
  specialize (R row). lia.
Qed.

Lemma total_abs_le (bound : Z) (zs : list Z) :
  (forall z, In z zs -> Z.abs z <= bound) ->
  total (map Z.abs zs) <= bound * Z.of_nat (List.length zs).
Proof.
  induction zs as [| z zs IH]; intros B; simpl total; simpl List.length;
    [lia |].
  specialize (B z (or_introl eq_refl)) as Bz.
  assert (IH' : total (map Z.abs zs) <= bound * Z.of_nat (List.length zs))
    by (apply IH; intros; apply B; now right).
  lia.
Qed.

(** Integers of at most 100 in absolute value, up to 2^46 of them, are
    summed exactly. *)
Lemma sums_exactly_sliders (zs : list Z) :
  (forall z, In z zs -> Z.abs z <= 100) ->
  Z.of_nat (List.length zs) <= 2 ^ 46 ->
  sums_exactly zs = true.
Proof.
  intros B L. unfold sums_exactly. pose proof (total_abs_le 100 zs B) as T.
  apply Bool.andb_true_iff. split; apply Z.leb_le.
  - change (2 ^ 53) with (128 * 2 ^ 46). lia.
  - change (2 ^ 53) with (128 * 2 ^ 46). lia.
Qed.

Lemma summarize_flags {floats : PandasFloats} (now : Z) (df : DataFrame)
    (m : summary) (v : value) :
  values df <> [] -> columns df <> [] ->
  mean_neg_flags df = Ok v ->
  summarize now df = Ok m -> avg_neg_flags m = v.
Proof.
  intros V C M. unfold summarize, empty.
  destruct (columns df); [congruence |].
  destruct (values df); [congruence |]. cbn [List.length Nat.eqb orb negb].
  destruct (count_today now _); cbn [bind]; [| discriminate].
  destruct (getitem _ "Wealth") as [wealth |]; cbn [bind]; [| discriminate].
  destruct (mean wealth); cbn [bind]; [| discriminate].
  rewrite M. cbn [bind]. now intros [= <-].
Qed.

(** C5. On a history with at least one record and no more than 2^46 of
    them, all of whose scores are integers, the average number of
    negative flags is the float64 quotient of the number of strictly
    negative sectors of all records by the number of records.  It is
    the arithmetic mean up to the rounding of that one division, a
    relative error of at most 2^-53, and it lies between 0 and 3. *)
Theorem mean_neg_flags_is_rounded_mean {floats : PandasFloats}
    (df : DataFrame) :
  values df <> [] ->
  Z.of_nat (len df) <= 2 ^ 46 ->
  (forall row, In row (values df) -> scores (columns df) row <> None) ->
  exists q,
    mean_neg_flags df = Ok (Float q) /\
    q = div64 (Zsum (map (negative_sectors_of (columns df)) (values df)))
              (Z.of_nat (len df)) /\
    (Qabs (q - inject_Z (Zsum (map (negative_sectors_of (columns df))
                                   (values df)))
               / inject_Z (Z.of_nat (len df)))
     <= inject_Z (Zsum (map (negative_sectors_of (columns df)) (values df)))
        / inject_Z (Z.of_nat (len df)) * (1 # 2 ^ 53))%Q /\
    (0 <= q <= 3)%Q /\
    (forall now m, summarize now df = Ok m -> avg_neg_flags m = Float q).
Proof.
  intros N Size S.
  set (counts := map (negative_sectors_of (columns df)) (values df)).
  assert (L : List.length counts = len df) by apply length_map.
  assert (C : counts <> []).
  { intros E. apply N. apply length_zero_iff_nil.
    fold (len df). rewrite <- L, E. reflexivity. }
  assert (P : 0 < Z.of_nat (len df)).
  { rewrite <- L. destruct counts; [congruence | simpl; lia]. }
  pose proof (Zsum_range (negative_sectors_of (columns df)) (values df)
                (negative_sectors_of_range (columns df))) as R.
  fold counts in R. fold (len df) in R.
  assert (M : mean_neg_flags df =
              Ok (Float (div64 (Zsum counts) (Z.of_nat (len df))))).
  { unfold mean_neg_flags. rewrite mapM_neg_flags by exact S.
    rewrite <- (map_map (negative_sectors_of (columns df)) Int).
    fold counts. rewrite <- L. apply mean_ints; [exact C |].
    apply sums_exactly_sliders; [| now rewrite L].
    intros z Z0. apply in_map_iff in Z0 as (row & <- & _).
    pose proof (negative_sectors_of_range (columns df) row). lia. }
  eexists. split; [exact M |]. split; [reflexivity |]. split; [| split].
  - rewrite Qmake_div by exact P.
    pose proof (div64_error (Zsum counts) (Z.of_nat (len df)) P) as E.
    rewrite (Qabs_pos (Zsum counts # _)) in E; [exact E |].
    unfold Qle. simpl. lia.
  - split.
    + apply div64_nonneg; lia.
    + apply (div64_le _ _ 3); [exact P | lia | split; [lia | reflexivity]].
  - intros now m. apply summarize_flags; [exact N | | exact M].
    intros E. destruct (values df) as [| row rows]; [congruence |].
    specialize (S row (or_introl eq_refl)).
    unfold scores, cell in S. rewrite E in S. simpl in S. congruence.
Qed.

Lemma mean_neg_flags_is_rounded_mean_witness :
  mean_neg_flags (floats := EpochText.exact_means) two_walks
  = Ok (Float (6004799503160661 # 18014398509481984)) /\
  (0 <= 6004799503160661 # 18014398509481984 <= 3)%Q.
Proof.
  destruct (mean_neg_flags_is_rounded_mean (floats := EpochText.exact_means)
              two_walks) as (q & M & E & _ & B & _).
  - discriminate.
  - vm_compute. discriminate.
  - simpl. intros row [<- | [<- | [<- | []]]]; discriminate.
  - assert (Q0 : q = (6004799503160661 # 18014398509481984)%Q)
      by (rewrite E; vm_compute; reflexivity).
    rewrite <- Q0. split; [exact M | exact B].
Defined.

(** The average of the three records of the sample, one of which has
    one negative sector, is not one third. *)
Lemma mean_neg_flags_is_not_the_mean :
  exists q,
    mean_neg_flags (floats := EpochText.exact_means) two_walks = Ok (Float q) /\
    ~ (q == inject_Z (Zsum (map (negative_sectors_of (columns two_walks))
                                (values two_walks)))
            / inject_Z (Z.of_nat (len two_walks)))%Q.
Proof.
  eexists. split; [reflexivity |]. vm_compute. discriminate.
Qed.

(** ** The shape of what is read and loaded *)

Lemma zip_with_length {A B C : Type} (f : A -> B -> C) (l : list A)
    (m : list B) :
  List.length (zip_with f l m) = Nat.min (List.length l) (List.length m).
Proof.
  revert m. induction l as [| a l IH]; intros [| b m]; simpl; auto.
Qed.

Lemma zip_with_in {A B C : Type} (f : A -> B -> C) (l : list A) (m : list B)
    (c : C) :
  In c (zip_with f l m) -> exists a b, In a l /\ In b m /\ c = f a b.
Proof.
  revert m. induction l as [| a l IH]; intros [| b m]; simpl; try tauto.
  intros [<- | I].
  - exists a, b. auto.
  - destruct (IH m I) as (a' & b' & ? & ? & ?). exists a', b'. auto.
Qed.

Lemma zip_with_repeat {A B C : Type} (f : A -> B -> C) (l : list A) (b : B) :
  zip_with f l (repeat b (List.length l)) = map (fun a => f a b) l.
Proof.
  induction l as [| a l IH]; simpl; [reflexivity |]. now rewrite IH.
Qed.

Lemma replace_nth_length {A : Type} (i : nat) (a : A) (l : list A) :
  List.length (replace_nth i a l) = List.length l.
Proof.
  revert i. induction l as [| x l IH]; intros [| i]; simpl; auto.
Qed.

Lemma replace_nth_same {A : Type} (i : nat) (a d : A) (l : list A) :
  (i < List.length l)%nat -> nth i (replace_nth i a l) d = a.
Proof.
  revert i. induction l as [| x l IH]; intros [| i]; simpl; try lia; auto.
  intros L. apply IH. lia.
Qed.

Lemma replace_nth_other {A : Type} (i j : nat) (a d : A) (l : list A) :
  i <> j -> nth j (replace_nth i a l) d = nth j l d.
Proof.
  revert i j. induction l as [| x l IH]; intros [| i] [| j]; simpl; auto;
    try congruence.
Qed.

Lemma contains_in (name : string) (names : list string) :
  contains name names = true <-> In name names.
Proof.
  unfold contains. rewrite existsb_exists. split.
  - intros (n & I & E). apply String.eqb_eq in E. now subst.
  - intros I. exists name. split; [exact I | apply String.eqb_refl].
Qed.

Lemma index_none (name : string) (names : list string) :
  ~ In name names -> index name names = None.
Proof.
  induction names as [| n names IH]; simpl; [reflexivity |].
  intros N. destruct (String.eqb_spec name n) as [-> | _]; [tauto |].
  rewrite IH by tauto. reflexivity.
Qed.

Lemma index_app_new (name : string) (names : list string) :
  ~ In name names -> index name (names ++ [name]) = Some (List.length names).
Proof.
  induction names as [| n names IH]; simpl.
  - now rewrite String.eqb_refl.
  - intros N. destruct (String.eqb_spec name n) as [-> | _]; [tauto |].
    rewrite IH by tauto. reflexivity.
Qed.

Lemma index_app_old (name : string) (names more : list string) (i : nat) :
  index name names = Some i -> index name (names ++ more) = Some i.
Proof.
  revert i. induction names as [| n names IH]; simpl; [discriminate |].
  intros i. destruct (String.eqb name n); [auto |].
  destruct (index name names) as [j |]; simpl; [| discriminate].
  intros [= <-]. now rewrite (IH j).
Qed.

Lemma pad_length (width : nat) (l : line) :
  (List.length l <= width)%nat -> List.length (pad width l) = width.
Proof.
  intros L. unfold pad. rewrite length_app, repeat_length. lia.
Qed.

Lemma mangle_dupe_cols_length (header : line) :
  List.length (mangle_dupe_cols header) = List.length header.
Proof.
  unfold mangle_dupe_cols.
  set (step := fun (state : list string * list (string * nat)) (i : nat) => _).
  assert (K : forall order state,
            List.length (fst (fold_left step order state))
            = List.length (fst state)).
  { induction order as [| i order IH]; intros state; [reflexivity |].
    cbn [fold_left]. rewrite IH. destruct state as [names counts].
    unfold step. destruct (dedup_name _ _ _ _ _ _) as [[col cur] counts'].
    apply replace_nth_length. }
  rewrite K. cbn [fst]. now rewrite length_map, length_seq.
Qed.

#[local] Arguments mangle_dupe_cols : simpl never.

(** What [read_csv] returns has as many columns as the header has
    names, one record per data line, and no holes. *)
Lemma read_csv_shape {text : PandasText} (file : option csv) (df : DataFrame) :
  read_csv file = Ok df ->
  exists lines,
    file = Some lines /\
    len df = List.length (data_lines lines) /\
    rectangular df.
Proof.
  unfold read_csv, data_lines. destruct file as [lines |]; [| discriminate].
  destruct (skip_blank_lines lines) as [| header data] eqn:F; [discriminate |].
  set (width := Nat.max (List.length header) (List.length (hd [] data))).
  destruct (existsb (fun l => (width <? List.length l)%nat) data) eqn:Long;
    [discriminate |].
  intros [= <-]. exists lines. split; [reflexivity |]. split.
  - unfold len. simpl. now rewrite !length_map, F.
  - intros row. simpl. rewrite map_map. intros I.
    apply in_map_iff in I as (l & <- & I).
    rewrite mangle_dupe_cols_length.
    rewrite zip_with_length, length_map, length_seq, length_skipn.
    rewrite pad_length.
    + lia.
    + assert (N : (width <? List.length l)%nat = false).
      { destruct (width <? List.length l)%nat eqn:W; [| reflexivity].
        rewrite <- Long. symmetry. apply existsb_exists. now exists l. }
      apply Nat.ltb_ge in N. exact N.
Qed.

Lemma read_history_shape {text : PandasText} (file : option csv)
    (df : DataFrame) :
  read_history file = Ok df ->
  rectangular df /\
  (forall lines, file = Some lines -> len df = List.length (data_lines lines)).
Proof.
  unfold read_history. destruct (read_csv file) as [raw | e] eqn:R.
  - intros [= <-]. destruct (read_csv_shape file raw R) as (lines & -> & L & T).
    split; [exact T |]. now intros ? [= <-].
  - destruct e; try discriminate. intros [= <-]. split.
    + intros row [].
    + intros lines ->. unfold read_csv in R.
      destruct (skip_blank_lines lines); [discriminate |].
      destruct (existsb _ _) in R; discriminate.
Qed.

Lemma ensure_category_old (df : DataFrame) :
  In "Category" (columns df) -> ensure_category df = df.
Proof.
  intros I. unfold ensure_category.
  now rewrite (proj2 (contains_in _ _) I).
Qed.

Lemma ensure_category_new (df : DataFrame) :
  ~ In "Category" (columns df) ->
  ensure_category df =
  mkFrame (columns df ++ ["Category"])
          (map (fun row => row ++ [Str "Uncategorized"]) (values df)).
Proof.
  intros N. unfold ensure_category.
  destruct (contains "Category" (columns df)) eqn:C.
  - now apply contains_in in C.
  - unfold setitem_scalar, setitem, len. rewrite (index_none _ _ N).
    now rewrite zip_with_repeat.
Qed.

Lemma ensure_category_shape (df : DataFrame) :
  rectangular df ->
  rectangular (ensure_category df) /\
  len (ensure_category df) = len df /\
  In "Category" (columns (ensure_category df)).
Proof.
  intros T. destruct (in_dec string_dec "Category" (columns df)) as [I | N].
  - rewrite ensure_category_old by exact I. auto.
  - rewrite ensure_category_new by exact N. repeat split.
    + intros row. simpl. intros R. apply in_map_iff in R as (row0 & <- & R).
      rewrite !length_app, (T row0 R). reflexivity.
    + unfold len. simpl. apply length_map.
    + simpl. apply in_or_app. right. now left.
Qed.

Lemma to_datetime_times {text : PandasText} (col times : list value) :
  to_datetime col = Ok times ->
  List.length times = List.length col /\
  forall v, In v times -> is_time v.
Proof.
  unfold to_datetime. destruct (mixed_offsets col); [discriminate |].
  intros [= <-]. split.
  - now rewrite length_map, length_seq.
  - intros v I. apply in_map_iff in I as (i & <- & _).
    now destruct (to_datetime_coerce col i).
Qed.

Lemma mixed_offsets_naive {text : PandasText} (col : list value) :
  (forall v, In v col -> cell_offset v = None) -> mixed_offsets col = false.
Proof.
  induction col as [| v col IH]; intros N; [reflexivity |].
  cbn [mixed_offsets]. rewrite (N v) by now left.
  apply IH. intros u U. apply N. now right.
Qed.

Lemma to_datetime_naive {text : PandasText} (col : list value) :
  mixed_offsets col = false -> exists times, to_datetime col = Ok times.
Proof.
  intros N. unfold to_datetime. rewrite N. eauto.
Qed.

(** The time column after line 72: on a frame with records and
    columns, every record keeps its cells except the one under "Time",
    which becomes a point in time or the invalid marker. *)
Lemma parse_time_rows {text : PandasText} (df df' : DataFrame) :
  parse_time df = Ok df' ->
  empty df = false ->
  exists i,
    index "Time" (columns df) = Some i /\
    columns df' = columns df /\
    len df' = len df /\
    (forall row', In row' (values df') ->
       exists row v,
         In row (values df) /\ is_time v /\ row' = replace_nth i v row).
Proof.
  unfold parse_time, getitem. intros P E. rewrite E in P. simpl in P.
  destruct (index "Time" (columns df)) as [i |] eqn:T; [| discriminate].
  cbn [bind] in P.
  destruct (to_datetime _) as [times |] eqn:D; [| discriminate].
  destruct (to_datetime_times _ _ D) as (Len & Times).
  cbn [bind] in P. injection P as <-. exists i. unfold setitem. rewrite T.
  simpl. repeat split.
  - unfold len. simpl.
    rewrite zip_with_length, Len, length_map. apply Nat.min_id.
  - intros row' I. apply zip_with_in in I as (row & v & R & V & ->).
    exists row, v. repeat split; [exact R |]. now apply Times.
Qed.

Lemma parse_time_empty {text : PandasText} (df : DataFrame) :
  empty df = true -> parse_time df = Ok df.
Proof.
  intros E. unfold parse_time. now rewrite E.
Qed.

Lemma parse_time_ok {text : PandasText} (df : DataFrame) (col : list value) :
  getitem df "Time" = Ok col -> mixed_offsets col = false ->
  exists df', parse_time df = Ok df'.
Proof.
  intros G N. unfold parse_time. rewrite G.
  destruct (negb (empty df)); cbn [bind]; [| eauto].
  destruct (to_datetime_naive col N) as (times & ->). cbn [bind]. eauto.
Qed.

Lemma empty_no_values (df : DataFrame) :
  columns df <> [] -> (empty df = true <-> values df = []).
Proof.
  intros C. unfold empty. destruct (columns df); [congruence |].
  destruct (values df); simpl; split; congruence.
Qed.

(** What [load] returns: one record per data line of the file, at
    least one column, and under "Time" nothing but points in time and
    invalid markers. *)
Lemma load_shape {text : PandasText} (file : option csv) (df : DataFrame) :
  load file = Ok df ->
  columns df <> [] /\
  rectangular df /\
  (forall lines, file = Some lines -> len df = List.length (data_lines lines)) /\
  (values df <> [] ->
   exists i,
     index "Time" (columns df) = Some i /\
     forall row, In row (values df) -> is_time (nth i row NaN)).
Proof.
  unfold load. destruct (read_history file) as [raw |] eqn:R; [| discriminate].
  simpl. destruct (read_history_shape file raw R) as (T & L).
  destruct (ensure_category_shape raw T) as (T1 & L1 & HasCat).
  set (df1 := ensure_category raw) in *.
  assert (N1 : columns df1 <> []) by (intros E; now rewrite E in HasCat).
  intros P. destruct (empty df1) eqn:E.
  - rewrite parse_time_empty in P by exact E. injection P as <-.
    repeat split; auto.
    + intros lines F. rewrite L1. now apply L.
    + intros V. now apply (empty_no_values df1 N1) in E.
  - destruct (parse_time_rows df1 df P E) as (i & I & C & Ln & Rows).
    assert (T' : rectangular df).
    { intros row' R'. destruct (Rows row' R') as (row & v & R0 & _ & ->).
      rewrite replace_nth_length, C. now apply T1. }
    repeat split.
    + now rewrite C.
    + exact T'.
    + intros lines F. rewrite Ln, L1. now apply L.
    + intros _. exists i. rewrite C. split; [exact I |].
      intros row' R'. destruct (Rows row' R') as (row & v & R0 & V & ->).
      rewrite replace_nth_same; [exact V |].
      rewrite (T1 row R0). now apply index_lt in I.
Qed.

(** ** The count of today *)

Lemma normalize_date (t : Z) : normalize t = NS_PER_DAY * date_of t.
Proof.
  unfold normalize, date_of.
  pose proof (Z.div_mod t NS_PER_DAY) as D.
  assert (N : NS_PER_DAY <> 0) by discriminate.
  specialize (D N). lia.
Qed.

Lemma same_midnight_same_date (t now : Z) :
  (normalize t =? normalize now) = (date_of t =? date_of now).
Proof.
  rewrite !normalize_date.
  destruct (Z.eqb_spec (date_of t) (date_of now)) as [-> | N].
  - apply Z.eqb_refl.
  - apply Z.eqb_neq. intros E. apply N.
    apply (Z.mul_reg_l _ _ NS_PER_DAY); [discriminate | exact E].
Qed.

Lemma dt_normalize_times (col : list value) :
  (forall v, In v col -> is_time v) ->
  dt_normalize col = Ok (map midnight col).
Proof.
  unfold dt_normalize.
  induction col as [| v col IH]; simpl; [reflexivity |].
  intros T. rewrite IH by auto.
  specialize (T v (or_introl eq_refl)). destruct v; simpl in *; tauto.
Qed.

Lemma today_mask (cols : list string) (i : nat) (now : Z) (row : list value) :
  index "Time" cols = Some i ->
  eq_timestamp (normalize now) (midnight (nth i row NaN)) =
  logged_on cols now row.
Proof.
  intros I. unfold logged_on. rewrite (field_nth _ _ i row I).
  destruct (nth i row NaN); simpl; try reflexivity.
  apply same_midnight_same_date.
Qed.

Lemma count_today_eq (df : DataFrame) (now : Z) (i : nat) :
  index "Time" (columns df) = Some i ->
  (forall row, In row (values df) -> is_time (nth i row NaN)) ->
  count_today now df =
  Ok (List.length (filter (logged_on (columns df) now) (values df))).
Proof.
  intros I T. unfold count_today, getitem. rewrite I. simpl.
  rewrite dt_normalize_times.
  - simpl. unfold len, getitem_mask. simpl. rewrite !map_map.
    rewrite (map_ext _ (logged_on (columns df) now)).
    + now rewrite select_map.
    + intros row. now apply today_mask.
  - intros v V. apply in_map_iff in V as (row & <- & R). now apply T.
Qed.



(** ** Stores written before the category existed *)

Lemma index_sound (name : string) (names : list string) (i : nat) :
  index name names = Some i -> nth_error names i = Some name.
Proof.
  revert i. induction names as [| n names IH]; simpl; [discriminate |].
  intros i. destruct (String.eqb_spec name n) as [-> | _].
  - now intros [= <-].
  - destruct (index name names) as [j |]; simpl; [| discriminate].
    intros [= <-]. now apply IH.
Qed.

Lemma backfilled_cell (cols : list string) (row : list value) :
  List.length row = List.length cols ->
  nth (List.length cols) (row ++ [Str "Uncategorized"]) NaN
  = Str "Uncategorized".
Proof.
  intros L. rewrite app_nth2 by lia. rewrite L, Nat.sub_diag. reflexivity.
Qed.

(** Lines 67-68 at work: when the table that was read has no category
    column, every record of the loaded history has the category
    "Uncategorized". *)
Lemma backfilled_when_loaded {text : PandasText}
    (lines : csv) (raw df : DataFrame) :
  read_csv (Some lines) = Ok raw ->
  ~ In "Category" (columns raw) ->
  load (Some lines) = Ok df ->
  len df = List.length (data_lines lines) /\
  (forall row, In row (values df) ->
     field (columns df) "Category" row = Str "Uncategorized").
Proof.
  intros R N L.
  assert (H : read_history (Some lines) = Ok raw)
    by (unfold read_history; now rewrite R).
  destruct (read_history_shape _ _ H) as (Rect & _).
  pose proof (ensure_category_new raw N) as E1.
  split; [now apply (load_shape _ _ L) |].
  unfold load in L. rewrite H in L. cbn [bind] in L.
  set (cols := columns raw) in *.
  set (df1 := ensure_category raw) in *.
  assert (AtCat : index "Category" (columns df1) = Some (List.length cols))
    by (rewrite E1; now apply index_app_new).
  assert (V1 : forall row, In row (values df1) ->
            nth (List.length cols) row NaN = Str "Uncategorized").
  { rewrite E1. simpl. intros row I. apply in_map_iff in I as (row0 & <- & I).
    apply backfilled_cell. now apply Rect. }
  destruct (empty df1) eqn:Em.
  - rewrite parse_time_empty in L by exact Em. injection L as <-.
    intros row I. rewrite (field_nth _ _ _ row AtCat). now apply V1.
  - destruct (parse_time_rows df1 df L Em) as (i & I & C & _ & Rows).
    intros row' R'. destruct (Rows row' R') as (row & v & R0 & _ & ->).
    rewrite C, (field_nth _ _ _ _ AtCat).
    rewrite replace_nth_other; [now apply V1 |].
    intros ->. apply index_sound in I, AtCat. congruence.
Qed.

(** ** A decision that reads as a missing value *)

Lemma convert_keeps_no_na_text {text : PandasText} (d : dtype) (tok s : string) :
  convert d tok = Str s -> is_na s = false.
Proof.
  unfold convert. destruct (is_na tok) eqn:N; [discriminate |].
  destruct d.
  - destruct (str_to_int64 tok); [discriminate |]. now intros [= <-].
  - destruct (str_to_double tok); [discriminate |]. now intros [= <-].
  - destruct (str_to_bool tok); [discriminate |]. now intros [= <-].
  - now intros [= <-].
Qed.

Lemma replace_nth_in {A : Type} (i : nat) (a x : A) (l : list A) :
  In x (replace_nth i a l) -> x = a \/ In x l.
Proof.
  revert i. induction l as [| y l IH]; intros [| i]; simpl; try tauto.
  - intros [<- | I]; auto.
  - intros [<- | I]; auto. destruct (IH i I); auto.
Qed.

Lemma field_in (cols : list string) (name : string) (row : list value) :
  field cols name row = NaN \/ In (field cols name row) row.
Proof.
  unfold field, cell. destruct (index name cols) as [i |]; [| now left].
  destruct (nth_error row i) as [v |] eqn:E; [| now left].
  right. now apply nth_error_In with i.
Qed.

Lemma read_csv_no_na_text {text : PandasText} (file : option csv)
    (df : DataFrame) (row : list value) (s : string) :
  read_csv file = Ok df -> In row (values df) -> In (Str s) row ->
  is_na s = false.
Proof.
  unfold read_csv. destruct file as [lines |]; [| discriminate].
  destruct (skip_blank_lines lines) as [| header data]; [discriminate |].
  destruct (existsb _ _); [discriminate |].
  intros [= <-]. simpl. intros R V.
  apply in_map_iff in R as (r & <- & _).
  apply zip_with_in in V as (d & tok & _ & _ & V).
  symmetry in V. now apply convert_keeps_no_na_text in V.
Qed.

Lemma load_no_na_text {text : PandasText} (file : option csv)
    (df : DataFrame) (row : list value) (s : string) :
  load file = Ok df -> In row (values df) -> In (Str s) row ->
  is_na s = false.
Proof.
  unfold load. destruct (read_history file) as [raw |] eqn:H; [| discriminate].
  simpl. intros P.
  assert (Raw : forall r, In r (values raw) -> In (Str s) r -> is_na s = false).
  { unfold read_history in H. destruct (read_csv file) as [raw' | e] eqn:R.
    - injection H as <-. intros r. apply (read_csv_no_na_text file raw' r s R).
    - destruct e; try discriminate. injection H as <-. intros r []. }
  assert (One : forall r, In r (values (ensure_category raw)) ->
            In (Str s) r -> is_na s = false).
  { unfold ensure_category.
    destruct (contains "Category" (columns raw)); [exact Raw |].
    unfold setitem_scalar, setitem.
    destruct (index "Category" (columns raw)) as [i |]; simpl; intros r I V.
    - apply zip_with_in in I as (r0 & v & I & U & ->).
      apply repeat_spec in U. subst v.
      apply replace_nth_in in V as [[= ->] | V]; [reflexivity | eauto].
    - apply zip_with_in in I as (r0 & v & I & U & ->).
      apply repeat_spec in U. subst v.
      apply in_app_or in V as [V | [[= <-] | []]]; [eauto | reflexivity]. }
  destruct (empty (ensure_category raw)) eqn:E.
  - rewrite parse_time_empty in P by exact E. injection P as <-. apply One.
  - destruct (parse_time_rows _ _ P E) as (i & _ & _ & _ & Rows).
    intros R V. destruct (Rows row R) as (r0 & v & I & T & ->).
    apply replace_nth_in in V as [<- | V]; [destruct T | eauto].
Qed.

#[local] Arguments is_na : simpl never.
#[local] Arguments convert : simpl never.
#[local] Arguments infer_dtype : simpl never.

Lemma mangle_HEADER : mangle_dupe_cols HEADER = HEADER.
Proof.
  vm_compute. reflexivity.
Qed.

Lemma mixed_offsets_one {text : PandasText} (v : value) :
  mixed_offsets [v] = false.
Proof.
  simpl. now destruct (cell_offset v).
Qed.

Lemma first_run_missing {text : PandasText} (f : entry) (now : Z) :
  is_na (decision f) = true ->
  exists rest, load (append f now None) = Ok (mkFrame HEADER [NaN :: rest]).
Proof.
  intros N. rewrite append_lines. unfold csv_line.
  destruct f as [d c vw vh vs]. simpl in N.
  generalize (category_name c), (str_int vw), (str_int vh), (str_int vs),
    (Timestamp_str now).
  intros tc tw th ts tt.
  unfold load, read_history, read_csv. simpl. rewrite mangle_HEADER.
  unfold infer_dtype at 1. simpl. rewrite N. simpl.
  unfold convert at 1. rewrite N.
  rewrite ensure_category_old by (simpl; auto).
  unfold parse_time, getitem, to_datetime. simpl.
  match goal with
  | |- context [cell_offset ?v] => destruct (cell_offset v)
  end; eexists; reflexivity.
Qed.

(** C1. A decision whose text [read_csv] takes for a missing value, the
    empty text of an untouched form first of all, does not come back
    from the store.  On the first run the only record is loaded with
    the missing value [NaN] as its decision, and whatever the store
    held before, no loaded record has that text as its decision. *)
Theorem missing_decision_is_lost {text : PandasText} (f : entry) (now : Z) :
  is_na (decision f) = true ->
  (exists rest,
     load (append f now None) = Ok (mkFrame HEADER [NaN :: rest])) /\
  (forall file df row,
     load (append f now file) = Ok df -> In row (values df) ->
     field (columns df) "Decision" row <> Str (decision f)).
Proof.
  intros N. split; [now apply first_run_missing |].
  intros file df row L R E.
  destruct (field_in (columns df) "Decision" row) as [M | I].
  - congruence.
  - rewrite E in I.
    pose proof (load_no_na_text _ _ _ _ L R I). congruence.
Qed.

Lemma missing_decision_is_lost_witness :
  load (text := EpochText.epoch_text) (append (text := EpochText.epoch_text) unnamed 1000 None)
  = Ok (mkFrame HEADER
          [[NaN; Str "Finance"; Int 20; Int 0; Int (-10); Timestamp 1000]]) /\
  field HEADER "Decision"
    [NaN; Str "Finance"; Int 20; Int 0; Int (-10); Timestamp 1000]
  <> Str (decision unnamed).
Proof.
  split; [reflexivity |].
  destruct (missing_decision_is_lost (text := EpochText.epoch_text)
              unnamed 1000 eq_refl) as (_ & Lost).
  apply (Lost None (mkFrame HEADER
          [[NaN; Str "Finance"; Int 20; Int 0; Int (-10); Timestamp 1000]])).
  - reflexivity.
  - simpl. auto.
Defined.

(** The same store keeps a decision that reads as plain text, and
    turns one that reads as a number into that number. *)
Example named_decision_round_trip :
  load (text := EpochText.epoch_text) (append (text := EpochText.epoch_text) index_fund 1000 None)
  = Ok (mkFrame HEADER
          [[Str "Buy index fund"; Str "Finance"; Int 20; Int 0; Int (-10);
            Timestamp 1000]]).
Proof. reflexivity. Qed.

Example numeric_decision_becomes_number :
  load (text := EpochText.epoch_text)
       (append (text := EpochText.epoch_text)
          (mkEntry "2024" Finance 20 0 (-10)) 1000 None)
  = Ok (mkFrame HEADER
          [[Int 2024; Str "Finance"; Int 20; Int 0; Int (-10);
            Timestamp 1000]]).
Proof. reflexivity. Qed.

(** ** A decision that reads as text *)

Lemma digits_of_uint (d : Decimal.uint) :
  number_chars (NilEmpty.string_of_uint d) = true.
Proof.
  induction d; simpl; auto.
Qed.

Lemma uint_text_chars (d : Decimal.uint) :
  d <> Decimal.Nil ->
  NilZero.string_of_uint d <> "" /\
  number_chars (NilZero.string_of_uint d) = true.
Proof.
  intros N. destruct d; try congruence;
    (split;
     [discriminate
     | match goal with
       | |- number_chars (NilZero.string_of_uint ?x) = true =>
           exact (digits_of_uint x)
       end]).
Qed.

Lemma str_int_chars (z : Z) :
  str_int z <> "" /\ number_chars (str_int z) = true.
Proof.
  unfold str_int. destruct z as [| p | p]; simpl.
  - split; [discriminate | reflexivity].
  - apply uint_text_chars, DecimalPos.Unsigned.to_uint_nonnil.
  - destruct (uint_text_chars _ (DecimalPos.Unsigned.to_uint_nonnil p))
      as (_ & C).
    split; [discriminate | exact C].
Qed.

Lemma number_chars_not_na (tok : string) :
  tok <> "" -> number_chars tok = true -> is_na tok = false.
Proof.
  intros N C. destruct (is_na tok) eqn:E; [| reflexivity].
  unfold is_na, contains, STR_NA_VALUES in E. simpl in E.
  repeat (apply Bool.orb_true_iff in E as [E | E];
          [apply String.eqb_eq in E; subst tok;
           try congruence; discriminate C |]).
  discriminate E.
Qed.

Lemma str_int_not_na (z : Z) : is_na (str_int z) = false.
Proof.
  destruct (str_int_chars z). now apply number_chars_not_na.
Qed.

Lemma forallb_false_at {A : Type} (p : A -> bool) (l : list A) (a : A) :
  In a l -> p a = false -> forallb p l = false.
Proof.
  intros I F. destruct (forallb p l) eqn:E; [| reflexivity].
  rewrite forallb_forall in E. rewrite (E a I) in F. discriminate F.
Qed.

Lemma existsb_none {A : Type} (p : A -> bool) (l : list A) :
  (forall a, In a l -> p a = false) -> existsb p l = false.
Proof.
  induction l as [| a l IH]; simpl; [reflexivity |].
  intros N. rewrite (N a) by auto. apply IH. auto.
Qed.

(** One token that reads as text makes the column an object column. *)
Lemma infer_object {text : PandasText} (toks : list string) (tok : string) :
  In tok toks -> plain_text tok -> infer_dtype toks = object_.
Proof.
  intros I (N & Z0 & D & B). unfold infer_dtype.
  assert (K : In tok (filter (fun t => negb (is_na t)) toks))
    by (apply filter_In; now rewrite N).
  destruct toks as [| t toks]; [destruct I |].
  rewrite (forallb_false_at _ _ tok I) by (now rewrite Z0, Bool.andb_false_r).
  rewrite (forallb_false_at _ _ tok K) by (now rewrite D).
  rewrite (forallb_false_at _ _ tok K) by (now rewrite B).
  reflexivity.
Qed.

(** Tokens that all read as integers make the column an int64 column. *)
Lemma infer_int64 {text : PandasText} (toks : list string) :
  toks <> [] ->
  (forall tok, In tok toks ->
     is_na tok = false /\ is_some (str_to_int64 tok) = true) ->
  infer_dtype toks = int64.
Proof.
  intros N A. unfold infer_dtype. destruct toks as [| t toks]; [congruence |].
  replace (forallb _ (t :: toks)) with true; [reflexivity |].
  symmetry. apply forallb_forall. intros tok I.
  destruct (A tok I) as (-> & ->). reflexivity.
Qed.

Lemma csv_lines_not_blank {text : PandasText} (es : list (entry * Z)) :
  skip_blank_lines (HEADER :: csv_lines es) = HEADER :: csv_lines es.
Proof.
  unfold skip_blank_lines. apply filter_all.
  intros l [<- | I]; [reflexivity |].
  apply in_map_iff in I as (p & <- & _). reflexivity.
Qed.

(** What [read_csv] makes of a store written by the form. *)
Lemma read_csv_lines {text : PandasText} (es : list (entry * Z)) :
  read_csv (Some (HEADER :: csv_lines es)) =
  Ok (mkFrame HEADER
        (map (zip_with convert
                (map (fun j => infer_dtype (column_tokens j (csv_lines es)))
                     (seq 0 6)))
             (csv_lines es))).
Proof.
  unfold read_csv. rewrite csv_lines_not_blank.
  assert (W : Nat.max (List.length HEADER)
                (List.length (hd [] (csv_lines es))) = 6%nat)
    by (destruct es; reflexivity).
  rewrite W. rewrite existsb_none.
  - replace (map (fun l => skipn (6 - List.length HEADER) (pad 6 l))
               (csv_lines es)) with (csv_lines es); [reflexivity |].
    unfold csv_lines. rewrite map_map. apply map_ext. reflexivity.
  - intros l I. apply in_map_iff in I as (p & <- & _). reflexivity.
Qed.

Lemma last_zip_with {A B C : Type} (f : A -> B -> C) (l : list A)
    (m : list B) (a : A) (b : B) (c : C) :
  List.length l = List.length m -> l <> [] ->
  last (zip_with f l m) c = f (last l a) (last m b).
Proof.
  revert m. induction l as [| x l IH]; intros [| y m]; simpl; try congruence.
  intros [= L] _. destruct l as [| x' l], m as [| y' m]; simpl in *;
    try congruence.
  apply (IH (y' :: m)); [simpl; congruence | discriminate].
Qed.

Lemma append_csv_lines {text : PandasText} (f : entry) (now : Z)
    (file : option csv) :
  written_by_form file -> in_slider_range f ->
  exists es,
    Forall (fun p => in_slider_range (fst p)) (es ++ [(f, now)]) /\
    append f now file = Some (HEADER :: csv_lines (es ++ [(f, now)])).
Proof.
  intros W R. rewrite append_lines. destruct file as [lines |]; simpl in W.
  - destruct W as (es & F & ->). exists es. split.
    + apply Forall_app. split; [exact F | now constructor].
    + unfold csv_lines. now rewrite map_app.
  - exists []. split; [now constructor | reflexivity].
Qed.

Lemma convert_plain {text : PandasText} (tok : string) :
  plain_text tok -> convert object_ tok = Str tok.
Proof.
  intros (N & _). unfold convert. now rewrite N.
Qed.

Lemma convert_slider_int {text : PandasText} (z : Z) :
  reads_slider_ints -> -100 <= z <= 100 ->
  convert int64 (str_int z) = Int z.
Proof.
  intros RI R. unfold convert. now rewrite str_int_not_na, (RI z R).
Qed.

Lemma score_column {text : PandasText} (es : list (entry * Z))
    (score : entry -> Z) :
  reads_slider_ints -> es <> [] ->
  (forall p, In p es -> -100 <= score (fst p) <= 100) ->
  infer_dtype (map (fun p => str_int (score (fst p))) es) = int64.
Proof.
  intros RI N R. apply infer_int64.
  - destruct es; [congruence | discriminate].
  - intros tok I. apply in_map_iff in I as (p & <- & I).
    rewrite str_int_not_na, (RI _ (R p I)). now split.
Qed.

Lemma cell_offset_convert {text : PandasText} (d : dtype) (tok : string) :
  utc_offset tok = None -> cell_offset (convert d tok) = None.
Proof.
  intros N. unfold convert. destruct (is_na tok); [reflexivity |].
  destruct d;
    [destruct (str_to_int64 tok) | destruct (str_to_double tok)
     | destruct (str_to_bool tok) |]; (exact N || reflexivity).
Qed.

(** Line 72 on the rows of a store written by the form: the times
    written carry no offset, so the column is converted. *)
Lemma parse_time_form_rows {text : PandasText} (es : list (entry * Z))
    (d0 d1 d2 d3 d4 d5 : dtype) :
  es <> [] ->
  exists times,
    parse_time
      (mkFrame HEADER
         (map (fun p => zip_with convert [d0; d1; d2; d3; d4; d5]
                          (csv_line (fst p) (snd p))) es)) =
    Ok (mkFrame HEADER
          (zip_with (fun row v => replace_nth 5 v row)
             (map (fun p => zip_with convert [d0; d1; d2; d3; d4; d5]
                              (csv_line (fst p) (snd p))) es)
             times)) /\
    List.length times = List.length es /\
    (forall v, In v times -> is_time v).
Proof.
  intros NE.
  set (g := fun p : entry * Z =>
              zip_with convert [d0; d1; d2; d3; d4; d5]
                (csv_line (fst p) (snd p))).
  unfold parse_time, empty, getitem, setitem. cbn [columns values].
  replace (List.length (map g es) =? 0)%nat with false
    by (destruct es; [congruence | reflexivity]).
  change (List.length HEADER =? 0)%nat with false.
  change (index "Time" HEADER) with (Some 5%nat).
  cbn [orb negb bind columns values].
  destruct (to_datetime_naive (map (fun row => nth 5 row NaN) (map g es)))
    as (times & D).
  { apply mixed_offsets_naive. intros v V. rewrite map_map in V.
    apply in_map_iff in V as (p & <- & _). unfold g. cbn [csv_line zip_with nth].
    apply cell_offset_convert, Timestamp_str_naive. }
  rewrite D. cbn [bind]. exists times. split; [reflexivity |].
  destruct (to_datetime_times _ _ D) as (Len & Times).
  split; [now rewrite Len, !length_map | exact Times].
Qed.

(** X5. The other side of the loss: on a store written by the form, an entry
    whose decision reads as text comes back as the last record with
    the decision, category and scores it was submitted with. *)
Theorem plain_decision_round_trip {text : PandasText}
    (f : entry) (now : Z) (file : option csv) :
  reads_slider_ints ->
  (forall c, plain_text (category_name c)) ->
  written_by_form file ->
  in_slider_range f ->
  plain_text (decision f) ->
  exists df t,
    load (append f now file) = Ok df /\
    columns df = HEADER /\
    last (values df) [] =
    [Str (decision f); Str (category_name (category f));
     Int (w f); Int (h f); Int (s f); t].
Proof.
  intros RI PC W R PD.
  destruct (append_csv_lines f now file W R) as (es & F & ->).
  rewrite Forall_forall in F.
  set (all := es ++ [(f, now)]) in *.
  assert (Last : In (f, now) all) by (apply in_or_app; right; now left).
  assert (NE : all <> []) by (intros E; now rewrite E in Last).
  unfold load, read_history. rewrite read_csv_lines. cbn [bind].
  rewrite ensure_category_old by (simpl; auto).
  cbn [seq map].
  replace (infer_dtype (column_tokens 0 (csv_lines all))) with object_.
  2:{ symmetry. apply infer_object with (decision f); [| exact PD].
      unfold column_tokens, csv_lines. rewrite map_map.
      now apply (in_map (fun p => decision (fst p)) all (f, now)). }
  replace (infer_dtype (column_tokens 1 (csv_lines all))) with object_.
  2:{ symmetry. apply infer_object with (category_name (category f));
        [| apply PC].
      unfold column_tokens, csv_lines. rewrite map_map.
      now apply (in_map (fun p => category_name (category (fst p))) all
                   (f, now)). }
  replace (infer_dtype (column_tokens 2 (csv_lines all))) with int64.
  2:{ symmetry. unfold column_tokens, csv_lines. rewrite map_map.
      apply (score_column all w RI NE). intros p I. apply (F p I). }
  replace (infer_dtype (column_tokens 3 (csv_lines all))) with int64.
  2:{ symmetry. unfold column_tokens, csv_lines. rewrite map_map.
      apply (score_column all h RI NE). intros p I. apply (F p I). }
  replace (infer_dtype (column_tokens 4 (csv_lines all))) with int64.
  2:{ symmetry. unfold column_tokens, csv_lines. rewrite map_map.
      apply (score_column all s RI NE). intros p I. apply (F p I). }
  set (d5 := infer_dtype (column_tokens 5 (csv_lines all))).
  unfold csv_lines. rewrite map_map.
  destruct (parse_time_form_rows all object_ object_ int64 int64 int64 d5 NE)
    as (times & -> & Len & _).
  set (g := fun p : entry * Z =>
              zip_with convert [object_; object_; int64; int64; int64; d5]
                (csv_line (fst p) (snd p))).
  assert (RowsLast : last (map g all) [] =
            [Str (decision f); Str (category_name (category f));
             Int (w f); Int (h f); Int (s f);
             convert d5 (Timestamp_str now)]).
  { unfold all. rewrite map_app. cbn [map]. rewrite last_last.
    unfold g. cbn [fst snd csv_line zip_with].
    destruct R as (Rw & Rh & Rs).
    rewrite (convert_plain _ PD), (convert_plain _ (PC (category f))).
    now rewrite !convert_slider_int. }
  eexists. exists (last times NaN).
  split; [reflexivity |]. split; [reflexivity |]. cbn [values].
  rewrite (last_zip_with _ (map g all) _ [] NaN []).
  - now rewrite RowsLast.
  - now rewrite Len, length_map.
  - destruct all; [congruence | discriminate].
Qed.

(** The instance meets the two conditions on the reader. *)
Lemma epoch_text_reads_ints :
  reads_slider_ints (text := EpochText.epoch_text) /\
  forall c, plain_text (text := EpochText.epoch_text) (category_name c).
Proof.
  split.
  - intros z _. simpl. unfold EpochText.parse_int, str_int.
    rewrite NilZero.isi.
    + simpl. now rewrite DecimalZ.of_to.
    + intros E. pose proof (DecimalZ.of_to z) as O. rewrite E in O.
      simpl in O. subst z. discriminate E.
    + intros E. pose proof (DecimalZ.of_to z) as O. rewrite E in O.
      simpl in O. subst z. discriminate E.
  - intros c. destruct c; repeat split.
Qed.

(** * Further properties *)

(** ** The stores that the form writes *)

Lemma store_after_snoc {text : PandasText} (es : list (entry * Z))
    (p : entry * Z) :
  store_after (es ++ [p]) = append (fst p) (snd p) (store_after es).
Proof.
  unfold store_after. now rewrite fold_left_app.
Qed.

(** X1. Submitting entries one run after the other, starting without a
    file, leaves the header followed by one line per entry, in the
    order of submission; this is a store written by the form. *)
Theorem store_after_is_header_and_lines {text : PandasText}
    (es : list (entry * Z)) :
  store_after es =
  match es with
  | [] => None
  | _ => Some (HEADER :: csv_lines es)
  end.
Proof.
  induction es as [| p es IH] using rev_ind; [reflexivity |].
  rewrite store_after_snoc, IH, append_lines.
  destruct es as [| q es]; simpl.
  - reflexivity.
  - destruct (es ++ [p]) eqn:E; [now destruct es |].
    rewrite <- E. unfold csv_lines. rewrite !map_app. reflexivity.
Qed.

Lemma run_file {text : PandasText} {floats : PandasFloats} {st : Streamlit}
    (submit : option entry) (now1 now2 : Z)
    (pick : option (list value)) (file : option csv) :
  snd (run submit now1 now2 pick file) =
  match submit with
  | Some f => append f now1 file
  | None => file
  end.
Proof.
  unfold run. destruct submit as [f |]; reflexivity.
Qed.

(** X2. What a run does to a store written by the form: without a
    submission the file is left as it is, no file staying no file; with
    one the file is the old one followed by the line of the entry, after
    the header when there was no file.  In both cases the file
    afterwards is again a store written by the form, so every store
    reached from no file by runs of the script is one. *)
Theorem run_keeps_form_store {text : PandasText} {floats : PandasFloats}
    {st : Streamlit}
    (submit : option entry) (now1 now2 : Z) (pick : option (list value))
    (file : option csv) :
  written_by_form file ->
  (forall f, submit = Some f -> in_slider_range f) ->
  snd (run submit now1 now2 pick file) =
  match submit with
  | None => file
  | Some f =>
      Some (match file with
            | None => [HEADER; csv_line f now1]
            | Some lines => lines ++ [csv_line f now1]
            end)
  end /\
  written_by_form (snd (run submit now1 now2 pick file)).
Proof.
  intros W R. rewrite run_file. destruct submit as [f |]; [| now split].
  split; [apply append_lines |].
  destruct (append_csv_lines f now1 file W (R f eq_refl)) as (es & F & ->).
  now exists (es ++ [(f, now1)]).
Qed.

Lemma two_lines_by_form :
  written_by_form (text := EpochText.epoch_text) (Some two_lines) /\
  Forall (fun p => in_slider_range (fst p)) two_entries.
Proof.
  assert (F : Forall (fun p => in_slider_range (fst p)) two_entries)
    by (repeat constructor; simpl; lia).
  split; [| exact F]. exists two_entries. split; [exact F | reflexivity].
Qed.

Lemma run_keeps_form_store_witness :
  snd (run (text := EpochText.epoch_text) (floats := EpochText.exact_means)
         (st := EpochText.same_object) (Some index_fund) 1000 2000 None
         (Some two_lines))
  = Some (two_lines
          ++ [["Buy index fund"; "Finance"; "20"; "0"; "-10"; "1000"]]) /\
  written_by_form (text := EpochText.epoch_text)
    (snd (run (text := EpochText.epoch_text) (floats := EpochText.exact_means)
            (st := EpochText.same_object) (Some index_fund) 1000 2000 None
            (Some two_lines))).
Proof.
  apply (run_keeps_form_store (text := EpochText.epoch_text)
           (floats := EpochText.exact_means) (st := EpochText.same_object)
           (Some index_fund) 1000 2000 None (Some two_lines)).
  - apply two_lines_by_form.
  - intros f [= <-]. unfold in_slider_range. simpl. lia.
Defined.

(** ** What is loaded from a store written by the form *)

Lemma retimed_rows (es : list (entry * Z)) (g : entry * Z -> list value)
    (col : list value) :
  List.length col = List.length es ->
  (forall v, In v col -> is_time v) ->
  (forall p, In p es ->
     exists d c t,
       g p = [d; c; Int (w (fst p)); Int (h (fst p)); Int (s (fst p)); t]) ->
  Forall2 loaded_as es
    (zip_with (fun row v => replace_nth 5 v row) (map g es) col).
Proof.
  revert col. induction es as [| p es IH]; intros [| v col]; simpl;
    try discriminate; [constructor |].
  intros [= L] T G. constructor.
  - destruct (G p (or_introl eq_refl)) as (d & c & t & ->).
    exists d, c, v. split; [reflexivity | apply T; now left].
  - apply IH; auto.
Qed.

Lemma form_rows {text : PandasText} (es : list (entry * Z)) (d0 d1 d5 : dtype) :
  reads_slider_ints ->
  Forall (fun p => in_slider_range (fst p)) es ->
  forall p, In p es ->
    zip_with convert [d0; d1; int64; int64; int64; d5]
      (csv_line (fst p) (snd p)) =
    [convert d0 (decision (fst p));
     convert d1 (category_name (category (fst p)));
     Int (w (fst p)); Int (h (fst p)); Int (s (fst p));
     convert d5 (Timestamp_str (snd p))].
Proof.
  intros RI F p I. rewrite Forall_forall in F.
  destruct (F p I) as (Rw & Rh & Rs). simpl.
  now rewrite !convert_slider_int.
Qed.

(** The frame loaded from a store written by the form: the columns of
    the header and, for every entry in order, a record that carries its
    three scores as integers and a time or the invalid marker. *)
Lemma load_form_store {text : PandasText} (es : list (entry * Z)) :
  reads_slider_ints ->
  Forall (fun p => in_slider_range (fst p)) es ->
  exists rows,
    load (Some (HEADER :: csv_lines es)) = Ok (mkFrame HEADER rows) /\
    Forall2 loaded_as es rows.
Proof.
  intros RI F. unfold load, read_history. rewrite read_csv_lines. cbn [bind].
  rewrite ensure_category_old by (simpl; auto).
  destruct es as [| p0 es0] eqn:Es.
  { exists []. split; [reflexivity | constructor]. }
  rewrite <- Es in *. assert (NE : es <> []) by (rewrite Es; discriminate).
  clear Es p0 es0. rewrite Forall_forall in F. cbn [seq map].
  replace (infer_dtype (column_tokens 2 (csv_lines es))) with int64.
  2:{ symmetry. unfold column_tokens, csv_lines. rewrite map_map.
      apply (score_column es w RI NE). intros p I. apply (F p I). }
  replace (infer_dtype (column_tokens 3 (csv_lines es))) with int64.
  2:{ symmetry. unfold column_tokens, csv_lines. rewrite map_map.
      apply (score_column es h RI NE). intros p I. apply (F p I). }
  replace (infer_dtype (column_tokens 4 (csv_lines es))) with int64.
  2:{ symmetry. unfold column_tokens, csv_lines. rewrite map_map.
      apply (score_column es s RI NE). intros p I. apply (F p I). }
  set (d0 := infer_dtype (column_tokens 0 (csv_lines es))).
  set (d1 := infer_dtype (column_tokens 1 (csv_lines es))).
  set (d5 := infer_dtype (column_tokens 5 (csv_lines es))).
  unfold csv_lines. rewrite map_map.
  destruct (parse_time_form_rows es d0 d1 int64 int64 int64 d5 NE)
    as (times & -> & Len & Times).
  eexists. split; [reflexivity |].
  apply retimed_rows.
  - exact Len.
  - exact Times.
  - intros p I.
    rewrite (form_rows es d0 d1 d5 RI (proj2 (Forall_forall _ _) F) p I).
    eauto.
Qed.

Lemma nth_retimed {A : Type} (l : list A) (g : A -> list value)
    (col : list value) (j : nat) :
  j <> 5%nat ->
  List.length col = List.length l ->
  map (fun row => nth j row NaN)
      (zip_with (fun row v => replace_nth 5 v row) (map g l) col) =
  map (fun a => nth j (g a) NaN) l.
Proof.
  intros J. revert col.
  induction l as [| a l IH]; intros [| v col]; cbn [map zip_with List.length];
    try discriminate; [reflexivity |].
  intros [= L]. rewrite replace_nth_other by congruence. now rewrite IH.
Qed.

(** The decision and category cells of the loaded frame, in terms of
    the types that [read_csv] settles on for the two columns. *)
Lemma load_form_store_text {text : PandasText} (es : list (entry * Z)) :
  reads_slider_ints ->
  Forall (fun p => in_slider_range (fst p)) es ->
  es <> [] ->
  exists rows,
    load (Some (HEADER :: csv_lines es)) = Ok (mkFrame HEADER rows) /\
    map (fun row => nth 0 row NaN) rows =
    map (fun p => convert (infer_dtype (column_tokens 0 (csv_lines es)))
                    (decision (fst p))) es /\
    map (fun row => nth 1 row NaN) rows =
    map (fun p => convert (infer_dtype (column_tokens 1 (csv_lines es)))
                    (category_name (category (fst p)))) es.
Proof.
  intros RI F NE. unfold load, read_history. rewrite read_csv_lines.
  cbn [bind]. rewrite ensure_category_old by (simpl; auto).
  pose proof F as F'. rewrite Forall_forall in F. cbn [seq map].
  replace (infer_dtype (column_tokens 2 (csv_lines es))) with int64.
  2:{ symmetry. unfold column_tokens, csv_lines. rewrite map_map.
      apply (score_column es w RI NE). intros p I. apply (F p I). }
  replace (infer_dtype (column_tokens 3 (csv_lines es))) with int64.
  2:{ symmetry. unfold column_tokens, csv_lines. rewrite map_map.
      apply (score_column es h RI NE). intros p I. apply (F p I). }
  replace (infer_dtype (column_tokens 4 (csv_lines es))) with int64.
  2:{ symmetry. unfold column_tokens, csv_lines. rewrite map_map.
      apply (score_column es s RI NE). intros p I. apply (F p I). }
  set (d0 := infer_dtype (column_tokens 0 (csv_lines es))).
  set (d1 := infer_dtype (column_tokens 1 (csv_lines es))).
  set (d5 := infer_dtype (column_tokens 5 (csv_lines es))).
  unfold csv_lines. rewrite map_map.
  destruct (parse_time_form_rows es d0 d1 int64 int64 int64 d5 NE)
    as (times & -> & Len & _).
  eexists. split; [reflexivity |].
  rewrite !nth_retimed; try discriminate; try exact Len.
  split; apply map_ext_in; intros p I;
    now rewrite (form_rows es d0 d1 d5 RI F' p I).
Qed.

Lemma loaded_column (es : list (entry * Z)) (rows : list (list value))
    (i : nat) (score : entry -> Z) :
  Forall2 loaded_as es rows ->
  (forall (p : entry * Z) d c t,
     nth i [d; c; Int (w (fst p)); Int (h (fst p)); Int (s (fst p)); t] NaN
     = Int (score (fst p))) ->
  map (fun row => nth i row NaN) rows = map (fun p => Int (score (fst p))) es.
Proof.
  intros L N. induction L as [| p row es rows (d & c & t & -> & _) _ IH];
    simpl; [reflexivity |].
  f_equal; [apply N | exact IH].
Qed.

Lemma loaded_rows_shape (es : list (entry * Z)) (rows : list (list value)) :
  Forall2 loaded_as es rows ->
  forall row, In row rows -> exists p, In p es /\ loaded_as p row.
Proof.
  induction 1 as [| p row0 es rows L _ IH]; simpl; [intros ? [] |].
  intros row [<- | I].
  - exists p. auto.
  - destruct (IH row I) as (q & ? & ?). exists q. auto.
Qed.

(** X3. Every score comes back: a store written by the form loads without
    an exception into one record per entry, in the order of submission,
    and the wealth, health and self columns of the frame are the
    submitted integers. *)
Theorem form_store_scores_round_trip {text : PandasText}
    (es : list (entry * Z)) :
  reads_slider_ints ->
  Forall (fun p => in_slider_range (fst p)) es ->
  exists df,
    load (Some (HEADER :: csv_lines es)) = Ok df /\
    columns df = HEADER /\
    len df = List.length es /\
    getitem df "Wealth" = Ok (map (fun p => Int (w (fst p))) es) /\
    getitem df "Health" = Ok (map (fun p => Int (h (fst p))) es) /\
    getitem df "Self" = Ok (map (fun p => Int (s (fst p))) es).
Proof.
  intros RI F. destruct (load_form_store es RI F) as (rows & L & Rows).
  exists (mkFrame HEADER rows). split; [exact L |]. split; [reflexivity |].
  split; [unfold len; simpl; symmetry; now apply (Forall2_length Rows) |].
  unfold getitem. simpl.
  rewrite (loaded_column es rows 2 w Rows) by reflexivity.
  rewrite (loaded_column es rows 3 h Rows) by reflexivity.
  rewrite (loaded_column es rows 4 s Rows) by reflexivity.
  repeat split.
Qed.

Lemma form_store_scores_round_trip_witness :
  exists df,
    load (text := EpochText.epoch_text) (Some two_lines) = Ok df /\
    getitem df "Wealth" = Ok [Int 0; Int 40] /\
    getitem df "Self" = Ok [Int 10; Int (-5)].
Proof.
  destruct (form_store_scores_round_trip (text := EpochText.epoch_text)
              two_entries (proj1 epoch_text_reads_ints)
              (proj2 two_lines_by_form))
    as (df & L & _ & _ & W & _ & S).
  exists df. split; [exact L |]. split; [exact W | exact S].
Defined.

(** ** Frames whose scores are integers of the sliders *)

Lemma cell_index (cols : list string) (name : string) (row : list value)
    (v : value) :
  cell cols name row = Some v ->
  exists i, index name cols = Some i /\ nth i row NaN = v.
Proof.
  unfold cell. destruct (index name cols) as [i |]; [| discriminate].
  intros N. exists i. split; [reflexivity | now apply nth_error_nth].
Qed.

Lemma scores_cells (cols : list string) (row : list value) (a b c : Z) :
  scores cols row = Some (a, b, c) ->
  cell cols "Wealth" row = Some (Int a) /\
  cell cols "Health" row = Some (Int b) /\
  cell cols "Self" row = Some (Int c).
Proof.
  unfold scores.
  destruct (cell cols "Wealth" row) as [[| | a' | | | |] |]; try discriminate.
  destruct (cell cols "Health" row) as [[| | b' | | | |] |]; try discriminate.
  destruct (cell cols "Self" row) as [[| | c' | | | |] |]; try discriminate.
  now intros [= -> -> ->].
Qed.

(** A score column of such a frame, read by name. *)
Lemma score_getitem (df : DataFrame) (name : string)
    (score : list value -> Z) :
  values df <> [] ->
  (forall row, In row (values df) ->
     cell (columns df) name row = Some (Int (score row))) ->
  exists i,
    index name (columns df) = Some i /\
    getitem df name = Ok (map Int (map score (values df))) /\
    forall row, In row (values df) -> nth i row NaN = Int (score row).
Proof.
  intros N C. destruct (values df) as [| row0 rows] eqn:V; [congruence |].
  destruct (cell_index _ _ _ _ (C row0 (or_introl eq_refl))) as (i & I & _).
  assert (A : forall row, In row (row0 :: rows) ->
            nth i row NaN = Int (score row)).
  { intros row R. destruct (cell_index _ _ _ _ (C row R)) as (j & J & E).
    congruence. }
  exists i. split; [exact I |]. split; [| exact A].
  unfold getitem. rewrite I, V, map_map. f_equal. now apply map_ext_in.
Qed.

Lemma slider_wealth (df : DataFrame) :
  slider_scores df ->
  forall row, In row (values df) ->
    cell (columns df) "Wealth" row = Some (Int (wealth_of (columns df) row)) /\
    cell (columns df) "Health" row = Some (Int (health_of (columns df) row)) /\
    cell (columns df) "Self" row = Some (Int (self_of (columns df) row)) /\
    -100 <= wealth_of (columns df) row <= 100 /\
    -100 <= health_of (columns df) row <= 100 /\
    -100 <= self_of (columns df) row <= 100.
Proof.
  intros S row R. destruct (S row R) as (a & b & c & E & Ra & Rb & Rc).
  unfold wealth_of, health_of, self_of. rewrite E.
  destruct (scores_cells _ _ _ _ _ E) as (-> & -> & ->). auto 6.
Qed.

Lemma Zsum_between (lo hi : Z) (zs : list Z) :
  (forall z, In z zs -> lo <= z <= hi) ->
  lo * Z.of_nat (List.length zs) <= Zsum zs <= hi * Z.of_nat (List.length zs).
Proof.
  induction zs as [| z zs IH]; intros B; simpl Zsum; simpl List.length;
    [lia |].
  specialize (B z (or_introl eq_refl)) as Bz.
  assert (IH' : lo * Z.of_nat (List.length zs) <= Zsum zs
                <= hi * Z.of_nat (List.length zs))
    by (apply IH; intros; apply B; now right).
  lia.
Qed.

(** X7. On a frame with at least one record and no more than 2^46 of
    them, whose scores are integers of the sliders, the average wealth
    is the float64 quotient of the sum of the wealth scores by the
    number of records: the arithmetic mean up to the rounding of that
    division, a relative error of at most 2^-53.  It lies between -100
    and 100, and it is what the summary holds. *)
Theorem avg_wealth_in_range {floats : PandasFloats} (df : DataFrame) :
  values df <> [] ->
  Z.of_nat (len df) <= 2 ^ 46 ->
  slider_scores df ->
  exists q,
    (wealth <- getitem df "Wealth" ;; mean wealth) = Ok (Float q) /\
    q = div64 (Zsum (map (wealth_of (columns df)) (values df)))
              (Z.of_nat (len df)) /\
    (Qabs (q - inject_Z (Zsum (map (wealth_of (columns df)) (values df)))
               / inject_Z (Z.of_nat (len df)))
     <= Qabs (inject_Z (Zsum (map (wealth_of (columns df)) (values df)))
              / inject_Z (Z.of_nat (len df))) * (1 # 2 ^ 53))%Q /\
    (- (100) <= q <= 100)%Q /\
    (forall now m, summarize now df = Ok m -> avg_wealth m = Float q).
Proof.
  intros N Size S.
  destruct (score_getitem df "Wealth" (wealth_of (columns df)) N)
    as (i & _ & G & _); [intros row R; apply (slider_wealth df S row R) |].
  set (zs := map (wealth_of (columns df)) (values df)) in *.
  assert (L : List.length zs = len df) by apply length_map.
  assert (NZ : zs <> []).
  { intros E. apply N. apply length_zero_iff_nil.
    fold (len df). rewrite <- L, E. reflexivity. }
  assert (P : 0 < Z.of_nat (len df)).
  { rewrite <- L. destruct zs; [congruence | simpl; lia]. }
  assert (In100 : forall z, In z zs -> -100 <= z <= 100).
  { intros z Z0. apply in_map_iff in Z0 as (row & <- & R).
    apply (slider_wealth df S row R). }
  assert (M0 : mean (map Int zs) =
               Ok (Float (div64 (Zsum zs) (Z.of_nat (len df))))).
  { rewrite <- L. apply mean_ints; [exact NZ |].
    apply sums_exactly_sliders; [| now rewrite L].
    intros z Z0. specialize (In100 z Z0). lia. }
  assert (M : (wealth <- getitem df "Wealth" ;; mean wealth) =
              Ok (Float (div64 (Zsum zs) (Z.of_nat (len df)))))
    by (rewrite G; exact M0).
  pose proof (Zsum_between (-100) 100 zs In100) as B. rewrite L in B.
  eexists. split; [exact M |]. split; [reflexivity |]. split; [| split].
  - rewrite Qmake_div by exact P. now apply div64_error.
  - split.
    + apply (div64_ge _ _ 100); [exact P | lia | split; [lia | reflexivity]].
    + apply (div64_le _ _ 100); [exact P | lia | split; [lia | reflexivity]].
  - intros now m. unfold summarize. destruct (negb (empty df)) eqn:Em.
    + destruct (count_today now df); cbn [bind]; [| discriminate].
      rewrite G. cbn [bind]. rewrite M0. cbn [bind].
      destruct (mean_neg_flags df); cbn [bind]; [| discriminate].
      now intros [= <-].
    + apply Bool.negb_false_iff in Em. unfold empty in Em.
      apply Bool.orb_true_iff in Em as [Em | Em]; apply Nat.eqb_eq in Em.
      * exfalso. apply length_zero_iff_nil in Em.
        destruct (values df) as [| row rows] eqn:V; [congruence |].
        assert (R : In row (values df)) by (rewrite V; now left).
        destruct (S row R) as (a & b & c & E & _).
        unfold scores, cell in E. rewrite Em in E. discriminate E.
      * apply length_zero_iff_nil in Em. congruence.
Qed.

Lemma two_walks_slider_scores : slider_scores two_walks.
Proof.
  intros row. simpl. intros [<- | [<- | [<- | []]]];
    eexists; eexists; eexists; (split; [reflexivity | lia]).
Qed.

Lemma avg_wealth_in_range_witness :
  exists q,
    (wealth <- getitem two_walks "Wealth" ;;
     mean (floats := EpochText.exact_means) wealth) = Ok (Float q) /\
    (q == 7505999378950827 # 562949953421312)%Q /\
    (- (100) <= q <= 100)%Q.
Proof.
  destruct (avg_wealth_in_range (floats := EpochText.exact_means) two_walks)
    as (q & M & E & _ & B & _).
  - discriminate.
  - vm_compute. discriminate.
  - exact two_walks_slider_scores.
  - exists q. split; [exact M |]. split; [| exact B].
    rewrite E. vm_compute. reflexivity.
Defined.

(** ** The axes of the ternary chart *)

Lemma zip_with_map_r {A B C : Type} (f : A -> B -> C) (g : A -> B)
    (l : list A) :
  zip_with f l (map g l) = map (fun a => f a (g a)) l.
Proof.
  induction l as [| a l IH]; simpl; [reflexivity |]. now rewrite IH.
Qed.

Lemma mapM_add_100 (rows : list (list value)) (i : nat) :
  (forall row, In row rows -> exists z, nth i row NaN = Int z) ->
  mapM add_100 (map (fun row => nth i row NaN) rows) =
  Ok (map (fun row => Int (as_int (nth i row NaN) + 100)) rows).
Proof.
  induction rows as [| row rows IH]; simpl; [reflexivity |].
  intros A. destruct (A row (or_introl eq_refl)) as (z & ->). simpl.
  rewrite IH by auto. reflexivity.
Qed.

(** One of the three lines 96-98 on a frame whose [from] column holds
    integers and that has no [to] column yet. *)
Lemma shifted_new (df : DataFrame) (from to : string) (i : nat) :
  index from (columns df) = Some i ->
  ~ In to (columns df) ->
  (forall row, In row (values df) -> exists z, nth i row NaN = Int z) ->
  shifted df from to =
  Ok (mkFrame (columns df ++ [to])
        (map (fun row => row ++ [Int (as_int (nth i row NaN) + 100)])
             (values df))).
Proof.
  intros I N A. unfold shifted, getitem. rewrite I. cbn [bind].
  rewrite mapM_add_100 by exact A. cbn [bind].
  unfold setitem. rewrite (index_none _ _ N).
  now rewrite zip_with_map_r.
Qed.

Lemma axes_of_scores (cols : list string) (row : list value)
    (iw ih is_ : nat) (a b c : Z) :
  index "Wealth" cols = Some iw ->
  index "Health" cols = Some ih ->
  index "Self" cols = Some is_ ->
  List.length row = List.length cols ->
  scores cols row = Some (a, b, c) ->
  nth iw row NaN = Int a /\ nth ih row NaN = Int b /\ nth is_ row NaN = Int c.
Proof.
  intros Iw Ih Is L E. destruct (scores_cells _ _ _ _ _ E) as (W & H & S).
  apply cell_index in W as (? & ? & ?), H as (? & ? & ?), S as (? & ? & ?).
  repeat split; congruence.
Qed.

Lemma ternary_axes_eq (df : DataFrame) :
  ready_for_axes (columns df) ->
  rectangular df ->
  (forall row, In row (values df) -> scores (columns df) row <> None) ->
  ternary_axes df =
  Ok (mkFrame (columns df ++ ["w2"; "h2"; "s2"])
        (map (fun row => row ++ axes (columns df) row) (values df))).
Proof.
  intros ((Hw & Hh & Hs) & Nw & Nh & Ns) T S.
  destruct (index_in _ _ Hw) as (iw & Iw), (index_in _ _ Hh) as (ih & Ih),
    (index_in _ _ Hs) as (is_ & Is).
  pose proof (index_lt _ _ _ Iw) as Lw. pose proof (index_lt _ _ _ Ih) as Lh.
  pose proof (index_lt _ _ _ Is) as Ls.
  assert (Cells : forall row, In row (values df) ->
            exists a b c,
              scores (columns df) row = Some (a, b, c) /\
              nth iw row NaN = Int a /\ nth ih row NaN = Int b /\
              nth is_ row NaN = Int c /\
              List.length row = List.length (columns df)).
  { intros row R. destruct (scores (columns df) row) as [[[a b] c] |] eqn:E;
      [| now destruct (S row R)].
    exists a, b, c. split; [reflexivity |].
    destruct (axes_of_scores _ _ _ _ _ _ _ _ Iw Ih Is (T row R) E)
      as (? & ? & ?).
    repeat split; auto. }
  unfold ternary_axes.
  rewrite (shifted_new df "Wealth" "w2" iw Iw Nw).
  2:{ intros row R. destruct (Cells row R) as (a & _ & _ & _ & -> & _).
      now exists a. }
  cbn [bind].
  rewrite (shifted_new _ "Health" "h2" ih).
  2:{ now apply index_app_old. }
  2:{ simpl. intros I. apply in_app_or in I as [I | [I | []]];
        [tauto | discriminate I]. }
  2:{ simpl. intros row1 R1. apply in_map_iff in R1 as (row & <- & R).
      destruct (Cells row R) as (_ & b & _ & _ & _ & Eb & _ & L).
      exists b. rewrite app_nth1 by lia. exact Eb. }
  cbn [bind columns values].
  rewrite (shifted_new _ "Self" "s2" is_).
  2:{ simpl. rewrite <- app_assoc. now apply index_app_old. }
  2:{ simpl. intros I. apply in_app_or in I as [I | [I | []]];
        [| discriminate I].
      apply in_app_or in I as [I | [I | []]]; [tauto | discriminate I]. }
  2:{ simpl. intros row2 R2. rewrite map_map in R2.
      apply in_map_iff in R2 as (row & <- & R).
      destruct (Cells row R) as (_ & _ & c & _ & _ & _ & Ec & L).
      exists c. rewrite app_nth1 by (rewrite length_app; lia).
      rewrite app_nth1 by lia. exact Ec. }
  cbn [columns values]. rewrite <- !app_assoc. simpl app at 1.
  f_equal. f_equal. rewrite !map_map. apply map_ext_in. intros row R.
  destruct (Cells row R) as (a & b & c & E & Ea & Eb & Ec & L).
  unfold axes. rewrite E, <- !app_assoc. simpl app.
  rewrite !app_nth1 by lia. now rewrite Ea, Eb, Ec.
Qed.

(** X8. Lines 96-98 keep every record and every column and add, on the
    right, the three columns w2, h2 and s2 that hold the scores plus
    100; with scores of the sliders the added cells lie between 0 and
    200, so no axis of the ternary chart is negative. *)
Theorem ternary_axes_shift_scores (df : DataFrame) :
  ready_for_axes (columns df) ->
  rectangular df ->
  slider_scores df ->
  exists df',
    ternary_axes df = Ok df' /\
    columns df' = columns df ++ ["w2"; "h2"; "s2"] /\
    values df' = map (fun row => row ++ axes (columns df) row) (values df) /\
    forall row, In row (values df) ->
      exists x y z,
        axes (columns df) row = [Int x; Int y; Int z] /\
        x = wealth_of (columns df) row + 100 /\
        y = health_of (columns df) row + 100 /\
        z = self_of (columns df) row + 100 /\
        0 <= x <= 200 /\ 0 <= y <= 200 /\ 0 <= z <= 200.
Proof.
  intros A T S. eexists. split; [apply ternary_axes_eq; auto |].
  - intros row R. destruct (S row R) as (a & b & c & -> & _). discriminate.
  - simpl. repeat split. intros row R.
    destruct (S row R) as (a & b & c & E & Ra & Rb & Rc).
    unfold axes, wealth_of, health_of, self_of. rewrite E.
    exists (a + 100), (b + 100), (c + 100). repeat split; lia.
Qed.

Lemma ternary_axes_shift_scores_witness :
  exists df',
    ternary_axes two_walks = Ok df' /\
    values df' =
    [[Str "Walk"; Str "Health goal"; Int 0; Int 30; Int 10; Timestamp 0;
      Int 100; Int 130; Int 110];
     [Str "Save"; Str "Finance"; Int 40; Int 0; Int (-5); Timestamp 5;
      Int 140; Int 100; Int 95];
     [Str "Walk"; Str "Health goal"; Int 0; Int 20; Int 10; NaT;
      Int 100; Int 120; Int 110]].
Proof.
  destruct (ternary_axes_shift_scores two_walks) as (df' & A & _ & V & _).
  - unfold ready_for_axes. simpl. repeat split; auto 6;
      intros I; repeat destruct I as [I | I]; try discriminate I; exact I.
  - intros row. simpl. intros [<- | [<- | [<- | []]]]; reflexivity.
  - exact two_walks_slider_scores.
  - exists df'. split; [exact A | exact V].
Defined.

(** ** The totals of the selected decisions *)

Lemma existsb_map_false {A B : Type} (p : B -> bool) (f : A -> B)
    (l : list A) :
  (forall a, p (f a) = false) -> existsb p (map f l) = false.
Proof.
  intros N. induction l as [| a l IH]; simpl; [reflexivity |].
  now rewrite N, IH.
Qed.

Lemma sum_ints {objects : PandasObjects} (zs : list Z) :
  sum (map Int zs) = Ok (Int (Zsum zs)).
Proof.
  unfold sum. rewrite !existsb_map_false by reflexivity. simpl.
  rewrite map_map. simpl. now rewrite map_id.
Qed.

(** X9. On a selection with at least one record whose scores are integers
    of the sliders, the totals of the second bar chart are the three
    sums of the scores over the selected records, each between -100 and
    100 times the number of records. *)
Theorem totals_are_sums {objects : PandasObjects} (df2 : DataFrame) :
  values df2 <> [] ->
  slider_scores df2 ->
  exists tw th ts,
    totals df2 =
    Ok [("Wealth", Int tw); ("Health", Int th); ("Self", Int ts)] /\
    tw = Zsum (map (wealth_of (columns df2)) (values df2)) /\
    th = Zsum (map (health_of (columns df2)) (values df2)) /\
    ts = Zsum (map (self_of (columns df2)) (values df2)) /\
    -100 * Z.of_nat (len df2) <= tw <= 100 * Z.of_nat (len df2) /\
    -100 * Z.of_nat (len df2) <= th <= 100 * Z.of_nat (len df2) /\
    -100 * Z.of_nat (len df2) <= ts <= 100 * Z.of_nat (len df2).
Proof.
  intros N S.
  destruct (score_getitem df2 "Wealth" (wealth_of (columns df2)) N)
    as (_ & _ & Gw & _); [intros row R; apply (slider_wealth df2 S row R) |].
  destruct (score_getitem df2 "Health" (health_of (columns df2)) N)
    as (_ & _ & Gh & _); [intros row R; apply (slider_wealth df2 S row R) |].
  destruct (score_getitem df2 "Self" (self_of (columns df2)) N)
    as (_ & _ & Gs & _); [intros row R; apply (slider_wealth df2 S row R) |].
  do 3 eexists. split.
  - unfold totals, SECTORS. cbn [mapM bind]. rewrite Gw, Gh, Gs.
    cbn [mapM bind fst snd]. rewrite !sum_ints. reflexivity.
  - split; [reflexivity |]. split; [reflexivity |]. split; [reflexivity |].
    assert (B : forall get : list value -> Z,
              (forall row, In row (values df2) -> -100 <= get row <= 100) ->
              -100 * Z.of_nat (len df2) <= Zsum (map get (values df2))
              <= 100 * Z.of_nat (len df2)).
    { intros get G. unfold len. rewrite <- (length_map get (values df2)).
      apply Zsum_between. intros z Z0.
      apply in_map_iff in Z0 as (row & <- & R). now apply G. }
    split; [| split]; apply B; intros row R;
      apply (slider_wealth df2 S row R).
Qed.

Lemma totals_are_sums_witness :
  totals (objects := no_objects) two_walks =
  Ok [("Wealth", Int 40); ("Health", Int 50); ("Self", Int 15)].
Proof.
  destruct (totals_are_sums (objects := no_objects) two_walks)
    as (tw & th & ts & T & -> & -> & -> & _).
  - discriminate.
  - exact two_walks_slider_scores.
  - exact T.
Defined.

(** ** A whole run on a store written by the form *)

Lemma mean_neg_flags_ok {floats : PandasFloats} (df : DataFrame) :
  (forall row, In row (values df) -> scores (columns df) row <> None) ->
  exists v, mean_neg_flags df = Ok v.
Proof.
  intros S. unfold mean_neg_flags. rewrite mapM_neg_flags by exact S.
  rewrite <- (map_map (negative_sectors_of (columns df)) Int). cbn [bind].
  apply mean_ints_ok.
Qed.

(** The summary of a frame with a time column and integer scores. *)
Lemma summarize_ok {floats : PandasFloats} (df : DataFrame) (now : Z)
    (i : nat) :
  index "Time" (columns df) = Some i ->
  (forall row, In row (values df) -> is_time (nth i row NaN)) ->
  slider_scores df ->
  exists m, summarize now df = Ok m.
Proof.
  intros I T S. unfold summarize. destruct (negb (empty df)) eqn:E; [| eauto].
  assert (N : values df <> []).
  { intros V. unfold empty in E. rewrite V in E. simpl in E.
    now rewrite Bool.orb_true_r in E. }
  rewrite (count_today_eq df now i I T). cbn [bind].
  destruct (score_getitem df "Wealth" (wealth_of (columns df)) N)
    as (_ & _ & G & _); [intros row R; apply (slider_wealth df S row R) |].
  rewrite G. cbn [bind].
  destruct (mean_ints_ok (map (wealth_of (columns df)) (values df)))
    as (v & ->).
  cbn [bind]. destruct (mean_neg_flags_ok df) as (u & ->); [| simpl; eauto].
  intros row R. destruct (S row R) as (a & b & c & -> & _). discriminate.
Qed.

(** The two averages of a summary can be formatted: each is the
    integer 0, a float or [nan]. *)
Lemma summarize_formats {floats : PandasFloats} (df : DataFrame) (now : Z)
    (m : summary) :
  summarize now df = Ok m ->
  exists wealth_text flags_text,
    format_average 1 (avg_wealth m) = Ok wealth_text /\
    format_average 2 (avg_neg_flags m) = Ok flags_text.
Proof.
  unfold summarize. destruct (negb (empty df)).
  - destruct (count_today now df); cbn [bind]; [| discriminate].
    destruct (getitem df "Wealth") as [wealth |]; cbn [bind];
      [| discriminate].
    destruct (mean wealth) as [va |] eqn:A; cbn [bind]; [| discriminate].
    destruct (mean_neg_flags df) as [vb |] eqn:B; cbn [bind];
      [| discriminate].
    intros [= <-]. cbn [avg_wealth avg_neg_flags].
    unfold mean_neg_flags in B.
    destruct (mapM _ (values df)) as [flags |]; cbn [bind] in B;
      [| discriminate].
    apply mean_is_float in A as [-> | (qa & ->)];
      apply mean_is_float in B as [-> | (qb & ->)]; simpl; eauto.
  - intros [= <-]. simpl. eauto.
Qed.

Lemma filter_by_own_labels (df : DataFrame) :
  In "Decision" (columns df) ->
  exists labels,
    decision_labels df = Ok labels /\
    (forall row, In row (values df) -> labelled (columns df) labels row = true) /\
    filter_decisions df labels = Ok df.
Proof.
  intros I. destruct (index_in _ _ I) as (i & E).
  exists (unique (map (fun row => nth i row NaN) (values df))).
  assert (All : forall row, In row (values df) ->
            labelled (columns df)
              (unique (map (fun row => nth i row NaN) (values df))) row = true).
  { intros row R. unfold labelled. rewrite (field_nth _ _ i row E).
    apply unique_covers. now apply (in_map (fun row => nth i row NaN)). }
  split; [| split; [exact All |]].
  - unfold decision_labels, getitem. now rewrite E.
  - rewrite filter_decisions_eq by exact I. rewrite (filter_all _ _ All).
    now destruct df.
Qed.

(** The frame of a store written by the form, as the later stages of
    a run need it. *)
Lemma form_frame_facts (es : list (entry * Z)) (rows : list (list value)) :
  Forall (fun p => in_slider_range (fst p)) es ->
  Forall2 loaded_as es rows ->
  rectangular (mkFrame HEADER rows) /\
  slider_scores (mkFrame HEADER rows) /\
  (forall row, In row rows -> is_time (nth 5 row NaN)).
Proof.
  intros F L. rewrite Forall_forall in F.
  pose proof (loaded_rows_shape es rows L) as Shape.
  repeat split.
  - intros row R. destruct (Shape row R) as (p & _ & d & c & t & -> & _).
    reflexivity.
  - intros row R. destruct (Shape row R) as (p & P & d & c & t & -> & _).
    exists (w (fst p)), (h (fst p)), (s (fst p)). split; [reflexivity |].
    apply (F p P).
  - intros row R. destruct (Shape row R) as (p & _ & d & c & t & -> & T).
    exact T.
Qed.

Lemma header_ready_for_axes : ready_for_axes HEADER.
Proof.
  unfold ready_for_axes, HEADER. simpl. repeat split; auto 6;
    intros I; repeat destruct I as [I | I]; try discriminate I; exact I.
Qed.

(** What a run shows below the form, given the file it reads. *)
Lemma run_page {text : PandasText} {floats : PandasFloats} {st : Streamlit}
    (submit : option entry) (now1 now2 : Z)
    (pick : option (list value)) (file : option csv) :
  fst (run submit now1 now2 pick file) =
  (df <- load (match submit with
               | Some f => append f now1 file
               | None => file
               end) ;;
   m <- summarize now2 df ;;
   wealth_text <- format_average 1 (avg_wealth m) ;;
   flags_text <- format_average 2 (avg_neg_flags m) ;;
   df <- ternary_axes df ;;
   decisions <- getitem df "Decision" ;;
   options <- decision_labels df ;;
   default <- decision_labels df ;;
   sel <- multiselect (is_float64 decisions) options default pick ;;
   df2 <- filter_decisions df sel ;;
   Ok (match submit with
       | Some f => impact_warning f ++ [st_success "Decision logged!"]
       | None => []
       end
       ++ [st_metric "Decisions Today" (Int (Z.of_nat (decisions_today m)));
           st_metric "Avg Wealth Impact" (Str wealth_text);
           st_metric "Avg Negative Flags" (Str flags_text)]
       ++ charts df2)).
Proof.
  unfold run. destruct submit as [f |]; reflexivity.
Qed.

(** *** The default selection *)

Lemma py_eqb_refl (v : value) : isna v = false -> py_eqb v v = true.
Proof.
  intros N. unfold py_eqb. now rewrite N, value_eqb_refl.
Qed.

(** When no cell of the column is missing, each of its labels is found
    among the options and the default is accepted. *)
Lemma default_accepted {st : Streamlit} (col : list value)
    (pick : option (list value)) :
  (forall v, In v col -> isna v = false) ->
  multiselect (is_float64 col) (unique col) (unique col) pick =
  Ok (match pick with
      | Some sel => sel
      | None => unique col
      end).
Proof.
  intros N. unfold multiselect.
  replace (forallb _ (unique col)) with true; [reflexivity |].
  symmetry. apply forallb_forall. intros v V.
  assert (P : isna v = false) by (apply N; now apply unique_from_occurs in V).
  assert (E : existsb (py_eqb v) (unique col) = true).
  { apply existsb_exists. exists v. split; [exact V | now apply py_eqb_refl]. }
  destruct v; try discriminate P; exact E.
Qed.

(** A float64 column with a missing value: the default is refused. *)
Lemma default_refused {st : Streamlit} (col : list value)
    (pick : option (list value)) :
  is_float64 col = true -> In NaN col ->
  multiselect (is_float64 col) (unique col) (unique col) pick =
  Raise StreamlitAPIException.
Proof.
  intros F I. unfold multiselect. rewrite F.
  replace (forallb _ (unique col)) with false; [reflexivity |].
  symmetry. pose proof (unique_covers col NaN I) as C.
  apply existsb_exists in C as (v & V & E).
  destruct v; try discriminate E.
  now apply (forallb_false_at _ _ NaN V).
Qed.

Lemma isna_convert {text : PandasText} (d : dtype) (tok : string) :
  is_na tok = false -> isna (convert d tok) = false.
Proof.
  intros N. unfold convert. rewrite N.
  destruct d;
    [destruct (str_to_int64 tok) | destruct (str_to_double tok)
     | destruct (str_to_bool tok) |]; reflexivity.
Qed.

Lemma named_store_by_form {text : PandasText} (file : option csv) :
  named_store file -> written_by_form file.
Proof.
  destruct file as [lines |]; [| auto]. intros (es & F & ->).
  exists es. split; [| reflexivity].
  apply Forall_impl with (2 := F). now intros p (R & _).
Qed.

Lemma append_named_lines {text : PandasText} (f : entry) (now : Z)
    (file : option csv) :
  named_store file -> in_slider_range f -> is_na (decision f) = false ->
  exists es,
    Forall (fun p => in_slider_range (fst p) /\
                     is_na (decision (fst p)) = false) (es ++ [(f, now)]) /\
    append f now file = Some (HEADER :: csv_lines (es ++ [(f, now)])).
Proof.
  intros W R N. rewrite append_lines. destruct file as [lines |]; simpl in W.
  - destruct W as (es & F & ->). exists es. split.
    + apply Forall_app. split; [exact F | now constructor].
    + unfold csv_lines. now rewrite map_app.
  - exists []. split; [now constructor | reflexivity].
Qed.

(** What is loaded from a store in which every decision reads as
    something: no decision of the frame is missing. *)
Lemma load_named_lines {text : PandasText} (es : list (entry * Z)) :
  reads_slider_ints ->
  Forall (fun p => in_slider_range (fst p) /\
                   is_na (decision (fst p)) = false) es ->
  exists rows,
    Forall (fun p => in_slider_range (fst p)) es /\
    load (Some (HEADER :: csv_lines es)) = Ok (mkFrame HEADER rows) /\
    Forall2 loaded_as es rows /\
    (forall row, In row rows -> isna (nth 0 row NaN) = false).
Proof.
  intros RI F.
  assert (Fr : Forall (fun p => in_slider_range (fst p)) es).
  { apply Forall_impl with (2 := F). now intros p (R & _). }
  destruct (load_form_store es RI Fr) as (rows & L & R).
  exists rows. split; [exact Fr |]. split; [exact L |].
  split; [exact R |].
  destruct es as [| p0 es0] eqn:Es.
  { inversion R. intros row []. }
  rewrite <- Es in *.
  assert (NE : es <> []) by (rewrite Es; discriminate).
  destruct (load_form_store_text es RI Fr NE) as (rows' & L' & D & _).
  assert (rows' = rows) by congruence. subst rows'.
  intros row I. apply (in_map (fun row => nth 0 row NaN)) in I.
  rewrite D in I. apply in_map_iff in I as (p & <- & P).
  apply isna_convert. rewrite Forall_forall in F. apply (F p P).
Qed.

Lemma load_named_store {text : PandasText} (file : option csv) :
  reads_slider_ints ->
  named_store file ->
  exists es rows,
    Forall (fun p => in_slider_range (fst p)) es /\
    load file = Ok (mkFrame HEADER rows) /\
    Forall2 loaded_as es rows /\
    (forall row, In row rows -> isna (nth 0 row NaN) = false).
Proof.
  intros RI W. destruct file as [lines |]; simpl in W.
  - destruct W as (es & F & ->).
    destruct (load_named_lines es RI F) as (rows & ?). now exists es, rows.
  - exists [], []. repeat split; auto; try constructor. intros row [].
Qed.

(** The stages of a run after the load, on the frame of a store
    written by the form. *)
Lemma run_after_load {floats : PandasFloats}
    (es : list (entry * Z)) (rows : list (list value)) (now2 : Z) :
  Forall (fun p => in_slider_range (fst p)) es ->
  Forall2 loaded_as es rows ->
  exists m wealth_text flags_text,
    summarize now2 (mkFrame HEADER rows) = Ok m /\
    format_average 1 (avg_wealth m) = Ok wealth_text /\
    format_average 2 (avg_neg_flags m) = Ok flags_text /\
    ternary_axes (mkFrame HEADER rows) =
    Ok (mkFrame (HEADER ++ ["w2"; "h2"; "s2"])
          (map (fun row => row ++ axes HEADER row) rows)) /\
    getitem (mkFrame (HEADER ++ ["w2"; "h2"; "s2"])
               (map (fun row => row ++ axes HEADER row) rows)) "Decision" =
    Ok (map (fun row => nth 0 row NaN) rows).
Proof.
  intros F L. destruct (form_frame_facts es rows F L) as (T & S & Times).
  destruct (summarize_ok (mkFrame HEADER rows) now2 5 eq_refl Times S)
    as (m & M).
  destruct (summarize_formats _ _ _ M) as (tw & tf & Fw & Ff).
  exists m, tw, tf. split; [exact M |]. split; [exact Fw |].
  split; [exact Ff |]. split.
  - rewrite ternary_axes_eq; [reflexivity | exact header_ready_for_axes
                              | exact T |].
    intros row I. destruct (S row I) as (a & b & c & -> & _). discriminate.
  - unfold getitem. cbn [columns values].
    change (index "Decision" (HEADER ++ ["w2"; "h2"; "s2"])) with (Some 0%nat).
    cbv iota. rewrite map_map. f_equal. apply map_ext_in. intros row I.
    destruct (loaded_rows_shape es rows L row I)
      as (p & _ & d & c & t & -> & _).
    reflexivity.
Qed.

Lemma decision_labels_axes (rows : list (list value)) (col : list value) :
  getitem (mkFrame (HEADER ++ ["w2"; "h2"; "s2"]) rows) "Decision" = Ok col ->
  decision_labels (mkFrame (HEADER ++ ["w2"; "h2"; "s2"]) rows)
  = Ok (unique col).
Proof.
  intros G. unfold decision_labels. now rewrite G.
Qed.

(** X11. On a store written by the form in which no decision reads as a
    missing value, a run does not end in an exception, with or without
    the submission of such a decision and whatever is picked in the
    multiselect; after a submission the page says "Decision logged!". *)
Theorem run_on_form_store_succeeds {text : PandasText}
    {floats : PandasFloats} {st : Streamlit}
    (submit : option entry) (now1 now2 : Z) (pick : option (list value))
    (file : option csv) :
  reads_slider_ints ->
  named_store file ->
  (forall f, submit = Some f ->
     in_slider_range f /\ is_na (decision f) = false) ->
  exists page,
    fst (run submit now1 now2 pick file) = Ok page /\
    (submit <> None -> In (st_success "Decision logged!") page).
Proof.
  intros RI W R. rewrite run_page.
  assert (W' : named_store
                 (match submit with
                  | Some f => append f now1 file
                  | None => file
                  end)).
  { destruct submit as [f |]; [| exact W].
    destruct (R f eq_refl) as (Rf & Nf).
    destruct (append_named_lines f now1 file W Rf Nf) as (es & F & ->).
    now exists (es ++ [(f, now1)]). }
  destruct (load_named_store _ RI W') as (es & rows & F & -> & L & Named).
  cbn [bind].
  destruct (run_after_load es rows now2 F L)
    as (m & tw & tf & M & Fw & Ff & A & G).
  rewrite M. cbn [bind]. rewrite Fw. cbn [bind]. rewrite Ff. cbn [bind].
  rewrite A. cbn [bind]. rewrite G. cbn [bind].
  rewrite (decision_labels_axes _ _ G). cbn [bind].
  rewrite default_accepted.
  2:{ intros v V. apply in_map_iff in V as (row & <- & I). now apply Named. }
  cbn [bind]. rewrite filter_decisions_eq by (simpl; auto). cbn [bind].
  eexists. split; [reflexivity |].
  intros N. destruct submit as [f |]; [| congruence].
  apply in_or_app. left. apply in_or_app. right. now left.
Qed.

Lemma two_lines_named :
  named_store (text := EpochText.epoch_text) (Some two_lines).
Proof.
  exists two_entries. split; [| reflexivity].
  repeat constructor; simpl; lia.
Qed.

Lemma run_on_form_store_succeeds_witness :
  exists page,
    fst (run (text := EpochText.epoch_text) (floats := EpochText.exact_means)
           (st := EpochText.same_object) (Some index_fund) 1000 2000
           (Some [Str "Walk"]) (Some two_lines)) = Ok page /\
    In (st_success "Decision logged!") page.
Proof.
  destruct (run_on_form_store_succeeds (text := EpochText.epoch_text)
              (floats := EpochText.exact_means) (st := EpochText.same_object)
              (Some index_fund) 1000 2000 (Some [Str "Walk"]) (Some two_lines)
              (proj1 epoch_text_reads_ints) two_lines_named)
    as (page & P & S).
  - intros f [= <-]. unfold in_slider_range. simpl. split; [lia | reflexivity].
  - exists page. split; [exact P | apply S; discriminate].
Defined.

Lemma charts_of_records (df2 : DataFrame) :
  columns df2 <> [] -> values df2 <> [] ->
  charts df2 =
  [st_plotly_chart (scatter_ternary df2);
   st_plotly_chart (bar_last (last (values df2) []));
   st_plotly_chart (bar_totals df2)].
Proof.
  intros C V. unfold charts, empty.
  destruct (columns df2); [congruence |].
  destruct (values df2); [congruence | reflexivity].
Qed.

Lemma loaded_last (es : list (entry * Z)) (p : entry * Z)
    (rows : list (list value)) :
  Forall2 loaded_as (es ++ [p]) rows ->
  exists rows0 row, rows = rows0 ++ [row] /\ loaded_as p row.
Proof.
  intros L. apply Forall2_app_inv_l in L as (rows0 & rows1 & _ & L1 & ->).
  inversion L1 as [| ? row ? rest R Rest]; subst.
  inversion Rest; subst. now exists rows0, row.
Qed.

(** X10. After the submission of a decision that does not read as a
    missing value, on a store written by the form that holds no such
    decision either, and with the selection left at its default, the
    run draws the bar chart of the last decision from the entry just
    logged: its three sectors are the submitted scores. *)
Theorem logged_entry_is_charted {text : PandasText}
    {floats : PandasFloats} {st : Streamlit}
    (f : entry) (now1 now2 : Z) (file : option csv) :
  reads_slider_ints ->
  named_store file ->
  in_slider_range f ->
  is_na (decision f) = false ->
  exists page row,
    fst (run (Some f) now1 now2 None file) = Ok page /\
    In (st_plotly_chart (bar_last row)) page /\
    last_sectors (HEADER ++ ["w2"; "h2"; "s2"]) row =
    Ok [("Wealth", Int (w f)); ("Health", Int (h f)); ("Self", Int (s f))].
Proof.
  intros RI W R N. rewrite run_page.
  destruct (append_named_lines f now1 file W R N) as (es & F & ->).
  destruct (load_named_lines _ RI F) as (rows & Fr & -> & L & Named).
  cbn [bind].
  destruct (run_after_load _ rows now2 Fr L)
    as (m & tw & tf & M & Fw & Ff & A & G).
  rewrite M. cbn [bind]. rewrite Fw. cbn [bind]. rewrite Ff. cbn [bind].
  rewrite A. cbn [bind]. rewrite G. cbn [bind].
  rewrite (decision_labels_axes _ _ G). cbn [bind].
  rewrite default_accepted.
  2:{ intros v V. apply in_map_iff in V as (row & <- & I). now apply Named. }
  cbn [bind].
  destruct (filter_by_own_labels
              (mkFrame (HEADER ++ ["w2"; "h2"; "s2"])
                 (map (fun row => row ++ axes HEADER row) rows)))
    as (labels & Lb & _ & Keep); [simpl; auto |].
  rewrite (decision_labels_axes _ _ G) in Lb. injection Lb as <-.
  rewrite Keep. cbn [bind].
  destruct (loaded_last es (f, now1) rows L)
    as (rows0 & row & -> & d & c & t & -> & _).
  eexists. eexists. split; [reflexivity |]. split.
  - apply in_or_app. right. apply in_or_app. right.
    rewrite charts_of_records.
    + right. left. reflexivity.
    + discriminate.
    + simpl. destruct rows0; discriminate.
  - cbn [values]. rewrite map_app. cbn [map].
    rewrite last_last. reflexivity.
Qed.

Lemma logged_entry_is_charted_witness :
  exists page row,
    fst (run (text := EpochText.epoch_text) (floats := EpochText.exact_means)
           (st := EpochText.same_object) (Some index_fund) 1000 2000 None
           (Some two_lines)) = Ok page /\
    In (st_plotly_chart (bar_last row)) page /\
    last_sectors (HEADER ++ ["w2"; "h2"; "s2"]) row =
    Ok [("Wealth", Int 20); ("Health", Int 0); ("Self", Int (-10))].
Proof.
  apply (logged_entry_is_charted (text := EpochText.epoch_text)
           (floats := EpochText.exact_means) (st := EpochText.same_object)
           index_fund 1000 2000 (Some two_lines)).
  - exact (proj1 epoch_text_reads_ints).
  - exact two_lines_named.
  - unfold in_slider_range. simpl. lia.
  - reflexivity.
Defined.

(** ** When the load raises *)

Lemma read_history_raises {text : PandasText} (file : option csv) (e : exn) :
  read_history file = Raise e <->
  read_csv file = Raise e /\ e <> FileNotFoundError.
Proof.
  unfold read_history. destruct (read_csv file) as [raw | e'].
  - split; [discriminate | intros (E & _); discriminate E].
  - destruct e'; split;
      try (intros [= <-]; split; [reflexivity | discriminate]);
      try (intros ([= <-] & _); reflexivity);
      try discriminate.
    intros ([= <-] & N). now destruct N.
Qed.

Lemma read_history_ok {text : PandasText} (file : option csv)
    (raw : DataFrame) :
  read_csv file = Ok raw -> read_history file = Ok raw.
Proof.
  intros R. unfold read_history. now rewrite R.
Qed.

Lemma ensure_category_time (df : DataFrame) :
  In "Time" (columns (ensure_category df)) <-> In "Time" (columns df).
Proof.
  destruct (in_dec string_dec "Category" (columns df)) as [I | N].
  - now rewrite ensure_category_old.
  - rewrite ensure_category_new by exact N. simpl. rewrite in_app_iff.
    simpl. split; [intros [T | [T | []]]; [exact T | discriminate T] | auto].
Qed.

Lemma nth_app_short {A : Type} (i : nat) (l more : list A) (d : A) :
  (i < List.length l)%nat -> nth i (l ++ more) d = nth i l d.
Proof.
  intros L. now apply app_nth1.
Qed.

(** Lines 67-68 leave the time column as it was read. *)
Lemma ensure_category_keeps_time (raw : DataFrame) (time : list value) :
  rectangular raw ->
  getitem raw "Time" = Ok time ->
  getitem (ensure_category raw) "Time" = Ok time.
Proof.
  intros T G. destruct (in_dec string_dec "Category" (columns raw)) as [I | N].
  - now rewrite ensure_category_old.
  - rewrite ensure_category_new by exact N. unfold getitem in *.
    cbn [columns values].
    destruct (index "Time" (columns raw)) as [i |] eqn:I; [| discriminate].
    rewrite (index_app_old _ _ _ _ I). injection G as <-.
    rewrite map_map. f_equal. apply map_ext_in. intros row R.
    apply nth_app_short. rewrite (T row R). now apply index_lt in I.
Qed.

(** X12. Three ways in which the load raises.  When [read_csv] raises
    something other than the missing file, an existing file without
    content or a line longer than the table, the handler of line 61
    does not catch it.  When the file has records and no "Time" column,
    line 72 raises the [KeyError].  And when it has records whose times
    carry different UTC offsets, line 72 raises [ValueError] in spite
    of [errors="coerce"]. *)
Theorem load_raises_when {text : PandasText} (file : option csv) :
  (forall e, read_csv file = Raise e -> e <> FileNotFoundError ->
     load file = Raise e) /\
  (forall raw, read_csv file = Ok raw -> values raw <> [] ->
     ~ In "Time" (columns raw) -> load file = Raise (KeyError "Time")) /\
  (forall raw time, read_csv file = Ok raw -> values raw <> [] ->
     getitem raw "Time" = Ok time -> mixed_offsets time = true ->
     load file = Raise ValueError).
Proof.
  assert (Records : forall raw, read_csv file = Ok raw -> values raw <> [] ->
            rectangular raw /\ empty (ensure_category raw) = false).
  { intros raw R V. pose proof (read_history_ok _ _ R) as H.
    destruct (read_history_shape file raw H) as (T & _).
    destruct (ensure_category_shape raw T) as (T1 & L1 & HasCat).
    split; [exact T |].
    destruct (empty (ensure_category raw)) eqn:E; [| reflexivity].
    apply empty_no_values in E; [| intros C; now rewrite C in HasCat].
    unfold len in L1. rewrite E in L1. symmetry in L1.
    now apply length_zero_iff_nil in L1. }
  split; [| split].
  - intros e R N. unfold load.
    now rewrite (proj2 (read_history_raises file e) (conj R N)).
  - intros raw R V N. destruct (Records raw R V) as (_ & E).
    unfold load. rewrite (read_history_ok _ _ R). cbn [bind].
    unfold parse_time, getitem. rewrite E. cbn [negb].
    rewrite index_none; [reflexivity |].
    intros T0. apply N. now apply ensure_category_time.
  - intros raw time R V G M. destruct (Records raw R V) as (T & E).
    unfold load. rewrite (read_history_ok _ _ R). cbn [bind].
    unfold parse_time. rewrite E. cbn [negb].
    rewrite (ensure_category_keeps_time raw time T G). cbn [bind].
    unfold to_datetime. now rewrite M.
Qed.

Lemma load_raises_when_witness :
  load (text := EpochText.epoch_text) (Some []) = Raise EmptyDataError /\
  load (text := EpochText.epoch_text)
    (Some [["Decision"; "Wealth"]; ["Walk"; "0"]]) = Raise (KeyError "Time") /\
  load (text := ZonedText.zoned_text)
    (Some [HEADER;
           ["Walk"; "Health goal"; "0"; "30"; "10"; "12:00+01:00"];
           ["Save"; "Finance"; "40"; "0"; "-5"; "12:00+02:00"]])
  = Raise ValueError.
Proof.
  split; [| split].
  - apply (load_raises_when (text := EpochText.epoch_text)).
    + reflexivity.
    + discriminate.
  - eapply (load_raises_when (text := EpochText.epoch_text)).
    + reflexivity.
    + discriminate.
    + simpl. intros [E | [E | []]]; discriminate E.
  - eapply (load_raises_when (text := ZonedText.zoned_text)).
    + reflexivity.
    + discriminate.
    + reflexivity.
    + reflexivity.
Defined.

(** ** Appending to a file that the form did not write *)

Lemma skip_blank_lines_app (lines more : csv) :
  skip_blank_lines (lines ++ more) =
  skip_blank_lines lines ++ skip_blank_lines more.
Proof.
  unfold skip_blank_lines. apply filter_app.
Qed.

Lemma skip_blank_csv_line {text : PandasText} (f : entry) (now : Z) :
  skip_blank_lines [csv_line f now] = [csv_line f now].
Proof.
  reflexivity.
Qed.



(** X14. When the table in the file has fewer than six columns, as one
    written before the category column existed, and has a record, the
    line of six fields that an append adds is longer than the table:
    the next load raises [ParserError] and the history is no longer
    readable. *)
Theorem append_to_narrow_store_breaks_load {text : PandasText}
    (f : entry) (now : Z) (lines : csv) (header first : line) (rest : csv) :
  skip_blank_lines lines = header :: first :: rest ->
  (List.length header < 6)%nat ->
  (List.length first < 6)%nat ->
  load (append f now (Some lines)) = Raise ParserError.
Proof.
  intros S Lh Lf. rewrite append_lines. unfold load, read_history, read_csv.
  rewrite skip_blank_lines_app, S, skip_blank_csv_line. cbn [app hd].
  replace (existsb _ (first :: rest ++ [csv_line f now])) with true;
    [reflexivity |].
  symmetry. apply existsb_exists. exists (csv_line f now). split.
  - right. apply in_or_app. right. now left.
  - apply Nat.ltb_lt. simpl. lia.
Qed.

Lemma append_to_narrow_store_breaks_load_witness :
  load (text := EpochText.epoch_text)
    (append (text := EpochText.epoch_text) index_fund 1000 (Some legacy_store))
  = Raise ParserError.
Proof.
  apply (append_to_narrow_store_breaks_load (text := EpochText.epoch_text)
           index_fund 1000 legacy_store
           ["Decision"; "Wealth"; "Health"; "Self"; "Time"]
           ["Walk"; "0"; "30"; "10"; "86400000000007"]
           [["Save"; "40"; "0"; "-5"; "172800000000000"]]).
  - reflexivity.
  - simpl. lia.
  - simpl. lia.
Defined.

(** ** A store written before the category existed, after a submission *)

Lemma legacy_not_blank (rows : csv) :
  (forall l, In l rows -> List.length l = 5%nat) ->
  skip_blank_lines (LEGACY_HEADER :: rows) = LEGACY_HEADER :: rows.
Proof.
  intros Five. unfold skip_blank_lines. apply filter_all.
  intros l [<- | I]; [reflexivity |].
  specialize (Five l I). destruct l as [| a [| b l]]; try discriminate Five.
  reflexivity.
Qed.

(** What [read_csv] makes of a store of five columns. *)
Lemma read_csv_legacy {text : PandasText} (rows : csv) :
  (forall l, In l rows -> List.length l = 5%nat) ->
  read_csv (Some (LEGACY_HEADER :: rows)) =
  Ok (mkFrame LEGACY_HEADER
        (map (zip_with convert
                (map (fun j => infer_dtype (column_tokens j rows)) (seq 0 5)))
             rows)).
Proof.
  intros Five. unfold read_csv. rewrite (legacy_not_blank rows Five).
  assert (W : Nat.max (List.length LEGACY_HEADER)
                (List.length (hd [] rows)) = 5%nat).
  { destruct rows as [| l rows]; [reflexivity |].
    cbn [hd]. rewrite (Five l (or_introl eq_refl)). reflexivity. }
  rewrite W. rewrite existsb_none.
  - replace (mangle_dupe_cols LEGACY_HEADER) with LEGACY_HEADER
      by (vm_compute; reflexivity).
    replace (map (fun l => skipn (5 - List.length LEGACY_HEADER) (pad 5 l))
               rows) with rows; [reflexivity |].
    rewrite <- (map_id rows) at 1. apply map_ext_in. intros l I.
    unfold pad. rewrite (Five l I). cbn. now rewrite app_nil_r.
  - intros l I. rewrite (Five l I). reflexivity.
Qed.

(** C7. A store of the five columns that were written before the
    category column existed is loaded with the category
    "Uncategorized" in every record, provided its times carry no
    UTC offset.  But once an entry has been submitted on it, the line of
    six fields that was added is longer than the table: the load of the
    same run raises [ParserError], and no stored row is loaded any
    more, with or without a category. *)
Theorem legacy_rows_lost_after_submission {text : PandasText}
    (f : entry) (now : Z) (rows : csv) :
  rows <> [] ->
  (forall l, In l rows -> List.length l = 5%nat) ->
  ((forall l, In l rows -> utc_offset (nth 4 l "") = None) ->
   exists df,
     load (Some (LEGACY_HEADER :: rows)) = Ok df /\
     len df = List.length rows /\
     (forall row, In row (values df) ->
        field (columns df) "Category" row = Str "Uncategorized")) /\
  load (append f now (Some (LEGACY_HEADER :: rows))) = Raise ParserError.
Proof.
  intros NE Five. split.
  - intros Naive. pose proof (read_csv_legacy rows Five) as R.
    set (raw := mkFrame LEGACY_HEADER _) in R.
    assert (NoCat : ~ In "Category" (columns raw)).
    { simpl. intros [E | [E | [E | [E | [E | []]]]]]; discriminate E. }
    assert (G : exists time,
              getitem (ensure_category raw) "Time" = Ok time /\
              mixed_offsets time = false).
    { rewrite ensure_category_new by exact NoCat.
      unfold getitem. cbn [columns values raw].
      change (index "Time" (LEGACY_HEADER ++ ["Category"])) with (Some 4%nat).
      eexists. split; [reflexivity |].
      apply mixed_offsets_naive. intros v V. rewrite !map_map in V.
      apply in_map_iff in V as (l & <- & I).
      pose proof (Five l I) as L5. specialize (Naive l I).
      destruct l as [| a [| b [| c [| d [| e [| x l]]]]]]; try discriminate L5.
      cbn [seq map zip_with app nth] in *.
      now apply cell_offset_convert. }
    destruct G as (time & G & M).
    destruct (parse_time_ok _ _ G M) as (df & P).
    assert (L : load (Some (LEGACY_HEADER :: rows)) = Ok df).
    { unfold load. rewrite (read_history_ok _ _ R). exact P. }
    destruct (backfilled_when_loaded _ raw df R NoCat L) as (Len & Cat).
    exists df. split; [exact L |]. split; [| exact Cat].
    rewrite Len. unfold data_lines. now rewrite (legacy_not_blank rows Five).
  - rewrite append_lines. unfold load, read_history, read_csv.
    rewrite skip_blank_lines_app, (legacy_not_blank rows Five),
      skip_blank_csv_line.
    destruct rows as [| first rest]; [congruence |]. cbn [app hd].
    rewrite (Five first (or_introl eq_refl)).
    replace (existsb _ (first :: rest ++ [csv_line f now])) with true;
      [reflexivity |].
    symmetry. apply existsb_exists. exists (csv_line f now). split.
    + right. apply in_or_app. right. now left.
    + reflexivity.
Qed.

Lemma legacy_rows_lost_after_submission_witness :
  (exists df,
     load (text := EpochText.epoch_text) (Some legacy_store) = Ok df /\
     len df = 2%nat /\
     (forall row, In row (values df) ->
        field (columns df) "Category" row = Str "Uncategorized")) /\
  load (text := EpochText.epoch_text)
    (append (text := EpochText.epoch_text) index_fund 1000 (Some legacy_store))
  = Raise ParserError.
Proof.
  destruct (legacy_rows_lost_after_submission (text := EpochText.epoch_text)
              index_fund 1000
              [["Walk"; "0"; "30"; "10"; "86400000000007"];
               ["Save"; "40"; "0"; "-5"; "172800000000000"]])
    as (Before & After).
  - discriminate.
  - intros l [<- | [<- | []]]; reflexivity.
  - split; [| exact After]. apply Before.
    intros l [<- | [<- | []]]; reflexivity.
Defined.

(** ** A score that was loaded as text *)

Lemma mapM_as_number_text (col : list value) (s0 : string) :
  In (Str s0) col -> mapM as_number col = Raise TypeError.
Proof.
  induction col as [| v col IH]; simpl; [intros [] |].
  intros [-> | I]; [reflexivity |].
  destruct v; simpl; try reflexivity; now rewrite IH.
Qed.

(** X15. When a record of the loaded history has text under "Wealth", which
    is what [read_csv] leaves of a column with a token that is not a
    number, the summary raises [TypeError]: nothing in the script keeps
    the scores numeric. *)
Theorem text_wealth_breaks_summary {text : PandasText}
    {floats : PandasFloats}
    (file : option csv) (df : DataFrame) (now : Z) (row : list value)
    (s0 : string) :
  load file = Ok df ->
  In row (values df) ->
  cell (columns df) "Wealth" row = Some (Str s0) ->
  summarize now df = Raise TypeError.
Proof.
  intros L R C. destruct (load_shape file df L) as (Cols & _ & _ & T).
  assert (V : values df <> []) by (intros E; now rewrite E in R).
  destruct (T V) as (i & I & Times).
  destruct (cell_index _ _ _ _ C) as (j & J & N).
  unfold summarize.
  replace (empty df) with false.
  2:{ symmetry. destruct (empty df) eqn:E; [| reflexivity].
      now apply (empty_no_values df Cols) in E. }
  cbn [negb]. rewrite (count_today_eq df now i I Times). cbn [bind].
  unfold getitem. rewrite J. cbn [bind]. unfold mean.
  rewrite (mapM_as_number_text _ s0); [reflexivity |].
  rewrite <- N. now apply (in_map (fun r => nth j r NaN)).
Qed.

Lemma text_wealth_breaks_summary_witness :
  exists df,
    load (text := EpochText.epoch_text)
      (Some [HEADER; ["Walk"; "Work"; "a lot"; "30"; "10"; "0"]]) = Ok df /\
    summarize (floats := EpochText.exact_means) 0 df = Raise TypeError.
Proof.
  eexists. split; [reflexivity |].
  apply (text_wealth_breaks_summary (text := EpochText.epoch_text)
           (floats := EpochText.exact_means)
           (Some [HEADER; ["Walk"; "Work"; "a lot"; "30"; "10"; "0"]]) _ 0
           [Str "Walk"; Str "Work"; Str "a lot"; Int 30; Int 10; Timestamp 0]
           "a lot").
  - reflexivity.
  - now left.
  - reflexivity.
Defined.

(** ** The warning and the negative flags *)

(** X16. The count that lines 80-83 take of a record, the number of its
    scores below zero, is for the record of an entry the number of
    sectors that the error message names: so it is for the record that
    is written, and so it is for the record as it is loaded again.  No
    sector is named both as negative and as zero; at most one message
    is shown, and none at all exactly when the three scores are
    positive. *)
Theorem warning_matches_flags {text : PandasText} (f : entry) (now : Z) :
  mapM (neg_flags (columns (df_new f now))) (values (df_new f now))
  = Ok [Int (Z.of_nat (List.length (negative f)))] /\
  (forall row, loaded_as (f, now) row ->
     neg_flags HEADER row = Ok (Int (Z.of_nat (List.length (negative f))))) /\
  (forall name, In name (negative f) -> ~ In name (zero f)) /\
  (List.length (impact_warning f) <= 1)%nat /\
  (impact_warning f = [] <-> 0 < w f /\ 0 < h f /\ 0 < s f).
Proof.
  assert (Flags : forall d c t,
            neg_flags HEADER [d; c; Int (w f); Int (h f); Int (s f); t]
            = Ok (Int (Z.of_nat (List.length (negative f))))).
  { intros d c t. unfold neg_flags, getattr, cell, negative, sectors.
    cbn [HEADER index String.eqb Ascii.eqb Bool.eqb option_map nth_error
         bind mapM lt0 filter map fst snd].
    destruct (w f <? 0), (h f <? 0), (s f <? 0); reflexivity. }
  split; [| split].
  - unfold df_new. cbn [columns values mapM]. rewrite Flags. reflexivity.
  - intros row (d & c & t & -> & _). apply Flags.
  - unfold impact_warning.
    split_signs f; repeat split; intros; in_names; try lia;
      try discriminate; auto;
      subst name; intros Both; in_names.
Qed.

(** ** The labels of the multiselect *)

Lemma value_eqb_sym (a b : value) : value_eqb a b = value_eqb b a.
Proof.
  destruct a, b; simpl; try reflexivity;
    try apply String.eqb_sym; try apply Z.eqb_sym;
    unfold Qeq_bool; apply Z.eqb_sym.
Qed.

Lemma unique_from_distinct (col seen : list value) :
  (forall v, In v (unique_from seen col) ->
     existsb (value_eqb v) seen = false) /\
  distinct (unique_from seen col).
Proof.
  revert seen. induction col as [| x col IH]; intros seen; simpl.
  - split; [intros v [] | exact I].
  - destruct (existsb (value_eqb x) seen) eqn:S; [apply IH |].
    destruct (IH (x :: seen)) as (Out & D). split.
    + intros v [<- | V]; [exact S |].
      specialize (Out v V). simpl in Out.
      now apply Bool.orb_false_iff in Out.
    + simpl. split; [| exact D].
      apply existsb_none. intros u U. specialize (Out u U). simpl in Out.
      apply Bool.orb_false_iff in Out as (Out & _).
      now rewrite value_eqb_sym.
Qed.

(** X17. The labels offered by the multiselect are pairwise different, each
    of them is the decision of some record, and the decision of every
    record is among them: each decision is offered once. *)
Theorem decision_labels_once (df : DataFrame) :
  In "Decision" (columns df) ->
  exists labels,
    decision_labels df = Ok labels /\
    distinct labels /\
    (forall v, In v labels ->
       exists row, In row (values df) /\ field (columns df) "Decision" row = v) /\
    (forall row, In row (values df) ->
       existsb (value_eqb (field (columns df) "Decision" row)) labels = true).
Proof.
  intros D. destruct (index_in _ _ D) as (i & E).
  exists (unique (map (fun row => nth i row NaN) (values df))).
  split; [unfold decision_labels, getitem; now rewrite E |].
  split; [apply unique_from_distinct |]. split.
  - intros v V. apply unique_from_occurs, in_map_iff in V as (row & <- & R).
    exists row. split; [exact R | now apply field_nth].
  - intros row R. rewrite (field_nth _ _ i row E).
    apply unique_covers. now apply (in_map (fun row => nth i row NaN)).
Qed.

Lemma decision_labels_once_witness :
  decision_labels two_walks = Ok [Str "Walk"; Str "Save"] /\
  distinct [Str "Walk"; Str "Save"].
Proof.
  destruct (decision_labels_once two_walks) as (labels & L & D & _).
  - simpl. auto.
  - assert (E : labels = [Str "Walk"; Str "Save"])
      by (cbv in L; congruence).
    subst labels. split; [exact L | exact D].
Defined.

Lemma warning_matches_flags_witness :
  neg_flags HEADER
    [Str "Buy index fund"; Str "Finance"; Int 20; Int 0; Int (-10);
     Timestamp 1000]
  = Ok (Int 1) /\
  negative index_fund = ["Self"] /\
  ~ In "Self" (zero index_fund).
Proof.
  destruct (warning_matches_flags (text := EpochText.epoch_text)
              index_fund 1000) as (_ & L & Z0 & _).
  split; [| split; [reflexivity |]].
  - apply L. exists (Str "Buy index fund"), (Str "Finance"), (Timestamp 1000).
    split; [reflexivity | exact I].
  - apply Z0. simpl. auto.
Defined.

(** ** Selecting twice *)

Lemma filter_twice {A : Type} (p : A -> bool) (l : list A) :
  filter p (filter p l) = filter p l.
Proof.
  induction l as [| a l IH]; simpl; [reflexivity |].
  destruct (p a) eqn:P; simpl; [rewrite P; f_equal |]; exact IH.
Qed.

(** X18. The selection only drops records: what it keeps is not longer than
    the frame, every kept record has one of the chosen labels as its
    decision, so the labels of the kept records are among the chosen
    ones, and selecting again with the same labels changes nothing. *)
Theorem filter_decisions_settles (df df2 : DataFrame) (sel : list value) :
  In "Decision" (columns df) ->
  filter_decisions df sel = Ok df2 ->
  (len df2 <= len df)%nat /\
  (forall row, In row (values df2) ->
     In row (values df) /\ labelled (columns df) sel row = true) /\
  filter_decisions df2 sel = Ok df2.
Proof.
  intros D F. rewrite filter_decisions_eq in F by exact D.
  injection F as <-. split; [| split].
  - unfold len. simpl. apply filter_length_le.
  - simpl. intros row R. now apply filter_In in R.
  - rewrite filter_decisions_eq by exact D. simpl. now rewrite filter_twice.
Qed.

Lemma filter_decisions_settles_witness :
  exists df2,
    filter_decisions two_walks [Str "Walk"] = Ok df2 /\
    len df2 = 2%nat /\
    filter_decisions df2 [Str "Walk"] = Ok df2.
Proof.
  eexists. split; [reflexivity |]. split; [reflexivity |].
  apply (filter_decisions_settles two_walks _ [Str "Walk"]).
  - simpl. auto.
  - reflexivity.
Defined.

(** ** The entry that comes back *)

Lemma plain_decision_round_trip_witness :
  exists df t,
    load (text := EpochText.epoch_text)
      (append (text := EpochText.epoch_text) index_fund 1000 (Some two_lines))
    = Ok df /\
    last (values df) [] =
    [Str "Buy index fund"; Str "Finance"; Int 20; Int 0; Int (-10); t].
Proof.
  destruct (plain_decision_round_trip (text := EpochText.epoch_text)
              index_fund 1000 (Some two_lines))
    as (df & t & L & _ & V).
  - exact (proj1 epoch_text_reads_ints).
  - exact (proj2 epoch_text_reads_ints).
  - exact (proj1 two_lines_by_form).
  - unfold in_slider_range. simpl. lia.
  - repeat split.
  - exists df, t. split; [exact L | exact V].
Defined.

(** ** The text columns of a store written by the form *)



(** X6. When every decision of the store reads as an integer, the decisions
    come back as those integers and not as the texts that were typed:
    the labels "7" and "007" are one label after the load. *)
Theorem numeric_decisions_become_numbers {text : PandasText}
    (es : list (entry * Z)) :
  reads_slider_ints ->
  Forall (fun p => in_slider_range (fst p)) es ->
  es <> [] ->
  (forall p, In p es ->
     is_na (decision (fst p)) = false /\
     str_to_int64 (decision (fst p)) <> None) ->
  exists df,
    load (Some (HEADER :: csv_lines es)) = Ok df /\
    getitem df "Decision" =
    Ok (map (fun p => match str_to_int64 (decision (fst p)) with
                      | Some z => Int z
                      | None => NaN
                      end) es).
Proof.
  intros RI F NE A.
  destruct (load_form_store_text es RI F NE) as (rows & L & D & _).
  exists (mkFrame HEADER rows). split; [exact L |].
  unfold getitem. simpl. rewrite D.
  replace (infer_dtype (column_tokens 0 (csv_lines es))) with int64.
  2:{ symmetry. unfold column_tokens, csv_lines. rewrite map_map.
      apply infer_int64; [destruct es; [congruence | discriminate] |].
      intros tok T. apply in_map_iff in T as (p & <- & I).
      destruct (A p I) as (N & Z0). split; [exact N |].
      unfold csv_line. cbn [nth].
      destruct (str_to_int64 (decision (fst p))); [reflexivity | congruence]. }
  f_equal. apply map_ext_in. intros p I. destruct (A p I) as (N & Z0).
  unfold convert. rewrite N.
  destruct (str_to_int64 (decision (fst p))); [reflexivity | congruence].
Qed.

Lemma numeric_decisions_become_numbers_witness :
  exists df,
    load (text := EpochText.epoch_text)
      (Some (HEADER :: csv_lines (text := EpochText.epoch_text)
                         [(mkEntry "7" Work 1 2 3, 0);
                          (mkEntry "007" Other 0 0 0, 5)])) = Ok df /\
    getitem df "Decision" = Ok [Int 7; Int 7].
Proof.
  apply (numeric_decisions_become_numbers (text := EpochText.epoch_text)
           [(mkEntry "7" Work 1 2 3, 0); (mkEntry "007" Other 0 0 0, 5)]).
  - exact (proj1 epoch_text_reads_ints).
  - repeat constructor; simpl; lia.
  - discriminate.
  - simpl. intros p [<- | [<- | []]]; split; (reflexivity || discriminate).
Defined.

(** ** What a run does to the file and shows on the first visit *)

(** On a visit without a file and without a submission the page shows
    the count of today at zero and the two averages as the texts 0.0
    and 0.00, with the notice that there are no decisions, and no file
    is created. *)
Theorem first_visit {text : PandasText} {floats : PandasFloats}
    {st : Streamlit} (now1 now2 : Z) (pick : option (list value)) :
  run None now1 now2 pick None =
  (Ok [st_metric "Decisions Today" (Int 0);
       st_metric "Avg Wealth Impact" (Str "0.0");
       st_metric "Avg Negative Flags" (Str "0.00");
       st_info "No decisions to show."],
   None).
Proof.
  destruct pick; reflexivity.
Qed.

(** ** The default selection on a first run without a decision *)

(** C10. Selecting with all the labels of the decision column keeps the
    whole frame, and when no decision of the column is missing the
    multiselect accepts these labels as its default, so that the charts
    are drawn from every loaded record.  But on the first run, when the
    form is submitted with a decision that reads as a missing value,
    as the empty text of the untouched form does, the only label is a
    float [nan], the multiselect does not find it among its options,
    and the run ends in the exception of line 101 before any chart is
    drawn. *)
Theorem default_selection_refused {text : PandasText}
    {floats : PandasFloats} {st : Streamlit}
    (f : entry) (now1 now2 : Z) :
  (forall df, In "Decision" (columns df) ->
     exists labels,
       decision_labels df = Ok labels /\
       (forall row, In row (values df) ->
          labelled (columns df) labels row = true) /\
       filter_decisions df labels = Ok df) /\
  (forall col pick, (forall v, In v col -> isna v = false) ->
     multiselect (is_float64 col) (unique col) (unique col) pick =
     Ok (match pick with
         | Some sel => sel
         | None => unique col
         end)) /\
  (reads_slider_ints -> in_slider_range f -> is_na (decision f) = true ->
   fst (run (Some f) now1 now2 None None) = Raise StreamlitAPIException).
Proof.
  split; [exact filter_by_own_labels |]. split; [exact default_accepted |].
  intros RI R N. rewrite run_page.
  destruct (first_run_missing f now1 N) as (rest & L0).
  rewrite append_lines in *.
  assert (F : Forall (fun p : entry * Z => in_slider_range (fst p))
                [(f, now1)]) by now constructor.
  destruct (load_form_store [(f, now1)] RI F) as (rows & L & Rows).
  change (HEADER :: csv_lines [(f, now1)]) with [HEADER; csv_line f now1] in L.
  assert (E : rows = [NaN :: rest]) by congruence. subst rows.
  rewrite L. cbn [bind].
  destruct (run_after_load [(f, now1)] _ now2 F Rows)
    as (m & tw & tf & M & Fw & Ff & A & G).
  rewrite M. cbn [bind]. rewrite Fw. cbn [bind]. rewrite Ff. cbn [bind].
  rewrite A. cbn [bind]. rewrite G. cbn [bind].
  rewrite (decision_labels_axes _ _ G). cbn [bind map nth].
  rewrite default_refused; [reflexivity | reflexivity | now left].
Qed.

Lemma default_selection_refused_witness :
  fst (run (text := EpochText.epoch_text) (floats := EpochText.exact_means)
         (st := EpochText.same_object) (Some unnamed) 1000 2000 None None)
  = Raise StreamlitAPIException.
Proof.
  apply (default_selection_refused (text := EpochText.epoch_text)
           (floats := EpochText.exact_means) (st := EpochText.same_object)
           unnamed 1000 2000).
  - exact (proj1 epoch_text_reads_ints).
  - unfold in_slider_range. simpl. lia.
  - reflexivity.
Defined.

(** ** The day that counts as today *)

Lemma normalize_floor (t : Z) :
  normalize t <= t < normalize t + NS_PER_DAY.
Proof.
  unfold normalize.
  assert (P : 0 < NS_PER_DAY) by reflexivity.
  pose proof (Z.mod_pos_bound t NS_PER_DAY P). lia.
Qed.

(** X20. Lines 76-77 compare midnights, so a record counts as of today
    exactly when its timestamp lies in the day of the clock, from its
    midnight on and before the next one; the clock itself lies in that
    day, and a record with the invalid marker is in no day. *)
Theorem today_is_the_day_of_the_clock (now t : Z) :
  (eq_timestamp (normalize now) (midnight (Timestamp t)) = true <->
   normalize now <= t < normalize now + NS_PER_DAY) /\
  normalize now <= now < normalize now + NS_PER_DAY /\
  eq_timestamp (normalize now) (midnight NaT) = false.
Proof.
  split; [| split; [apply normalize_floor | reflexivity]].
  simpl. rewrite Z.eqb_eq. pose proof (normalize_floor t) as Ft.
  rewrite !normalize_date in *.
  assert (P : 0 < NS_PER_DAY) by reflexivity.
  split.
  - intros <-. exact Ft.
  - intros B. f_equal. nia.
Qed.

Lemma today_is_the_day_of_the_clock_witness :
  eq_timestamp (normalize 86400000000999)
    (midnight (Timestamp 86400000000007)) = true.
Proof.
  apply (today_is_the_day_of_the_clock 86400000000999 86400000000007).
  vm_compute. split; [intros E; discriminate E | reflexivity].
Defined.
